(** * Subscription billing: stored procedures of the subscriptions table

    A shallow embedding of the PL/pgSQL functions that maintain the
    [subscriptions] table (period calculation, billing text, accuracy
    check, the before-row trigger, the webhook upsert, the access status
    query, cancel and reactivate), with the properties of the
    specification proved or refuted on them. The payment provider's
    webhook endpoint, which calls the upsert, and the client's subscription
    service and billing page, which read the access status and call cancel
    and reactivate, are embedded after the stored procedures.

    Conventions.
    - [timestamptz] is PostgreSQL's own representation: microseconds since
      2000-01-01 00:00:00 UTC, as an integer.
    - The session time zone is UTC (the database default of the hosting
      platform), so a day is 86400 seconds and the civil date of an instant
      is its UTC date.
    - [now()] is the start time of the running transaction; every
      procedure call is one transaction and receives it as [now]. *)

From Stdlib Require Import ZArith List String Ascii Bool Lia DecimalString.
Import ListNotations.
Open Scope Z_scope.

(** ** The host: timestamps, intervals and the calendar *)

Module Calendar.

Definition timestamptz := Z.

Definition USECS_PER_DAY : Z := 86400000000.

(** Days before 2000-01-01 counted from 0000-03-01 (proleptic Gregorian). *)
Definition EPOCH_SHIFT : Z := 730425.

Definition isleap (y : Z) : bool :=
  ((y mod 4 =? 0) && negb (y mod 100 =? 0)) || (y mod 400 =? 0).

(** [day_tab leap m]: length of month [m] (1..12). *)
Definition day_tab (leap : bool) (m : Z) : Z :=
  if m =? 2 then (if leap then 29 else 28)
  else if (m =? 4) || (m =? 6) || (m =? 9) || (m =? 11) then 30
  else 31.

(** Day number (0 = 2000-01-01) of a civil date. The year is counted from
    March so that the leap day is the last day of the counted year. *)
Definition civil_to_days (y m d : Z) : Z :=
  let y' := if m <=? 2 then y - 1 else y in
  let mp := if m <=? 2 then m + 9 else m - 3 in
  365 * y' + y' / 4 - y' / 100 + y' / 400 + (153 * mp + 2) / 5 + d - 1
  - EPOCH_SHIFT.

(** Civil date (year, month, day) of a day number: the 400-year era, the
    century in it, the 4-year cycle in the century and the year in the
    cycle are split off in turn (the last century of an era and the last
    year of a cycle are one day longer), then the month counted from
    March. *)
Definition days_to_civil (j : Z) : Z * Z * Z :=
  let z := j + EPOCH_SHIFT in
  let era := z / 146097 in
  let doe := z mod 146097 in
  let c := Z.min 3 (doe / 36524) in
  let doc := doe - 36524 * c in
  let q := doc / 1461 in
  let doq := doc - 1461 * q in
  let a := Z.min 3 (doq / 365) in
  let doy := doq - 365 * a in
  let yoe := 100 * c + 4 * q + a in
  let mp := (5 * doy + 2) / 153 in
  let d := doy - (153 * mp + 2) / 5 + 1 in
  let m := if mp <? 10 then mp + 3 else mp - 9 in
  (yoe + era * 400 + (if m <=? 2 then 1 else 0), m, d).

(** SQL [interval]: months, days and microseconds are kept apart. *)
Record interval := mkInterval { month : Z; day : Z; time : Z }.

Definition INTERVAL_days (n : Z) : interval := mkInterval 0 n 0.
Definition INTERVAL_months (n : Z) : interval := mkInterval n 0 0.
Definition INTERVAL_years (n : Z) : interval := mkInterval (12 * n) 0 0.

(** [timestamptz - timestamptz]: the difference in microseconds, with whole
    days moved to the day field; C division, so both fields carry the sign
    of the difference. *)
Definition timestamp_mi (t1 t2 : timestamptz) : interval :=
  let span := t1 - t2 in
  mkInterval 0 (Z.quot span USECS_PER_DAY) (Z.rem span USECS_PER_DAY).

(** [EXTRACT(DAY FROM interval)]. *)
Definition EXTRACT_DAY (i : interval) : Z := day i.

(** Month part of [timestamptz + interval]: the civil date moves by whole
    months, the day of the month is clamped to the length of the target
    month, the time of day is kept. *)
Definition pl_months (t : timestamptz) (n : Z) : timestamptz :=
  let date := t / USECS_PER_DAY in
  let tod := t mod USECS_PER_DAY in
  let '(y, m, d) := days_to_civil date in
  let mon := m + n in
  let y2 := y + (mon - 1) / 12 in
  let m2 := (mon - 1) mod 12 + 1 in
  let d2 := Z.min d (day_tab (isleap y2) m2) in
  civil_to_days y2 m2 d2 * USECS_PER_DAY + tod.

(** [timestamptz + interval]: months first, then days, then the time. *)
Definition timestamptz_pl_interval (t : timestamptz) (span : interval)
  : timestamptz :=
  let t1 := if month span =? 0 then t else pl_months t (month span) in
  let t2 := if day span =? 0 then t1 else t1 + day span * USECS_PER_DAY in
  t2 + time span.

(** A timestamp from its UTC fields, for writing examples. *)
Definition make_timestamptz (y m d hh mi ss : Z) : timestamptz :=
  civil_to_days y m d * USECS_PER_DAY + ((hh * 60 + mi) * 60 + ss) * 1000000.

(** *** Text output *)

Definition text_of_integer (n : Z) : string :=
  NilZero.string_of_int (Z.to_int n).

Definition zero_pad (width : nat) (s : string) : string :=
  (string_of_list_ascii (repeat "0"%char (width - String.length s))
   ++ s)%string.

Definition month_abbrev (m : Z) : string :=
  nth (Z.to_nat (m - 1))
      ["Jan"; "Feb"; "Mar"; "Apr"; "May"; "Jun";
       "Jul"; "Aug"; "Sep"; "Oct"; "Nov"; "Dec"]%string ""%string.

(** [to_char(t, 'Mon DD, YYYY')]. Years before 1 are printed as their BC
    number, as the template has no era field. *)
Definition to_char_Mon_DD_YYYY (t : timestamptz) : string :=
  let '(y, m, d) := days_to_civil (t / USECS_PER_DAY) in
  let shown_year := if y <=? 0 then - (y - 1) else y in
  (month_abbrev m ++ " " ++ zero_pad 2 (text_of_integer d) ++ ", "
   ++ zero_pad 4 (text_of_integer shown_year))%string.

End Calendar.

Import Calendar.

(** ** The subscriptions table and its stored procedures *)

Module Billing.

Definition text := string.
Definition uuid := N.
Bind Scope string_scope with text.
Bind Scope N_scope with uuid.

(** Enum [subscription_status]; its labels are those of the client's
    [Subscription] interface. *)
Inductive subscription_status := active | expired | cancelled | past_due.

Definition subscription_status_eqb (a b : subscription_status) : bool :=
  match a, b with
  | active, active | expired, expired
  | cancelled, cancelled | past_due, past_due => true
  | _, _ => false
  end.

(** The cast [p_status::subscription_status]: a label of the enum, or an
    error. *)
Definition subscription_status_in (s : text) : option subscription_status :=
  if (s =? "active")%string then Some active
  else if (s =? "expired")%string then Some expired
  else if (s =? "cancelled")%string then Some cancelled
  else if (s =? "past_due")%string then Some past_due
  else None.

(** A value of [subscription_plan_type] is identified by its label, which
    is what the procedures compare it with; a label outside the four known
    ones takes the [ELSE] branches. *)
Definition subscription_plan_type := text.
Bind Scope string_scope with subscription_plan_type.

(** A row of [subscriptions]. The two derived columns are nullable. *)
Record subscriptions := mkSubscription {
  id : uuid;
  user_id : uuid;
  plan_type : subscription_plan_type;
  status : subscription_status;
  stripe_subscription_id : option text;
  stripe_customer_id : option text;
  current_period_start : timestamptz;
  current_period_end : timestamptz;
  billing_period_text : option text;
  billing_period_accurate : option bool;
  created_at : timestamptz;
  updated_at : timestamptz
}.

(** The table, in scan order. *)
Definition table := list subscriptions.

(** [COALESCE(a, b)] with a nullable second argument, and with one that is
    never null. *)
Definition COALESCE {A : Type} (a b : option A) : option A :=
  match a with Some _ => a | None => b end.

Definition COALESCE_to {A : Type} (a : option A) (b : A) : A :=
  match a with Some v => v | None => b end.

(** *** Period calculator *)

Definition calculate_subscription_period_end
    (plan_type : subscription_plan_type) (period_start : timestamptz)
  : timestamptz :=
  if (plan_type =? "trial")%string then
    timestamptz_pl_interval period_start (INTERVAL_days 30)
  else if (plan_type =? "monthly")%string then
    timestamptz_pl_interval period_start (INTERVAL_months 1)
  else if (plan_type =? "semiannual")%string then
    timestamptz_pl_interval period_start (INTERVAL_months 6)
  else if (plan_type =? "annual")%string then
    timestamptz_pl_interval period_start (INTERVAL_years 1)
  else
    timestamptz_pl_interval period_start (INTERVAL_days 30).

(** *** Billing text and accuracy check *)

Definition generate_billing_period_text (now : timestamptz)
    (period_start period_end : timestamptz)
    (plan_type : subscription_plan_type) : text :=
  let actual_days := EXTRACT_DAY (timestamp_mi period_end period_start) in
  let is_expired := period_end <=? now in
  let start_formatted := to_char_Mon_DD_YYYY period_start in
  let end_formatted := to_char_Mon_DD_YYYY period_end in
  let duration_text :=
    if (plan_type =? "trial")%string then
      (text_of_integer actual_days ++ " day trial")%string
    else if (plan_type =? "monthly")%string then "1 month"%string
    else if (plan_type =? "semiannual")%string then "6 months"%string
    else if (plan_type =? "annual")%string then "1 year"%string
    else (text_of_integer actual_days ++ " days")%string in
  let status_prefix :=
    if is_expired then "Expired: "%string else ""%string in
  (status_prefix ++ start_formatted ++ " – " ++ end_formatted
   ++ " (" ++ duration_text ++ ")")%string.

Definition validate_billing_period_accuracy
    (period_start period_end : timestamptz)
    (plan_type : subscription_plan_type) : bool :=
  let tolerance_days := 2 in
  let expected_end :=
    calculate_subscription_period_end plan_type period_start in
  let actual_days := EXTRACT_DAY (timestamp_mi period_end period_start) in
  let expected_days :=
    EXTRACT_DAY (timestamp_mi expected_end period_start) in
  Z.abs (actual_days - expected_days) <=? tolerance_days.

(** Trigger function: [NEW] with both derived columns recomputed. *)
Definition update_billing_period_text (now : timestamptz)
    (NEW : subscriptions) : subscriptions :=
  mkSubscription
    (id NEW) (user_id NEW) (plan_type NEW) (status NEW)
    (stripe_subscription_id NEW) (stripe_customer_id NEW)
    (current_period_start NEW) (current_period_end NEW)
    (Some (generate_billing_period_text now
             (current_period_start NEW) (current_period_end NEW)
             (plan_type NEW)))
    (Some (validate_billing_period_accuracy
             (current_period_start NEW) (current_period_end NEW)
             (plan_type NEW)))
    (created_at NEW) (updated_at NEW).

(** *** Transactions

    A procedure body is a computation over the table that either returns
    a value or raises an exception with its message. The table is threaded
    through a raise too, so that a theorem saying the table is unchanged
    by a failing call shows that nothing was written before the raise.
    [RAISE NOTICE] only writes to the log and is left out. *)

Definition exception := text.

Definition Tx (A : Type) : Type := table -> (exception + A) * table.

Definition ret {A : Type} (a : A) : Tx A := fun t => (inr a, t).

Definition bind {A B : Type} (m : Tx A) (k : A -> Tx B) : Tx B :=
  fun t =>
    match m t with
    | (inl e, t') => (inl e, t')
    | (inr a, t') => k a t'
    end.

Definition RAISE_EXCEPTION {A : Type} (msg : text) : Tx A :=
  fun t => (inl msg, t).

Declare Scope tx_scope.
Delimit Scope tx_scope with tx.
Notation "x <- m ;; k" := (bind m (fun x => k))
  (at level 61, m at next level, right associativity) : tx_scope.
Notation "m ;; k" := (bind m (fun _ => k))
  (at level 61, right associativity) : tx_scope.
Open Scope tx_scope.

(** [SELECT * INTO rec FROM subscriptions WHERE user_id = p]: the first
    matching row in scan order; [None] is [NOT FOUND]. *)
Definition SELECT_INTO_WHERE_user_id (p_user_id : uuid)
  : Tx (option subscriptions) :=
  fun t => (inr (find (fun r => (user_id r =? p_user_id)%N) t), t).

(** [UPDATE subscriptions SET ... WHERE cond]: every matching row is
    replaced by what the before-row trigger returns for the assigned row.
    The value is the list of written rows, as [RETURNING *] gives them. *)
Definition UPDATE_subscriptions (now : timestamptz)
    (SET : subscriptions -> subscriptions) (WHERE : subscriptions -> bool)
  : Tx (list subscriptions) :=
  fun t =>
    let t' := map (fun r => if WHERE r
                            then update_billing_period_text now (SET r)
                            else r) t in
    (inr (filter WHERE t'), t').

(** Modelled from the spec: the column defaults of the table declaration,
    which is not part of the sources ([id] is generated on creation,
    [created_at] and [updated_at] are timestamps of the write; the derived
    columns have no default and are set by the trigger).

    [INSERT INTO subscriptions (user_id, plan_type, status,
    stripe_subscription_id, stripe_customer_id, current_period_start,
    current_period_end) VALUES (...)] with the before-row trigger. *)
Definition INSERT_INTO_subscriptions (now : timestamptz) (generated_id : uuid)
    (v_user_id : uuid) (v_plan_type : subscription_plan_type)
    (v_status : subscription_status)
    (v_stripe_subscription_id v_stripe_customer_id : option text)
    (v_current_period_start v_current_period_end : timestamptz)
  : Tx (list subscriptions) :=
  fun t =>
    let NEW := mkSubscription generated_id v_user_id v_plan_type v_status
                 v_stripe_subscription_id v_stripe_customer_id
                 v_current_period_start v_current_period_end
                 None None now now in
    let r := update_billing_period_text now NEW in
    (inr [r], t ++ [r]).

(** The cast of a text argument inside a statement. *)
Definition CAST_subscription_status (s : text) : Tx subscription_status :=
  match subscription_status_in s with
  | Some st => ret st
  | None =>
      RAISE_EXCEPTION
        ("invalid input value for enum subscription_status: " ++ s)%string
  end.

(** *** Subscription reconciler *)

(** The JSON object returned by the webhook handler; the fields are read
    from a row variable, which is all null when no row was returned. *)
Record webhook_json := mkWebhookJson {
  success : bool;
  json_subscription_id : option uuid;
  json_plan_type : option subscription_plan_type;
  json_status : option subscription_status;
  json_period_start : option timestamptz;
  json_period_end : option timestamptz;
  json_billing_period_text : option text;
  json_billing_period_accurate : option bool
}.

Definition json_build_object (subscription_record : option subscriptions)
  : webhook_json :=
  mkWebhookJson true
    (option_map id subscription_record)
    (option_map plan_type subscription_record)
    (option_map status subscription_record)
    (option_map current_period_start subscription_record)
    (option_map current_period_end subscription_record)
    (match subscription_record with
     | Some r => billing_period_text r | None => None end)
    (match subscription_record with
     | Some r => billing_period_accurate r | None => None end).

Definition handle_subscription_webhook
    (now : timestamptz) (generated_id : uuid)
    (p_user_id : uuid) (p_plan_type : subscription_plan_type)
    (p_status : text)
    (p_stripe_subscription_id p_stripe_customer_id : option text)
    (p_period_start p_period_end : option timestamptz)
  : Tx webhook_json :=
  let calculated_period_start := COALESCE_to p_period_start now in
  let calculated_period_end :=
    match p_period_end with
    | None =>
        calculate_subscription_period_end p_plan_type calculated_period_start
    | Some e => e
    end in
  subscription_record <- SELECT_INTO_WHERE_user_id p_user_id ;;
  returning <-
    match subscription_record with
    | Some _ =>
        new_status <- CAST_subscription_status p_status ;;
        UPDATE_subscriptions now
          (fun r =>
             mkSubscription (id r) (user_id r)
               p_plan_type
               new_status
               (COALESCE p_stripe_subscription_id (stripe_subscription_id r))
               (COALESCE p_stripe_customer_id (stripe_customer_id r))
               calculated_period_start
               calculated_period_end
               (billing_period_text r) (billing_period_accurate r)
               (created_at r)
               now)
          (fun r => (user_id r =? p_user_id)%N)
    | None =>
        new_status <- CAST_subscription_status p_status ;;
        INSERT_INTO_subscriptions now generated_id
          p_user_id p_plan_type new_status
          p_stripe_subscription_id p_stripe_customer_id
          calculated_period_start calculated_period_end
    end ;;
  ret (json_build_object (hd_error returning)).

(** The overload of the handler that takes the status as a value of the
    enum, so that no cast happens inside the body. After the write it
    refreshes the user's row in [users] from the identity provider's
    table; [users] is not part of this development, and the handler
    for all other errors only re-raises them with a prefix. *)
Definition handle_subscription_webhook_enum
    (now : timestamptz) (generated_id : uuid)
    (p_user_id : uuid) (p_plan_type : subscription_plan_type)
    (p_status : subscription_status)
    (p_stripe_subscription_id p_stripe_customer_id : option text)
    (p_period_start p_period_end : option timestamptz)
  : Tx unit :=
  let v_period_start := COALESCE_to p_period_start now in
  let v_period_end :=
    match p_period_end with
    | None => calculate_subscription_period_end p_plan_type v_period_start
    | Some e => e
    end in
  v_existing_subscription <- SELECT_INTO_WHERE_user_id p_user_id ;;
  match v_existing_subscription with
  | Some _ =>
      UPDATE_subscriptions now
        (fun r =>
           mkSubscription (id r) (user_id r)
             p_plan_type
             p_status
             (COALESCE p_stripe_subscription_id (stripe_subscription_id r))
             (COALESCE p_stripe_customer_id (stripe_customer_id r))
             v_period_start
             v_period_end
             (billing_period_text r) (billing_period_accurate r)
             (created_at r)
             now)
        (fun r => (user_id r =? p_user_id)%N) ;;
      ret tt
  | None =>
      INSERT_INTO_subscriptions now generated_id
        p_user_id p_plan_type p_status
        p_stripe_subscription_id p_stripe_customer_id
        v_period_start v_period_end ;;
      ret tt
  end.

(** *** Access status resolver *)

Module Access.
(** A row of the table returned by [get_subscription_access_status]. *)
Record row := mkRow {
  subscription_id : option uuid;
  plan_type : subscription_plan_type;
  status : subscription_status;
  stripe_subscription_id : option text;
  stripe_customer_id : option text;
  current_period_start : timestamptz;
  current_period_end : timestamptz;
  has_access : bool;
  days_remaining : Z;
  is_expired : bool;
  is_cancelled : bool;
  billing_period_text : text;
  created_at : timestamptz;
  updated_at : timestamptz
}.
End Access.

(** [ORDER BY created_at DESC LIMIT 1]: a row with the greatest
    [created_at]; among equals, the first in scan order. *)
Fixpoint ORDER_BY_created_at_DESC_LIMIT_1 (rows : list subscriptions)
  : option subscriptions :=
  match rows with
  | [] => None
  | r :: rest =>
      match ORDER_BY_created_at_DESC_LIMIT_1 rest with
      | Some r' => if created_at r <? created_at r' then Some r' else Some r
      | None => Some r
      end
  end.

(** The plan phrase of the access status text; the [CASE] has no [ELSE],
    and [format] prints a null as the empty string. *)
Definition plan_phrase (plan_type : subscription_plan_type) : text :=
  if (plan_type =? "trial")%string then "30 days"%string
  else if (plan_type =? "monthly")%string then "1 month"%string
  else if (plan_type =? "semiannual")%string then "6 months"%string
  else if (plan_type =? "annual")%string then "1 year"%string
  else ""%string.

(** The text of the access status; the resolver computes the same
    expression in line. *)
Definition get_billing_period_text (p_plan_type : subscription_plan_type)
    (p_period_start p_period_end : timestamptz) : text :=
  (to_char_Mon_DD_YYYY p_period_start ++ " – "
   ++ to_char_Mon_DD_YYYY p_period_end
   ++ " (" ++ plan_phrase p_plan_type ++ ")")%string.

Definition get_subscription_access_status (now : timestamptz)
    (p_user_id : uuid) (t : table) : list Access.row :=
  let v_now := now in
  match ORDER_BY_created_at_DESC_LIMIT_1
          (filter (fun s => (user_id s =? p_user_id)%N) t) with
  | None =>
      [Access.mkRow None "trial"%string active None None
         v_now (timestamptz_pl_interval v_now (INTERVAL_days 30))
         true 30 false false "Free Trial - 30 days"%string v_now v_now]
  | Some v_subscription =>
      let v_is_expired := current_period_end v_subscription <=? v_now in
      let v_is_cancelled :=
        subscription_status_eqb (status v_subscription) cancelled in
      let v_days_remaining :=
        Z.max 0 (EXTRACT_DAY
                   (timestamp_mi (current_period_end v_subscription) v_now)) in
      let v_has_access :=
        subscription_status_eqb (status v_subscription) active
        || (v_is_cancelled && negb v_is_expired) in
      let v_billing_period_text :=
        get_billing_period_text (plan_type v_subscription)
          (current_period_start v_subscription)
          (current_period_end v_subscription) in
      [Access.mkRow
         (Some (id v_subscription))
         (plan_type v_subscription)
         (status v_subscription)
         (stripe_subscription_id v_subscription)
         (stripe_customer_id v_subscription)
         (current_period_start v_subscription)
         (current_period_end v_subscription)
         v_has_access
         v_days_remaining
         v_is_expired
         v_is_cancelled
         v_billing_period_text
         (created_at v_subscription)
         (updated_at v_subscription)]
  end.

(** *** Lifecycle operations *)

Definition set_status (new_status : subscription_status) (now : timestamptz)
    (r : subscriptions) : subscriptions :=
  mkSubscription (id r) (user_id r) (plan_type r)
    new_status
    (stripe_subscription_id r) (stripe_customer_id r)
    (current_period_start r) (current_period_end r)
    (billing_period_text r) (billing_period_accurate r)
    (created_at r)
    now.

Definition reactivate_subscription (now : timestamptz)
    (p_user_id : uuid) (p_payment_method_id : text) : Tx unit :=
  v_subscription <- SELECT_INTO_WHERE_user_id p_user_id ;;
  match v_subscription with
  | None => RAISE_EXCEPTION "No subscription found for user"%string
  | Some v_subscription =>
      if negb (subscription_status_eqb (status v_subscription) cancelled) then
        RAISE_EXCEPTION "Subscription is not cancelled"%string
      else if current_period_end v_subscription <=? now then
        RAISE_EXCEPTION "Subscription has already expired"%string
      else
        UPDATE_subscriptions now (set_status active now)
          (fun r => (user_id r =? p_user_id)%N) ;;
        ret tt
  end.

Definition cancel_subscription_safe (now : timestamptz)
    (p_user_id : uuid) (p_reason : option text) : Tx unit :=
  v_subscription <- SELECT_INTO_WHERE_user_id p_user_id ;;
  match v_subscription with
  | None => RAISE_EXCEPTION "No subscription found for user"%string
  | Some v_subscription =>
      if negb (subscription_status_eqb (status v_subscription) active) then
        RAISE_EXCEPTION "Subscription is not active"%string
      else
        UPDATE_subscriptions now (set_status cancelled now)
          (fun r => (user_id r =? p_user_id)%N) ;;
        ret tt
  end.

(** *** Data correction *)

Fixpoint FOR_LOOP {A : Type} (rows : list A) (body : A -> Tx unit) : Tx unit :=
  match rows with
  | [] => ret tt
  | r :: rest => body r ;; FOR_LOOP rest body
  end.

Definition SELECT_inaccurate : Tx (list subscriptions) :=
  fun t =>
    (inr (filter (fun r => match billing_period_accurate r with
                           | Some false | None => true
                           | Some true => false
                           end) t), t).

Definition fix_existing_billing_periods (now : timestamptz) : Tx unit :=
  selected <- SELECT_inaccurate ;;
  FOR_LOOP selected (fun sub_record =>
    let corrected_end :=
      calculate_subscription_period_end
        (plan_type sub_record) (current_period_start sub_record) in
    UPDATE_subscriptions now
      (fun r =>
         mkSubscription (id r) (user_id r) (plan_type r) (status r)
           (stripe_subscription_id r) (stripe_customer_id r)
           (current_period_start r)
           corrected_end
           (billing_period_text r) (billing_period_accurate r)
           (created_at r)
           now)
      (fun r => (id r =? id sub_record)%N) ;;
    ret tt).

(** *** The writers as one interface

    The three procedures that write subscription rows on behalf of a
    user, as calls that can be put in a sequence. *)
Inductive call :=
| reconcile (p_user_id : uuid) (p_plan_type : subscription_plan_type)
    (p_status : text)
    (p_stripe_subscription_id p_stripe_customer_id : option text)
    (p_period_start p_period_end : option timestamptz)
| cancel (p_user_id : uuid) (p_reason : option text)
| reactivate (p_user_id : uuid) (p_payment_method_id : text).

Definition call_user (c : call) : uuid :=
  match c with
  | reconcile u _ _ _ _ _ _ => u
  | cancel u _ => u
  | reactivate u _ => u
  end.

Definition run_call (now : timestamptz) (generated_id : uuid) (c : call)
  : Tx unit :=
  match c with
  | reconcile u plan st sid cid ps pe =>
      handle_subscription_webhook now generated_id u plan st sid cid ps pe ;;
      ret tt
  | cancel u reason => cancel_subscription_safe now u reason
  | reactivate u pm => reactivate_subscription now u pm
  end.

End Billing.

Import Billing.

(** ** The payment provider's webhook endpoint *)

Module StripeWebhook.

(** A JavaScript string that may be [null] or [undefined]. *)
Definition js_string := option string.

(** Truthiness: a string other than the empty one. *)
Definition truthy (v : js_string) : bool :=
  match v with
  | Some s => negb (s =? "")%string
  | None => false
  end.

(** [v || null]. *)
Definition or_null (v : js_string) : js_string :=
  if truthy v then v else None.

(** [v || d] for a string [d]. *)
Definition or_default (v : js_string) (d : string) : string :=
  match v with
  | Some s => if (s =? "")%string then d else s
  | None => d
  end.

(** The fields of the provider's objects that the handler reads;
    [metadata?.user_id] is [metadata_user_id]. The two period bounds of a
    subscription are Unix times in whole seconds, as the provider sends
    them. *)
Module Session.
Record t := mk {
  metadata_user_id : js_string;
  metadata_plan_type : js_string;
  payment_status : string;
  subscription : js_string;
  customer : js_string
}.
End Session.

Module PaymentIntent.
Record t := mk {
  metadata_user_id : js_string;
  metadata_plan_type : js_string;
  customer : js_string
}.
End PaymentIntent.

Module Invoice.
Record t := mk { subscription : js_string }.
End Invoice.

Module Subscription.
Record t := mk {
  id : string;
  metadata_user_id : js_string;
  metadata_plan_type : js_string;
  status : string;
  cancel_at_period_end : bool;
  customer : js_string;
  current_period_start : Z;
  current_period_end : Z
}.
End Subscription.

(** A verified event: its type with the object it carries. *)
Inductive event :=
| checkout_session_completed (session : Session.t)
| payment_intent_succeeded (paymentIntent : PaymentIntent.t)
| invoice_payment_succeeded (invoice : Invoice.t)
| invoice_payment_failed (invoice : Invoice.t)
| customer_subscription_updated (subscription : Subscription.t)
| customer_subscription_deleted (subscription : Subscription.t)
| unhandled (type : string).

(** A [Date]: milliseconds since 1970-01-01 UTC. [new Date(v)] is invalid
    beyond 8.64e15 ms either way, and [toISOString] throws on an invalid
    date. *)
Definition new_Date_toISOString (v : Z) : option Z :=
  if Z.abs v <=? 8640000000000000 then Some v else None.

(** The arguments of one [rpc('handle_subscription_webhook', ...)] call;
    the two instants are the ones their ISO strings denote. *)
Record rpc_params := mkParams {
  p_user_id : string;
  p_plan_type : string;
  p_status : string;
  p_stripe_subscription_id : js_string;
  p_stripe_customer_id : js_string;
  p_period_start : option Z;
  p_period_end : option Z
}.

(** How the [switch] ends, with the calls it made. *)
Inductive completion := finished | thrown.

Section Handler.

(** The clock read by [new Date()], [stripe.subscriptions.retrieve]
    ([None]: it throws) and whether an rpc call returns an error. *)
Variable Date_now : Z.
Variable retrieve : string -> option Subscription.t.
Variable rpc_error : rpc_params -> bool.

(** The call built from a provider subscription for the user named in
    its metadata, with the status given; [None] when a date cannot be
    printed. *)
Definition subscription_call (subscription : Subscription.t)
    (user_id : string) (status : string) : option rpc_params :=
  match new_Date_toISOString
          (Subscription.current_period_start subscription * 1000),
        new_Date_toISOString
          (Subscription.current_period_end subscription * 1000) with
  | Some period_start, Some period_end =>
      Some (mkParams
              user_id
              (or_default (Subscription.metadata_plan_type subscription)
                 "monthly")
              status
              (Some (Subscription.id subscription))
              (Subscription.customer subscription)
              (Some period_start)
              (Some period_end))
  | _, _ => None
  end.

(** The status stored for a [customer.subscription.updated] event. *)
Definition dbStatus (subscription : Subscription.t) : string :=
  if (Subscription.status subscription =? "past_due")%string then "past_due"
  else if Subscription.cancel_at_period_end subscription
          || (Subscription.status subscription =? "canceled")%string
       then "cancelled"
  else "active".

(** The two invoice events: the subscription is fetched and the call is
    made inside a [try] whose [catch] only logs. *)
Definition invoice_event (invoice : Invoice.t)
    (status_of : Subscription.t -> string) : completion * list rpc_params :=
  match Invoice.subscription invoice with
  | Some subscription_id =>
      if negb (subscription_id =? "")%string then
        match retrieve subscription_id with
        | Some subscription =>
            match Subscription.metadata_user_id subscription with
            | Some user_id =>
                if negb (user_id =? "")%string then
                  match subscription_call subscription user_id
                          (status_of subscription) with
                  | Some params => (finished, [params])
                  | None => (finished, [])
                  end
                else (finished, [])
            | None => (finished, [])
            end
        | None => (finished, [])
        end
      else (finished, [])
  | None => (finished, [])
  end.

(** The two subscription events: an error of the call is logged, a date
    that cannot be printed is thrown. *)
Definition subscription_event (subscription : Subscription.t)
    (status : string) : completion * list rpc_params :=
  match Subscription.metadata_user_id subscription with
  | Some user_id =>
      if negb (user_id =? "")%string then
        match subscription_call subscription user_id status with
        | Some params => (finished, [params])
        | None => (thrown, [])
        end
      else (finished, [])
  | None => (finished, [])
  end.

(** The two payment events: the period starts now, its end is left to
    the database, and an error of the call is thrown. *)
Definition payment_event (user_id plan_type : js_string) (paid : bool)
    (stripe_subscription_id stripe_customer_id : js_string)
  : completion * list rpc_params :=
  match user_id, plan_type with
  | Some userId, Some planType =>
      if negb (userId =? "")%string && negb (planType =? "")%string && paid
      then
        let params :=
          mkParams userId planType "active"
            stripe_subscription_id stripe_customer_id
            (Some Date_now) None in
        if rpc_error params then (thrown, [params]) else (finished, [params])
      else (finished, [])
  | _, _ => (finished, [])
  end.

Definition process_event (e : event) : completion * list rpc_params :=
  match e with
  | checkout_session_completed session =>
      payment_event
        (Session.metadata_user_id session)
        (Session.metadata_plan_type session)
        (Session.payment_status session =? "paid")%string
        (or_null (Session.subscription session))
        (Session.customer session)
  | payment_intent_succeeded paymentIntent =>
      payment_event
        (PaymentIntent.metadata_user_id paymentIntent)
        (PaymentIntent.metadata_plan_type paymentIntent)
        true
        None
        (PaymentIntent.customer paymentIntent)
  | invoice_payment_succeeded invoice =>
      invoice_event invoice
        (fun subscription =>
           if (Subscription.status subscription =? "active")%string
           then "active"%string else "past_due"%string)
  | invoice_payment_failed invoice =>
      invoice_event invoice (fun _ => "past_due"%string)
  | customer_subscription_updated subscription =>
      subscription_event subscription (dbStatus subscription)
  | customer_subscription_deleted subscription =>
      subscription_event subscription "cancelled"
  | unhandled _ => (finished, [])
  end.

(** The request as the handler sees it: the method, whether the two
    clients could be constructed, the signature header, the configured
    secret, and what the provider's verification makes of the body
    ([None]: it throws). *)
Record request := mkRequest {
  method : string;
  clients_constructed : bool;
  signature : js_string;
  webhookSecret : js_string;
  constructEventAsync : option event
}.

Definition serve (req : request) : Z * list rpc_params :=
  if (method req =? "OPTIONS")%string then (200, [])
  else if negb (clients_constructed req) then (400, [])
  else if negb (truthy (signature req)) then (400, [])
  else if negb (truthy (webhookSecret req)) then (500, [])
  else
    match constructEventAsync req with
    | None => (400, [])
    | Some e =>
        match process_event e with
        | (finished, calls) => (200, calls)
        | (thrown, calls) => (400, calls)
        end
    end.

End Handler.

(** *** The call as it reaches the database

    The remote procedure interface turns the JSON arguments into the
    handler's parameters: the user id is read as a [uuid], the plan as a
    label of its enum, the two ISO strings as instants. A value that
    cannot be read is an error of the call and nothing runs. *)
Section Boundary.

(** The input functions of [uuid] and of enum [subscription_plan_type]. *)
Variable uuid_in : string -> option uuid.
Variable subscription_plan_type_in : string -> option subscription_plan_type.

(** Microseconds since 2000-01-01 of a JavaScript time value. *)
Definition timestamptz_of_js_ms (ms : Z) : timestamptz :=
  (ms - 946684800000) * 1000.

Definition to_call (p : rpc_params) : option call :=
  match uuid_in (p_user_id p), subscription_plan_type_in (p_plan_type p) with
  | Some u, Some plan =>
      Some (reconcile u plan (p_status p)
              (p_stripe_subscription_id p) (p_stripe_customer_id p)
              (option_map timestamptz_of_js_ms (p_period_start p))
              (option_map timestamptz_of_js_ms (p_period_end p)))
  | _, _ => None
  end.

End Boundary.

End StripeWebhook.

(** ** The client: subscription service and billing page *)

Module Client.

Record PlanFeatures := mkPlanFeatures {
  maxCustomers : Z;
  maxBranches : Z;
  advancedAnalytics : bool;
  prioritySupport : bool;
  customBranding : bool;
  apiAccess : bool
}.

Definition getTrialFeatures : PlanFeatures :=
  mkPlanFeatures 100 1 false false false false.

Definition getPlanFeatures (planType : string) : PlanFeatures :=
  if (planType =? "trial")%string then getTrialFeatures
  else if (planType =? "monthly")%string then
    mkPlanFeatures (-1) (-1) true true false false
  else if (planType =? "semiannual")%string then
    mkPlanFeatures (-1) (-1) true true true true
  else if (planType =? "annual")%string then
    mkPlanFeatures (-1) (-1) true true true true
  else getTrialFeatures.

(** The [Subscription] interface; [id] is null for the synthetic trial
    row of the access status function. *)
Module Subscription.
Record t := mk {
  id : option uuid;
  user_id : uuid;
  plan_type : subscription_plan_type;
  status : subscription_status;
  stripe_subscription_id : option text;
  stripe_customer_id : option text;
  current_period_start : timestamptz;
  current_period_end : timestamptz;
  created_at : timestamptz;
  updated_at : timestamptz
}.
End Subscription.

Record SubscriptionAccessStatus := mkStatus {
  hasAccess : bool;
  subscription : option Subscription.t;
  features : PlanFeatures;
  daysRemaining : Z;
  isExpired : bool;
  isCancelled : bool;
  billingPeriodText : string
}.

(** What [supabase.rpc] gives back: it throws, or returns [data] and
    [error], either of which may be null. *)
Inductive rpc_result :=
| rpc_throws
| rpc_returns (data : option (list Access.row)) (error : option string).

Section Service.

(** The clock of [new Date()] in milliseconds and the browser's
    [toLocaleDateString('en-US', {month: 'short', day: 'numeric',
    year: 'numeric'})]. *)
Variable Date_now : Z.
Variable toLocaleDateString : Z -> string.

Definition getFallbackAccess : SubscriptionAccessStatus :=
  let now := Date_now in
  let endDate := now + 30 * 24 * 60 * 60 * 1000 in
  mkStatus true None getTrialFeatures 30 false false
    (toLocaleDateString now ++ " – " ++ toLocaleDateString endDate
     ++ " (30 days)")%string.

Definition checkSubscriptionAccess (userId : uuid) (result : rpc_result)
  : SubscriptionAccessStatus :=
  match result with
  | rpc_throws => getFallbackAccess
  | rpc_returns _ (Some _) => getFallbackAccess
  | rpc_returns None None => getFallbackAccess
  | rpc_returns (Some []) None => getFallbackAccess
  | rpc_returns (Some (subscriptionData :: _)) None =>
      mkStatus
        (Access.has_access subscriptionData)
        (Some (Subscription.mk
                 (Access.subscription_id subscriptionData)
                 userId
                 (Access.plan_type subscriptionData)
                 (Access.status subscriptionData)
                 (Access.stripe_subscription_id subscriptionData)
                 (Access.stripe_customer_id subscriptionData)
                 (Access.current_period_start subscriptionData)
                 (Access.current_period_end subscriptionData)
                 (Access.created_at subscriptionData)
                 (Access.updated_at subscriptionData)))
        (getPlanFeatures (Access.plan_type subscriptionData))
        (Access.days_remaining subscriptionData)
        (Access.is_expired subscriptionData)
        (Access.is_cancelled subscriptionData)
        (Access.billing_period_text subscriptionData)
  end.

End Service.

(** The label of a status value, as the page receives it. *)
Definition subscription_status_out (s : subscription_status) : string :=
  match s with
  | active => "active"
  | expired => "expired"
  | cancelled => "cancelled"
  | past_due => "past_due"
  end.

(** *** Billing page *)

Definition getPlanDisplayName (planType : string) : string :=
  if (planType =? "trial")%string then "Free Trial"
  else if (planType =? "monthly")%string then "Monthly Plan"
  else if (planType =? "semiannual")%string then "6-Month Plan"
  else if (planType =? "annual")%string then "Annual Plan"
  else "Unknown Plan".

Definition getPlanPrice (planType : string) : string :=
  if (planType =? "trial")%string then "$0"
  else if (planType =? "monthly")%string then "$2.99/month"
  else if (planType =? "semiannual")%string then "$9.99 (6 months)"
  else if (planType =? "annual")%string then "$19.99 (1 year)"
  else "Unknown".

Definition getStatusColor (status : string) (isExpired isCancelled : bool)
  : string :=
  if isExpired then "bg-red-100 text-red-800 border-red-200"
  else if isCancelled then "bg-orange-100 text-orange-800 border-orange-200"
  else if (status =? "active")%string then
    "bg-green-100 text-green-800 border-green-200"
  else if (status =? "past_due")%string then
    "bg-yellow-100 text-yellow-800 border-yellow-200"
  else "bg-gray-100 text-gray-800 border-gray-200".

Definition getStatusText (status : string) (isExpired isCancelled : bool)
  : string :=
  if isExpired then "Expired"
  else if isCancelled then "Cancelled"
  else if (status =? "active")%string then "Active"
  else if (status =? "past_due")%string then "Past Due"
  else status.

(** The status badge of the plan card. *)
Definition status_badge (subscriptionData : SubscriptionAccessStatus)
  : option string :=
  match subscription subscriptionData with
  | Some sub =>
      Some (getStatusText (subscription_status_out (Subscription.status sub))
              (isExpired subscriptionData) (isCancelled subscriptionData))
  | None => None
  end.

(** The three action buttons of the plan card, each under its render
    condition; the card has them only when there is a subscription. *)
Definition upgrade_button (subscriptionData : SubscriptionAccessStatus)
  : bool :=
  match subscription subscriptionData with
  | Some sub => (Subscription.plan_type sub =? "trial")%string
  | None => false
  end.

Definition reactivate_button (subscriptionData : SubscriptionAccessStatus)
  : bool :=
  match subscription subscriptionData with
  | Some _ => isCancelled subscriptionData && negb (isExpired subscriptionData)
  | None => false
  end.

Definition cancel_button (subscriptionData : SubscriptionAccessStatus)
  : bool :=
  match subscription subscriptionData with
  | Some sub =>
      negb (isCancelled subscriptionData)
      && negb (isExpired subscriptionData)
      && negb (Subscription.plan_type sub =? "trial")%string
  | None => false
  end.

End Client.

(** ** Calendar facts *)

Module CalendarFacts.

Ltac zdiv := Z.div_mod_to_equations; lia.

Example ex_epoch : days_to_civil 0 = (2000, 1, 1).
Proof. reflexivity. Qed.

(** Bounded universal check, run by computation: [all_range k lo hi p]
    tests [p] on every [z] with [lo <= z < lo + 2^k] and [z < hi]. *)
Fixpoint all_range (k : nat) (lo hi : Z) (p : Z -> bool) : bool :=
  match k with
  | O => (hi <=? lo) || p lo
  | S k' =>
      all_range k' lo hi p && all_range k' (lo + 2 ^ Z.of_nat k') hi p
  end.

Lemma all_range_sound (p : Z -> bool) (hi : Z) (k : nat) :
  forall lo, all_range k lo hi p = true ->
  forall z, lo <= z < lo + 2 ^ Z.of_nat k -> z < hi -> p z = true.
Proof.
  induction k as [|k IH]; intros lo H z Hz Hhi.
  - simpl in H, Hz. assert (z = lo) by lia. subst z.
    apply orb_prop in H. destruct H as [H|H]; [|exact H].
    apply Z.leb_le in H. lia.
  - cbn [all_range] in H. apply andb_prop in H. destruct H as [Hl Hr].
    rewrite Nat2Z.inj_succ, Z.pow_succ_r in Hz by lia.
    destruct (Z_lt_le_dec z (lo + 2 ^ Z.of_nat k)) as [Hlt|Hge].
    + apply (IH lo Hl); lia.
    + apply (IH _ Hr); lia.
Qed.

(** Splitting a day of the era into century, cycle, year and day. *)
Lemma year_split (doe : Z) :
  0 <= doe < 146097 ->
  let c := Z.min 3 (doe / 36524) in
  let doc := doe - 36524 * c in
  let q := doc / 1461 in
  let doq := doc - 1461 * q in
  let a := Z.min 3 (doq / 365) in
  let doy := doq - 365 * a in
  0 <= c <= 3 /\ 0 <= q <= 24 /\ 0 <= a <= 3 /\ 0 <= doy <= 365 /\
  doe = 36524 * c + 1461 * q + 365 * a + doy /\
  (doy = 365 -> a = 3 /\ (q = 24 -> c = 3)).
Proof.
  intros H c doc q doq a doy. subst doy a doq q doc c. zdiv.
Qed.

(** Month and day of a day of the year counted from March 1st. *)
Definition month_ok (doy : Z) : bool :=
  let mp := (5 * doy + 2) / 153 in
  let d := doy - (153 * mp + 2) / 5 + 1 in
  let m := if mp <? 10 then mp + 3 else mp - 9 in
  (0 <=? mp) && (mp <=? 11) && (1 <=? d)
  && (d <=? (if (m =? 2) && (doy =? 365) then 29 else day_tab false m))
  && ((153 * mp + 2) / 5 + d - 1 =? doy).

Lemma month_ok_all : all_range 9 0 366 month_ok = true.
Proof. vm_compute. reflexivity. Qed.

Lemma month_split (doy : Z) : 0 <= doy <= 365 -> month_ok doy = true.
Proof.
  intros H. apply (all_range_sound _ _ _ _ month_ok_all); [|lia].
  change (2 ^ Z.of_nat 9) with 512. lia.
Qed.

Lemma isleap_era (a e : Z) : isleap (a + e * 400) = isleap a.
Proof.
  unfold isleap.
  replace ((a + e * 400) mod 4) with (a mod 4) by zdiv.
  replace ((a + e * 400) mod 100) with (a mod 100) by zdiv.
  replace ((a + e * 400) mod 400) with (a mod 400) by zdiv.
  reflexivity.
Qed.

(** The year that ends a full 4-year cycle is a leap year. *)
Lemma isleap_cycle_end (c q : Z) :
  0 <= c <= 3 -> 0 <= q <= 24 -> (q = 24 -> c = 3) ->
  isleap (100 * c + 4 * q + 3 + 1) = true.
Proof.
  intros Hc Hq Hqc. unfold isleap.
  replace ((100 * c + 4 * q + 3 + 1) mod 4) with 0 by zdiv.
  destruct (Z.eq_dec q 24) as [->|Hne].
  - rewrite (Hqc eq_refl). reflexivity.
  - replace ((100 * c + 4 * q + 3 + 1) mod 100 =? 0) with false; [reflexivity|].
    symmetry. apply Z.eqb_neq. zdiv.
Qed.

Lemma days_to_civil_valid (j : Z) :
  let '(y, m, d) := days_to_civil j in
  1 <= m <= 12 /\ 1 <= d <= day_tab (isleap y) m /\ civil_to_days y m d = j.
Proof.
  unfold days_to_civil. cbv beta iota zeta.
  set (z := j + EPOCH_SHIFT) in *.
  assert (Hdoe : 0 <= z mod 146097 < 146097) by (apply Z.mod_pos_bound; lia).
  assert (Hz : z = 146097 * (z / 146097) + z mod 146097)
    by (apply Z.div_mod; lia).
  set (e := z / 146097) in *. set (doe := z mod 146097) in *.
  pose proof (year_split doe Hdoe) as Hy. cbv zeta in Hy.
  set (c := Z.min 3 (doe / 36524)) in *.
  set (q := (doe - 36524 * c) / 1461) in *.
  set (a := Z.min 3 ((doe - 36524 * c - 1461 * q) / 365)) in *.
  set (doy := doe - 36524 * c - 1461 * q - 365 * a) in *.
  destruct Hy as (Hc & Hq & Ha & Hdoy & Hsum & Hfull).
  pose proof (month_split doy Hdoy) as Hm. unfold month_ok in Hm.
  set (mp := (5 * doy + 2) / 153) in *.
  set (d0 := doy - (153 * mp + 2) / 5 + 1) in *.
  set (m0 := if mp <? 10 then mp + 3 else mp - 9) in *.
  cbv zeta in Hm.
  repeat (apply andb_prop in Hm; destruct Hm as [Hm ?]).
  repeat match goal with H : (_ <=? _) = true |- _ => apply Z.leb_le in H end.
  match goal with
  | H : (_ =? _) = true |- _ => apply Z.eqb_eq in H; rename H into Hdays
  end.
  assert (Hm0 : 1 <= m0 <= 12) by (unfold m0; destruct (mp <? 10) eqn:E; lia).
  split; [exact Hm0|]. split.
  - split; [lia|].
    destruct ((m0 =? 2) && (doy =? 365)) eqn:Efeb.
    + apply andb_prop in Efeb. destruct Efeb as [E2 E365].
      apply Z.eqb_eq in E2. apply Z.eqb_eq in E365.
      destruct (Hfull E365) as [Ha3 Hq24].
      replace (100 * c + 4 * q + a + e * 400 + (if m0 <=? 2 then 1 else 0))
        with (100 * c + 4 * q + 3 + 1 + e * 400)
        by (rewrite E2; simpl; lia).
      rewrite isleap_era, isleap_cycle_end by assumption.
      rewrite E2 in *. unfold day_tab. simpl. lia.
    + set (y := 100 * c + 4 * q + a + e * 400 + (if m0 <=? 2 then 1 else 0)).
      assert (day_tab false m0 <= day_tab (isleap y) m0).
      { unfold day_tab. destruct (m0 =? 2); [|lia].
        destruct (isleap y); lia. }
      lia.
  - unfold civil_to_days.
    set (yoe := 100 * c + 4 * q + a + e * 400).
    replace (if m0 <=? 2
             then yoe + (if m0 <=? 2 then 1 else 0) - 1
             else yoe + (if m0 <=? 2 then 1 else 0))
      with yoe by (destruct (m0 <=? 2); lia).
    subst yoe.
    replace (if m0 <=? 2 then m0 + 9 else m0 - 3) with mp
      by (unfold m0; destruct (mp <? 10) eqn:E10;
          [apply Z.ltb_lt in E10|apply Z.ltb_ge in E10];
          match goal with |- _ = (if ?b then _ else _) => destruct b eqn:E2 end;
          try apply Z.leb_le in E2; try apply Z.leb_gt in E2; lia).
    replace ((100 * c + 4 * q + a + e * 400) / 4) with (25 * c + q + e * 100)
      by zdiv.
    replace ((100 * c + 4 * q + a + e * 400) / 100) with (c + e * 4) by zdiv.
    replace ((100 * c + 4 * q + a + e * 400) / 400) with e by zdiv.
    unfold z, EPOCH_SHIFT in *. lia.
Qed.

Lemma days_to_civil_spec (j y m d : Z) :
  days_to_civil j = (y, m, d) ->
  1 <= m <= 12 /\ 1 <= d <= day_tab (isleap y) m /\ civil_to_days y m d = j.
Proof.
  intros E. pose proof (days_to_civil_valid j) as H. rewrite E in H. exact H.
Qed.

Lemma civil_to_days_day (y m d : Z) :
  civil_to_days y m d = civil_to_days y m 1 + d - 1.
Proof. unfold civil_to_days. lia. Qed.

Lemma day_tab_bounds (leap : bool) (m : Z) : 28 <= day_tab leap m <= 31.
Proof.
  unfold day_tab. destruct (m =? 2); [destruct leap; lia|].
  destruct ((m =? 4) || (m =? 6) || (m =? 9) || (m =? 11)); lia.
Qed.

Ltac decide_tests :=
  repeat match goal with
         | |- context [?a <=? ?b] => destruct (Z.leb_spec a b); try lia
         | |- context [?a =? ?b] => destruct (Z.eqb_spec a b); try lia
         end.

(** Months are laid end to end: the first day of the next month comes
    [day_tab] days after the first day of a month. *)
Lemma next_month_first (y m : Z) :
  1 <= m <= 12 ->
  civil_to_days (if m =? 12 then y + 1 else y) (if m =? 12 then 1 else m + 1) 1
  = civil_to_days y m 1 + day_tab (isleap y) m.
Proof.
  intros Hm.
  assert (Hcases : m = 1 \/ m = 2 \/ m = 3 \/ m = 4 \/ m = 5 \/ m = 6 \/
                   m = 7 \/ m = 8 \/ m = 9 \/ m = 10 \/ m = 11 \/ m = 12)
    by lia.
  unfold civil_to_days, day_tab, isleap.
  repeat (destruct Hcases as [->|Hcases]); [..|subst m];
    cbn [orb andb negb]; decide_tests; cbn [orb andb negb];
    try (replace (y + 1 - 1) with y by lia); zdiv.
Qed.

(** Months in one sequence: month [k] is month [k mod 12 + 1] of year
    [k / 12]. *)
Definition month_start (k : Z) : Z := civil_to_days (k / 12) (k mod 12 + 1) 1.
Definition month_length (k : Z) : Z := day_tab (isleap (k / 12)) (k mod 12 + 1).

Lemma month_start_succ (k : Z) :
  month_start (k + 1) = month_start k + month_length k.
Proof.
  unfold month_start, month_length.
  assert (Hm : 1 <= k mod 12 + 1 <= 12) by zdiv.
  rewrite <- (next_month_first (k / 12) (k mod 12 + 1) Hm).
  destruct (Z.eqb_spec (k mod 12 + 1) 12) as [E|E].
  - replace ((k + 1) / 12) with (k / 12 + 1) by zdiv.
    replace ((k + 1) mod 12 + 1) with 1 by zdiv. reflexivity.
  - replace ((k + 1) / 12) with (k / 12) by zdiv.
    replace ((k + 1) mod 12 + 1) with (k mod 12 + 1 + 1) by zdiv. reflexivity.
Qed.

Lemma month_start_later (k n : Z) :
  0 < n -> month_start k + month_length k <= month_start (k + n).
Proof.
  intros Hn. replace n with (Z.succ (n - 1)) by lia.
  assert (H0 : 0 <= n - 1) by lia. revert H0. generalize (n - 1). clear n Hn.
  apply natlike_ind.
  - change (Z.succ 0) with 1. rewrite month_start_succ. lia.
  - intros x Hx IH.
    replace (k + Z.succ (Z.succ x)) with (k + Z.succ x + 1) by lia.
    rewrite month_start_succ.
    pose proof (day_tab_bounds (isleap ((k + Z.succ x) / 12))
                  ((k + Z.succ x) mod 12 + 1)) as Hb.
    unfold month_length at 2. lia.
Qed.

(** Adding a positive number of months moves the date at least one day
    forward. *)
Lemma pl_months_date (date n y m d : Z) :
  0 < n -> days_to_civil date = (y, m, d) ->
  let mon := m + n in
  let y2 := y + (mon - 1) / 12 in
  let m2 := (mon - 1) mod 12 + 1 in
  date < civil_to_days y2 m2 (Z.min d (day_tab (isleap y2) m2)).
Proof.
  intros Hn E mon y2 m2.
  destruct (days_to_civil_spec _ _ _ _ E) as (Hm & Hd & Hdate).
  pose proof (month_start_later (12 * y + (m - 1)) n Hn) as Hlater.
  unfold month_start, month_length in Hlater.
  replace ((12 * y + (m - 1)) / 12) with y in Hlater by zdiv.
  replace ((12 * y + (m - 1)) mod 12 + 1) with m in Hlater by zdiv.
  replace ((12 * y + (m - 1) + n) / 12) with y2 in Hlater
    by (unfold y2, mon; zdiv).
  replace ((12 * y + (m - 1) + n) mod 12 + 1) with m2 in Hlater
    by (unfold m2, mon; zdiv).
  pose proof (day_tab_bounds (isleap y2) m2) as Hb.
  rewrite civil_to_days_day. rewrite civil_to_days_day in Hdate. lia.
Qed.

Theorem pl_months_increasing (t : timestamptz) (n : Z) :
  0 < n -> t < pl_months t n.
Proof.
  intros Hn. unfold pl_months.
  destruct (days_to_civil (t / USECS_PER_DAY)) as [[y m] d] eqn:E.
  pose proof (pl_months_date _ n _ _ _ Hn E) as Hlt. cbv zeta in Hlt.
  set (date2 := civil_to_days _ _ _) in *.
  unfold USECS_PER_DAY in *. zdiv.
Qed.

(** The time of day is kept by month addition. *)
Lemma pl_months_time_of_day (t : timestamptz) (n : Z) :
  pl_months t n mod USECS_PER_DAY = t mod USECS_PER_DAY.
Proof.
  unfold pl_months.
  destruct (days_to_civil (t / USECS_PER_DAY)) as [[y m] d].
  set (date2 := civil_to_days _ _ _). unfold USECS_PER_DAY. zdiv.
Qed.

(** A month addition moves the instant by at least 28 days. *)
Lemma pl_months_at_least_28_days (t : timestamptz) (n : Z) :
  0 < n -> t + 28 * USECS_PER_DAY <= pl_months t n.
Proof.
  intros Hn. unfold pl_months.
  destruct (days_to_civil (t / USECS_PER_DAY)) as [[y m] d] eqn:E.
  destruct (days_to_civil_spec _ _ _ _ E) as (Hm & Hd & Hdate).
  cbv zeta.
  set (y2 := y + (m + n - 1) / 12). set (m2 := (m + n - 1) mod 12 + 1).
  assert (Hk : (12 * y + (m - 1)) / 12 = y /\ (12 * y + (m - 1)) mod 12 + 1 = m)
    by zdiv.
  assert (Hk2 : (12 * y + (m - 1) + n) / 12 = y2
                /\ (12 * y + (m - 1) + n) mod 12 + 1 = m2)
    by (unfold y2, m2; zdiv).
  pose proof (month_start_later (12 * y + (m - 1)) n Hn) as Hlater.
  pose proof (month_start_later (12 * y + (m - 1)) (n + 1) ltac:(lia)) as Hnext.
  replace (12 * y + (m - 1) + (n + 1)) with (12 * y + (m - 1) + n + 1)
    in Hnext by lia.
  rewrite month_start_succ in Hnext.
  unfold month_start, month_length in Hlater, Hnext.
  destruct Hk as [Hky Hkm]. destruct Hk2 as [Hk2y Hk2m].
  rewrite Hky, Hkm, Hk2y, Hk2m in Hlater, Hnext.
  pose proof (day_tab_bounds (isleap y2) m2) as Hb2.
  pose proof (day_tab_bounds (isleap y) m) as Hb.
  assert (Hgap : t / USECS_PER_DAY + 28
                 <= civil_to_days y2 m2 (Z.min d (day_tab (isleap y2) m2))).
  { rewrite civil_to_days_day. rewrite civil_to_days_day in Hdate. lia. }
  set (date2 := civil_to_days _ _ _) in *.
  unfold USECS_PER_DAY in *. zdiv.
Qed.

(** [civil_to_days] is one-to-one on valid dates, so [days_to_civil] is its
    inverse on them. *)
Lemma civil_to_days_month_order (y m d y' m' d' : Z) :
  1 <= m <= 12 -> 1 <= m' <= 12 ->
  d <= day_tab (isleap y) m -> 1 <= d' ->
  12 * y + m < 12 * y' + m' ->
  civil_to_days y m d < civil_to_days y' m' d'.
Proof.
  intros Hm Hm' Hd Hd' Hlt.
  pose proof (month_start_later (12 * y + (m - 1))
                (12 * y' + (m' - 1) - (12 * y + (m - 1))) ltac:(lia)) as H.
  replace (12 * y + (m - 1) + (12 * y' + (m' - 1) - (12 * y + (m - 1))))
    with (12 * y' + (m' - 1)) in H by lia.
  unfold month_start, month_length in H.
  replace ((12 * y + (m - 1)) / 12) with y in H by zdiv.
  replace ((12 * y + (m - 1)) mod 12 + 1) with m in H by zdiv.
  replace ((12 * y' + (m' - 1)) / 12) with y' in H by zdiv.
  replace ((12 * y' + (m' - 1)) mod 12 + 1) with m' in H by zdiv.
  rewrite (civil_to_days_day y m d), (civil_to_days_day y' m' d'). lia.
Qed.

Lemma days_to_civil_of_civil (y m d : Z) :
  1 <= m <= 12 -> 1 <= d <= day_tab (isleap y) m ->
  days_to_civil (civil_to_days y m d) = (y, m, d).
Proof.
  intros Hm Hd.
  destruct (days_to_civil (civil_to_days y m d)) as [[y' m'] d'] eqn:E.
  destruct (days_to_civil_spec _ _ _ _ E) as (Hm' & Hd' & Heq).
  destruct (Z.lt_trichotomy (12 * y + m) (12 * y' + m')) as [Hlt|[Hk|Hgt]].
  - pose proof (civil_to_days_month_order y m d y' m' d' Hm Hm'
                  (proj2 Hd) (proj1 Hd') Hlt). lia.
  - assert (y' = y /\ m' = m) as [-> ->] by lia.
    rewrite (civil_to_days_day y m d'), (civil_to_days_day y m d) in Heq.
    assert (d' = d) by lia. subst d'. reflexivity.
  - pose proof (civil_to_days_month_order y' m' d' y m d Hm' Hm
                  (proj2 Hd') (proj1 Hd) Hgt). lia.
Qed.

(** The civil date reached by a month addition: the month moves by [n],
    the day of the month is kept unless the target month is shorter. *)
Lemma pl_months_civil (t : timestamptz) (n y m d : Z) :
  days_to_civil (t / USECS_PER_DAY) = (y, m, d) ->
  let y2 := y + (m + n - 1) / 12 in
  let m2 := (m + n - 1) mod 12 + 1 in
  days_to_civil (pl_months t n / USECS_PER_DAY)
  = (y2, m2, Z.min d (day_tab (isleap y2) m2)).
Proof.
  intros E y2 m2. unfold pl_months. rewrite E. cbv zeta. fold y2 m2.
  destruct (days_to_civil_spec _ _ _ _ E) as (Hm & Hd & _).
  pose proof (day_tab_bounds (isleap y2) m2) as Hb.
  set (d2 := Z.min d (day_tab (isleap y2) m2)).
  replace ((civil_to_days y2 m2 d2 * USECS_PER_DAY + t mod USECS_PER_DAY)
           / USECS_PER_DAY) with (civil_to_days y2 m2 d2)
    by (set (j := civil_to_days y2 m2 d2); unfold USECS_PER_DAY; zdiv).
  apply days_to_civil_of_civil; [unfold m2; zdiv|unfold d2; lia].
Qed.

End CalendarFacts.

(** ** Properties of the stored procedures *)

Module BillingProperties.

Import CalendarFacts.

(** ** Examples on concrete inputs *)

Definition days (n : Z) : Z := n * USECS_PER_DAY.

Definition jan15 : timestamptz := make_timestamptz 2024 1 15 0 0 0.

Definition sample_row (st : subscription_status) (period_end : timestamptz)
  : subscriptions :=
  mkSubscription 1 7 "monthly" st
    (Some "sub_1"%string) (Some "cus_1"%string)
    jan15 period_end None None jan15 jan15.

Example ex_monthly_end :
  calculate_subscription_period_end "monthly" jan15
  = make_timestamptz 2024 2 15 0 0 0.
Proof. vm_compute. reflexivity. Qed.

Example ex_month_end_clamped :
  calculate_subscription_period_end "monthly"
    (make_timestamptz 2023 1 31 8 30 0)
  = make_timestamptz 2023 2 28 8 30 0.
Proof. vm_compute. reflexivity. Qed.

Example ex_billing_text :
  generate_billing_period_text jan15 jan15
    (make_timestamptz 2024 2 15 0 0 0) "monthly"
  = "Jan 15, 2024 – Feb 15, 2024 (1 month)"%string.
Proof. vm_compute. reflexivity. Qed.

Example ex_billing_text_expired :
  generate_billing_period_text (jan15 + days 40) jan15 (jan15 + days 30)
    "trial"
  = "Expired: Jan 15, 2024 – Feb 14, 2024 (30 day trial)"%string.
Proof. vm_compute. reflexivity. Qed.

Example ex_accuracy :
  validate_billing_period_accuracy jan15
    (calculate_subscription_period_end "monthly" jan15) "monthly" = true
  /\ validate_billing_period_accuracy jan15 (jan15 + days 10) "monthly"
     = false.
Proof. split; vm_compute; reflexivity. Qed.

Example ex_access_no_row :
  map (fun a => (Access.has_access a, Access.plan_type a,
                 Access.days_remaining a))
      (get_subscription_access_status jan15 7 [])
  = [(true, "trial"%string, 30)].
Proof. vm_compute. reflexivity. Qed.

Example ex_access_cancelled_in_window :
  map (fun a => (Access.has_access a, Access.is_cancelled a,
                 Access.is_expired a, Access.days_remaining a))
      (get_subscription_access_status jan15 7
         [sample_row cancelled (jan15 + days 5)])
  = [(true, true, false, 5)].
Proof. vm_compute. reflexivity. Qed.

Example ex_access_cancelled_expired :
  map (fun a => (Access.has_access a, Access.is_expired a))
      (get_subscription_access_status jan15 7
         [sample_row cancelled (jan15 - days 1)])
  = [(false, true)].
Proof. vm_compute. reflexivity. Qed.

Example ex_cancel_past_due :
  cancel_subscription_safe jan15 7 None [sample_row past_due (jan15 + days 5)]
  = (inl "Subscription is not active"%string,
     [sample_row past_due (jan15 + days 5)]).
Proof. vm_compute. reflexivity. Qed.

Example ex_webhook_insert :
  map (fun r => (id r, user_id r, status r, current_period_end r,
                 billing_period_text r, billing_period_accurate r))
      (snd (handle_subscription_webhook jan15 42 7 "monthly" "active"
              None (Some "cus_9"%string) None None []))
  = [(42%N, 7%N, active, make_timestamptz 2024 2 15 0 0 0,
      Some "Jan 15, 2024 – Feb 15, 2024 (1 month)"%string, Some true)].
Proof. vm_compute. reflexivity. Qed.

(** ** Period calculator *)

Definition known_plan (plan_type : subscription_plan_type) : bool :=
  ((plan_type =? "trial") || (plan_type =? "monthly")
   || (plan_type =? "semiannual") || (plan_type =? "annual"))%string.

(** [t'] is [t] moved by [n] calendar months: same time of day, the month
    moved by [n] with the year carried, the day of the month kept or, when
    the target month is shorter, its last day. *)
Definition calendar_months_after (n : Z) (t t' : timestamptz) : Prop :=
  t' mod USECS_PER_DAY = t mod USECS_PER_DAY /\
  let '(y, m, d) := days_to_civil (t / USECS_PER_DAY) in
  let y2 := y + (m + n - 1) / 12 in
  let m2 := (m + n - 1) mod 12 + 1 in
  days_to_civil (t' / USECS_PER_DAY)
  = (y2, m2, Z.min d (day_tab (isleap y2) m2)).

Lemma pl_months_calendar (n : Z) (t : timestamptz) :
  calendar_months_after n t (pl_months t n).
Proof.
  split; [apply pl_months_time_of_day|].
  destruct (days_to_civil (t / USECS_PER_DAY)) as [[y m] d] eqn:E.
  exact (pl_months_civil t n y m d E).
Qed.

(** [t'] is [t] moved by [n] calendar years: same time of day, month and
    day of the month, but February 29th becomes the 28th in a year that is
    not a leap year. *)
Definition calendar_years_after (n : Z) (t t' : timestamptz) : Prop :=
  t' mod USECS_PER_DAY = t mod USECS_PER_DAY /\
  let '(y, m, d) := days_to_civil (t / USECS_PER_DAY) in
  days_to_civil (t' / USECS_PER_DAY)
  = (y + n, m, Z.min d (day_tab (isleap (y + n)) m)).

Lemma pl_months_years (n : Z) (t : timestamptz) :
  calendar_years_after n t (pl_months t (12 * n)).
Proof.
  split; [apply pl_months_time_of_day|].
  destruct (days_to_civil (t / USECS_PER_DAY)) as [[y m] d] eqn:E.
  destruct (days_to_civil_spec _ _ _ _ E) as (Hm & _ & _).
  pose proof (pl_months_civil t (12 * n) y m d E) as H. cbv zeta in H.
  replace (y + (m + 12 * n - 1) / 12) with (y + n) in H by zdiv.
  replace ((m + 12 * n - 1) mod 12 + 1) with m in H by zdiv.
  exact H.
Qed.

Lemma unknown_plan_tests (plan_type : subscription_plan_type) :
  known_plan plan_type = false ->
  (plan_type =? "trial")%string = false
  /\ (plan_type =? "monthly")%string = false
  /\ (plan_type =? "semiannual")%string = false
  /\ (plan_type =? "annual")%string = false.
Proof.
  unfold known_plan. intros H.
  repeat (apply orb_false_elim in H; destruct H as [H ?]). auto.
Qed.

Lemma pl_interval_days (t : timestamptz) (n : Z) :
  timestamptz_pl_interval t (INTERVAL_days n) = t + days n.
Proof.
  unfold timestamptz_pl_interval, INTERVAL_days, days. cbn [month day time].
  rewrite Z.eqb_refl. destruct (Z.eqb_spec n 0) as [->|_]; lia.
Qed.

Lemma pl_interval_months (t : timestamptz) (n : Z) :
  n <> 0 -> timestamptz_pl_interval t (INTERVAL_months n) = pl_months t n.
Proof.
  intros Hn. unfold timestamptz_pl_interval, INTERVAL_months.
  cbn [month day time]. rewrite Z.eqb_refl.
  destruct (Z.eqb_spec n 0); lia.
Qed.

Lemma period_end_trial (start : timestamptz) :
  calculate_subscription_period_end "trial" start = start + days 30.
Proof.
  change (calculate_subscription_period_end "trial" start)
    with (timestamptz_pl_interval start (INTERVAL_days 30)).
  apply pl_interval_days.
Qed.

Lemma period_end_monthly (start : timestamptz) :
  calculate_subscription_period_end "monthly" start = pl_months start 1.
Proof.
  change (calculate_subscription_period_end "monthly" start)
    with (timestamptz_pl_interval start (INTERVAL_months 1)).
  apply pl_interval_months. lia.
Qed.

Lemma period_end_semiannual (start : timestamptz) :
  calculate_subscription_period_end "semiannual" start = pl_months start 6.
Proof.
  change (calculate_subscription_period_end "semiannual" start)
    with (timestamptz_pl_interval start (INTERVAL_months 6)).
  apply pl_interval_months. lia.
Qed.

Lemma period_end_annual (start : timestamptz) :
  calculate_subscription_period_end "annual" start = pl_months start 12.
Proof.
  change (calculate_subscription_period_end "annual" start)
    with (timestamptz_pl_interval start (INTERVAL_months 12)).
  apply pl_interval_months. lia.
Qed.

Lemma period_end_unknown (plan_type : subscription_plan_type)
    (start : timestamptz) :
  known_plan plan_type = false ->
  calculate_subscription_period_end plan_type start = start + days 30.
Proof.
  intros Hunknown. unfold calculate_subscription_period_end.
  destruct (unknown_plan_tests _ Hunknown) as (-> & -> & -> & ->).
  apply pl_interval_days.
Qed.

(** C5. [calculate_subscription_period_end] adds 30 days for [trial],
    one calendar month for [monthly], six calendar months for
    [semiannual], one calendar year for [annual], and 30 days for any
    other plan. *)
Theorem C5_period_end_offsets (start : timestamptz) :
  calculate_subscription_period_end "trial" start = start + days 30
  /\ calendar_months_after 1 start
       (calculate_subscription_period_end "monthly" start)
  /\ calendar_months_after 6 start
       (calculate_subscription_period_end "semiannual" start)
  /\ calendar_years_after 1 start
       (calculate_subscription_period_end "annual" start)
  /\ forall plan_type, known_plan plan_type = false ->
       calculate_subscription_period_end plan_type start = start + days 30.
Proof.
  rewrite period_end_monthly, period_end_semiannual, period_end_annual.
  split; [apply period_end_trial|].
  split; [apply pl_months_calendar|].
  split; [apply pl_months_calendar|].
  split; [exact (pl_months_years 1 start)|].
  intros plan_type. apply period_end_unknown.
Qed.

Lemma C5_period_end_offsets_witness :
  known_plan "weekly" = false /\
  calculate_subscription_period_end "weekly" jan15 = jan15 + days 30.
Proof.
  split; [reflexivity|].
  apply (proj2 (proj2 (proj2 (proj2 (C5_period_end_offsets jan15))))).
  reflexivity.
Defined.

(** The calculated end is later than the start, by at least 28 days. *)
Lemma calculate_subscription_period_end_later
    (plan_type : subscription_plan_type) (start : timestamptz) :
  start + days 28 <= calculate_subscription_period_end plan_type start.
Proof.
  unfold calculate_subscription_period_end.
  repeat match goal with
         | |- context [if ?b then _ else _] => destruct b
         end;
    rewrite ?pl_interval_days, ?pl_interval_months by lia;
    try (unfold days, USECS_PER_DAY; lia);
    try (apply pl_months_at_least_28_days; lia).
  change (INTERVAL_years 1) with (INTERVAL_months 12).
  rewrite pl_interval_months by lia.
  apply pl_months_at_least_28_days; lia.
Qed.

(** ** Access status resolver *)

(** The row the resolver reads for a user. *)
Definition latest_subscription (p_user_id : uuid) (t : table)
  : option subscriptions :=
  ORDER_BY_created_at_DESC_LIMIT_1
    (filter (fun s => (user_id s =? p_user_id)%N) t).

Lemma ORDER_BY_LIMIT_1_latest (rows : list subscriptions) (r : subscriptions) :
  ORDER_BY_created_at_DESC_LIMIT_1 rows = Some r ->
  In r rows /\ forall r', In r' rows -> created_at r' <= created_at r.
Proof.
  revert r. induction rows as [|x rest IH]; intros r H; [discriminate|].
  cbn [ORDER_BY_created_at_DESC_LIMIT_1] in H.
  destruct (ORDER_BY_created_at_DESC_LIMIT_1 rest) as [best|] eqn:E.
  - destruct (IH best eq_refl) as [Hin Hmax].
    destruct (Z.ltb_spec (created_at x) (created_at best));
      injection H as <-.
    + split; [right; exact Hin|].
      intros r' [<-|Hr']; [lia|auto].
    + split; [left; reflexivity|].
      intros r' [<-|Hr']; [lia|]. specialize (Hmax r' Hr'). lia.
  - injection H as <-. destruct rest as [|y rest'].
    + split; [left; reflexivity|]. intros r' [<-|[]]. lia.
    + cbn [ORDER_BY_created_at_DESC_LIMIT_1] in E.
      destruct (ORDER_BY_created_at_DESC_LIMIT_1 rest');
        [destruct (created_at y <? created_at s)|]; discriminate.
Qed.

Lemma ORDER_BY_LIMIT_1_found (rows : list subscriptions) :
  rows <> [] -> exists r, ORDER_BY_created_at_DESC_LIMIT_1 rows = Some r.
Proof.
  destruct rows as [|x rest]; [congruence|]. intros _.
  cbn [ORDER_BY_created_at_DESC_LIMIT_1].
  destruct (ORDER_BY_created_at_DESC_LIMIT_1 rest) as [best|]; eauto.
  destruct (created_at x <? created_at best); eauto.
Qed.

Lemma latest_subscription_spec (p_user_id : uuid) (t : table)
    (r : subscriptions) :
  latest_subscription p_user_id t = Some r ->
  In r t /\ user_id r = p_user_id /\
  forall r', In r' t -> user_id r' = p_user_id ->
             created_at r' <= created_at r.
Proof.
  unfold latest_subscription. intros H.
  destruct (ORDER_BY_LIMIT_1_latest _ _ H) as [Hin Hmax].
  apply filter_In in Hin. destruct Hin as [Hin Hu]. apply N.eqb_eq in Hu.
  repeat split; auto.
  intros r' Hr' Hu'. apply Hmax. apply filter_In. split; [exact Hr'|].
  apply N.eqb_eq. exact Hu'.
Qed.

Lemma latest_subscription_found (p_user_id : uuid) (t : table) :
  (exists r, In r t /\ user_id r = p_user_id) ->
  exists r, latest_subscription p_user_id t = Some r.
Proof.
  intros (r & Hin & Hu). apply ORDER_BY_LIMIT_1_found.
  intros Hnil.
  assert (Hf : In r (filter (fun s => (user_id s =? p_user_id)%N) t))
    by (apply filter_In; split; [exact Hin|apply N.eqb_eq; exact Hu]).
  rewrite Hnil in Hf. exact Hf.
Qed.

(** Whole days of a difference, cut off at zero: truncation and floor
    agree. *)
Lemma whole_days_remaining (period_end now : timestamptz) :
  Z.max 0 (EXTRACT_DAY (timestamp_mi period_end now))
  = Z.max 0 ((period_end - now) / USECS_PER_DAY).
Proof.
  unfold EXTRACT_DAY, timestamp_mi. cbn [day]. unfold USECS_PER_DAY.
  Z.to_euclidean_division_equations. lia.
Qed.

(** C2. For a user with at least one row, the access status is computed
    from a row of that user with the greatest creation time:
    [is_expired] is [period end <= now], [is_cancelled] is
    [status = cancelled], [days_remaining] is the floor of the remaining
    days, cut off at 0, and [has_access] is
    [status = active OR (is_cancelled AND NOT is_expired)]. *)
Theorem C2_access_status_from_latest_row
    (now : timestamptz) (p_user_id : uuid) (t : table) :
  (exists r0, In r0 t /\ user_id r0 = p_user_id) ->
  exists r a,
    In r t /\ user_id r = p_user_id /\
    (forall r', In r' t -> user_id r' = p_user_id ->
                created_at r' <= created_at r) /\
    get_subscription_access_status now p_user_id t = [a] /\
    Access.is_expired a = (current_period_end r <=? now) /\
    Access.is_cancelled a = subscription_status_eqb (status r) cancelled /\
    Access.days_remaining a
    = Z.max 0 ((current_period_end r - now) / USECS_PER_DAY) /\
    Access.has_access a
    = (subscription_status_eqb (status r) active
       || (Access.is_cancelled a && negb (Access.is_expired a))).
Proof.
  intros Hrow.
  destruct (latest_subscription_found _ _ Hrow) as [r Hlatest].
  destruct (latest_subscription_spec _ _ _ Hlatest) as (Hin & Hu & Hmax).
  unfold latest_subscription in Hlatest.
  unfold get_subscription_access_status. rewrite Hlatest.
  eexists r, _. repeat (split; [solve [eauto]|]).
  cbn [Access.is_expired Access.is_cancelled Access.days_remaining
       Access.has_access].
  repeat split. apply whole_days_remaining.
Qed.

Lemma C2_access_status_from_latest_row_witness :
  exists r a,
    In r [sample_row cancelled (jan15 + days 5)] /\ user_id r = 7%N /\
    (forall r', In r' [sample_row cancelled (jan15 + days 5)] ->
                user_id r' = 7%N -> created_at r' <= created_at r) /\
    get_subscription_access_status jan15 7
      [sample_row cancelled (jan15 + days 5)] = [a] /\
    Access.is_expired a = (current_period_end r <=? jan15) /\
    Access.is_cancelled a = subscription_status_eqb (status r) cancelled /\
    Access.days_remaining a
    = Z.max 0 ((current_period_end r - jan15) / USECS_PER_DAY) /\
    Access.has_access a
    = (subscription_status_eqb (status r) active
       || (Access.is_cancelled a && negb (Access.is_expired a))).
Proof.
  apply (C2_access_status_from_latest_row jan15 7
           [sample_row cancelled (jan15 + days 5)]).
  exists (sample_row cancelled (jan15 + days 5)).
  split; [left; reflexivity|reflexivity].
Defined.

(** Expired access denied whatever the status, as the specification
    words it. *)
Definition expired_access_denied (now : timestamptz) (p_user_id : uuid)
    (t : table) : Prop :=
  forall r, latest_subscription p_user_id t = Some r ->
            current_period_end r <= now ->
  forall a, In a (get_subscription_access_status now p_user_id t) ->
            Access.has_access a = false.

(** An active row past its period end still grants access. *)
Lemma C1_active_expired_has_access :
  ~ expired_access_denied jan15 7 [sample_row active (jan15 - days 1)].
Proof.
  intros H.
  specialize (H (sample_row active (jan15 - days 1)) eq_refl).
  assert (Hexp : current_period_end (sample_row active (jan15 - days 1))
                 <= jan15) by (vm_compute; discriminate).
  specialize (H Hexp _ (or_introl eq_refl)).
  vm_compute in H. discriminate.
Qed.

(** C1 (amended). When the latest row of a user has its period end at or
    before now, access is denied exactly when the status is not [active]:
    an expired row with status [cancelled], [past_due] or [expired] gives
    [has_access = false], an expired row with status [active] gives
    [has_access = true]. *)
Theorem C1_expired_access_by_status
    (now : timestamptz) (p_user_id : uuid) (t : table) (r : subscriptions) :
  latest_subscription p_user_id t = Some r ->
  current_period_end r <= now ->
  exists a,
    get_subscription_access_status now p_user_id t = [a] /\
    Access.is_expired a = true /\
    (status r <> active -> Access.has_access a = false) /\
    (status r = active -> Access.has_access a = true).
Proof.
  intros Hlatest Hexp. unfold latest_subscription in Hlatest.
  unfold get_subscription_access_status. rewrite Hlatest.
  eexists. split; [reflexivity|].
  cbn [Access.is_expired Access.has_access].
  assert (E : (current_period_end r <=? now) = true) by (apply Z.leb_le; lia).
  rewrite E. split; [reflexivity|].
  split; intros Hst.
  - destruct (status r); try congruence; reflexivity.
  - rewrite Hst. reflexivity.
Qed.

Lemma C1_expired_access_by_status_witness :
  exists a,
    get_subscription_access_status jan15 7
      [sample_row cancelled (jan15 - days 1)] = [a] /\
    Access.is_expired a = true /\
    (status (sample_row cancelled (jan15 - days 1)) <> active ->
     Access.has_access a = false) /\
    (status (sample_row cancelled (jan15 - days 1)) = active ->
     Access.has_access a = true).
Proof.
  apply (C1_expired_access_by_status jan15 7
           [sample_row cancelled (jan15 - days 1)]
           (sample_row cancelled (jan15 - days 1))).
  - reflexivity.
  - vm_compute. discriminate.
Defined.

(** ** Lifecycle operations *)

Lemma subscription_status_eqb_spec (a b : subscription_status) :
  reflect (a = b) (subscription_status_eqb a b).
Proof. destruct a, b; constructor; congruence. Qed.

(** The row a writer reads as the user's subscription: what
    [SELECT_INTO_WHERE_user_id] returns. *)
Definition current_subscription (p_user_id : uuid) (t : table)
  : option subscriptions :=
  find (fun r => (user_id r =? p_user_id)%N) t.

Lemma current_subscription_none (p_user_id : uuid) (t : table) :
  (forall r, In r t -> user_id r <> p_user_id) ->
  current_subscription p_user_id t = None.
Proof.
  unfold current_subscription. induction t as [|x rest IH]; intros H.
  - reflexivity.
  - cbn [find]. destruct (N.eqb_spec (user_id x) p_user_id) as [E|_].
    + exfalso. apply (H x); [left; reflexivity|exact E].
    + apply IH. intros r Hr. apply H. right. exact Hr.
Qed.

Lemma current_subscription_some (p_user_id : uuid) (t : table)
    (r : subscriptions) :
  current_subscription p_user_id t = Some r ->
  In r t /\ user_id r = p_user_id.
Proof.
  unfold current_subscription. intros H. apply find_some in H.
  destruct H as [Hin Hu]. apply N.eqb_eq in Hu. auto.
Qed.

(** The table after an [UPDATE ... WHERE user_id = p]. *)
Definition updated_rows (now : timestamptz) (p_user_id : uuid)
    (SET : subscriptions -> subscriptions) (t : table) : table :=
  map (fun r => if (user_id r =? p_user_id)%N
                then update_billing_period_text now (SET r)
                else r) t.


Lemma updated_rows_current (now : timestamptz) (p_user_id : uuid)
    (SET : subscriptions -> subscriptions) (t : table) :
  (forall r, user_id (SET r) = user_id r) ->
  current_subscription p_user_id (updated_rows now p_user_id SET t)
  = option_map (fun r => update_billing_period_text now (SET r))
      (current_subscription p_user_id t).
Proof.
  intros Hu. unfold current_subscription, updated_rows.
  induction t as [|x rest IH]; [reflexivity|].
  cbn [map find].
  destruct (N.eqb_spec (user_id x) p_user_id) as [E|E].
  - cbn [update_billing_period_text user_id]. rewrite Hu.
    apply N.eqb_eq in E. rewrite E. reflexivity.
  - apply N.eqb_neq in E. rewrite E. exact IH.
Qed.





Example ex_cancel_active :
  map (fun r => (status r, updated_at r, current_period_end r))
      (snd (cancel_subscription_safe (jan15 + days 3) 7 (Some "too dear"%string)
              [sample_row active (jan15 + days 30)]))
  = [(cancelled, jan15 + days 3, jan15 + days 30)].
Proof. vm_compute. reflexivity. Qed.



Example ex_reactivate_active :
  reactivate_subscription jan15 7 "pm_1" [sample_row active (jan15 + days 5)]
  = (inl "Subscription is not cancelled"%string,
     [sample_row active (jan15 + days 5)]).
Proof. vm_compute. reflexivity. Qed.

Example ex_reactivate_expired :
  reactivate_subscription jan15 7 "pm_1"
    [sample_row cancelled (jan15 - days 1)]
  = (inl "Subscription has already expired"%string,
     [sample_row cancelled (jan15 - days 1)]).
Proof. vm_compute. reflexivity. Qed.

(** C10. For a user with no subscription row, cancel and reactivate both
    raise 'No subscription found for user' and leave the table as it
    was. *)
Theorem C10_no_row_no_lifecycle
    (now : timestamptz) (p_user_id : uuid) (p_reason : option text)
    (p_payment_method_id : text) (t : table) :
  (forall r, In r t -> user_id r <> p_user_id) ->
  cancel_subscription_safe now p_user_id p_reason t
  = (inl "No subscription found for user"%string, t)
  /\ reactivate_subscription now p_user_id p_payment_method_id t
     = (inl "No subscription found for user"%string, t).
Proof.
  intros Hnone.
  unfold cancel_subscription_safe, reactivate_subscription, bind,
    SELECT_INTO_WHERE_user_id.
  fold (current_subscription p_user_id t).
  rewrite (current_subscription_none _ _ Hnone). split; reflexivity.
Qed.

Lemma C10_no_row_no_lifecycle_witness :
  cancel_subscription_safe jan15 8 None [sample_row active (jan15 + days 5)]
  = (inl "No subscription found for user"%string,
     [sample_row active (jan15 + days 5)])
  /\ reactivate_subscription jan15 8 "pm_1"
       [sample_row active (jan15 + days 5)]
     = (inl "No subscription found for user"%string,
        [sample_row active (jan15 + days 5)]).
Proof.
  apply (C10_no_row_no_lifecycle jan15 8 None "pm_1"
           [sample_row active (jan15 + days 5)]).
  intros r [<-|[]]. vm_compute. discriminate.
Defined.

(** ** Subscription reconciler *)

Section Reconciler.

Variables (now : timestamptz) (generated_id : uuid).
Variables (p_user_id : uuid) (p_plan_type : subscription_plan_type)
          (p_status : text)
          (p_stripe_subscription_id p_stripe_customer_id : option text)
          (p_period_start p_period_end : option timestamptz).

(** The period bounds a call stores. *)
Definition effective_period_start : timestamptz :=
  COALESCE_to p_period_start now.

Definition effective_period_end : timestamptz :=
  match p_period_end with
  | None =>
      calculate_subscription_period_end p_plan_type effective_period_start
  | Some e => e
  end.

(** The assignments of the [UPDATE] branch. *)
Definition webhook_SET (new_status : subscription_status) (r : subscriptions)
  : subscriptions :=
  mkSubscription (id r) (user_id r) p_plan_type new_status
    (COALESCE p_stripe_subscription_id (stripe_subscription_id r))
    (COALESCE p_stripe_customer_id (stripe_customer_id r))
    effective_period_start effective_period_end
    (billing_period_text r) (billing_period_accurate r) (created_at r) now.

(** The row of the [INSERT] branch, as the trigger stores it. *)
Definition webhook_NEW (new_status : subscription_status) : subscriptions :=
  update_billing_period_text now
    (mkSubscription generated_id p_user_id p_plan_type new_status
       p_stripe_subscription_id p_stripe_customer_id
       effective_period_start effective_period_end None None now now).

Definition the_call : Tx webhook_json :=
  handle_subscription_webhook now generated_id p_user_id p_plan_type p_status
    p_stripe_subscription_id p_stripe_customer_id p_period_start p_period_end.

Lemma webhook_invalid_status (t : table) :
  subscription_status_in p_status = None ->
  exists e, the_call t = (inl e, t).
Proof.
  intros Hcast.
  unfold the_call, handle_subscription_webhook, bind,
    SELECT_INTO_WHERE_user_id, CAST_subscription_status.
  rewrite Hcast. destruct (find _ t); eexists; reflexivity.
Qed.

Lemma webhook_update (t : table) (old : subscriptions)
    (new_status : subscription_status) :
  current_subscription p_user_id t = Some old ->
  subscription_status_in p_status = Some new_status ->
  exists json,
    the_call t
    = (inr json, updated_rows now p_user_id (webhook_SET new_status) t).
Proof.
  intros Hcur Hcast.
  unfold the_call, handle_subscription_webhook, bind,
    SELECT_INTO_WHERE_user_id, CAST_subscription_status.
  fold (current_subscription p_user_id t). rewrite Hcur, Hcast.
  eexists. reflexivity.
Qed.

Lemma webhook_insert (t : table) (new_status : subscription_status) :
  current_subscription p_user_id t = None ->
  subscription_status_in p_status = Some new_status ->
  exists json, the_call t = (inr json, t ++ [webhook_NEW new_status]).
Proof.
  intros Hcur Hcast.
  unfold the_call, handle_subscription_webhook, bind,
    SELECT_INTO_WHERE_user_id, CAST_subscription_status.
  fold (current_subscription p_user_id t). rewrite Hcur, Hcast.
  eexists. reflexivity.
Qed.

(** Both overloads of the handler write the same table. *)
Lemma handle_subscription_webhook_enum_same (t : table)
    (new_status : subscription_status) :
  subscription_status_in p_status = Some new_status ->
  snd (handle_subscription_webhook_enum now generated_id p_user_id
         p_plan_type new_status p_stripe_subscription_id
         p_stripe_customer_id p_period_start p_period_end t)
  = snd (the_call t).
Proof.
  intros Hcast.
  unfold the_call, handle_subscription_webhook,
    handle_subscription_webhook_enum, bind, SELECT_INTO_WHERE_user_id,
    CAST_subscription_status.
  rewrite Hcast. destruct (find _ t); reflexivity.
Qed.

End Reconciler.

(** C4. When the user already has a row, the call keeps the stored
    provider identifier where it is given null and stores the given one
    otherwise, and stores the period bounds of the call whatever the row
    had: the start given or else now, the end given or else the
    calculated end for the plan from that start. *)
Theorem C4_reconcile_existing_row
    (now : timestamptz) (generated_id p_user_id : uuid)
    (p_plan_type : subscription_plan_type) (p_status : text)
    (p_stripe_subscription_id p_stripe_customer_id : option text)
    (p_period_start p_period_end : option timestamptz)
    (t : table) (old : subscriptions) (new_status : subscription_status) :
  current_subscription p_user_id t = Some old ->
  subscription_status_in p_status = Some new_status ->
  exists json t' new,
    handle_subscription_webhook now generated_id p_user_id p_plan_type
      p_status p_stripe_subscription_id p_stripe_customer_id
      p_period_start p_period_end t = (inr json, t') /\
    List.length t' = List.length t /\
    current_subscription p_user_id t' = Some new /\
    id new = id old /\ created_at new = created_at old /\
    plan_type new = p_plan_type /\ status new = new_status /\
    updated_at new = now /\
    stripe_subscription_id new
    = match p_stripe_subscription_id with
      | Some v => Some v
      | None => stripe_subscription_id old
      end /\
    stripe_customer_id new
    = match p_stripe_customer_id with
      | Some v => Some v
      | None => stripe_customer_id old
      end /\
    current_period_start new
    = match p_period_start with Some s => s | None => now end /\
    current_period_end new
    = match p_period_end with
      | Some e => e
      | None =>
          calculate_subscription_period_end p_plan_type
            (match p_period_start with Some s => s | None => now end)
      end.
Proof.
  intros Hcur Hcast.
  destruct (webhook_update now generated_id p_user_id p_plan_type p_status
              p_stripe_subscription_id p_stripe_customer_id
              p_period_start p_period_end t old new_status Hcur Hcast)
    as [json Hcall].
  unfold the_call in Hcall. rewrite Hcall.
  eexists _, _, _. split; [reflexivity|].
  split; [unfold updated_rows; apply List.length_map|].
  rewrite updated_rows_current, Hcur by reflexivity.
  split; [reflexivity|].
  cbn. unfold COALESCE.
  destruct p_stripe_subscription_id, p_stripe_customer_id; repeat split.
Qed.

Lemma C4_reconcile_existing_row_witness :
  exists json t' new,
    handle_subscription_webhook (jan15 + days 31) 42 7 "annual" "active"
      None (Some "cus_2"%string) None None
      [sample_row active (jan15 + days 30)] = (inr json, t') /\
    List.length t' = List.length [sample_row active (jan15 + days 30)] /\
    current_subscription 7 t' = Some new /\
    id new = id (sample_row active (jan15 + days 30)) /\
    created_at new = created_at (sample_row active (jan15 + days 30)) /\
    plan_type new = "annual"%string /\ status new = active /\
    updated_at new = jan15 + days 31 /\
    stripe_subscription_id new
    = stripe_subscription_id (sample_row active (jan15 + days 30)) /\
    stripe_customer_id new = Some "cus_2"%string /\
    current_period_start new = jan15 + days 31 /\
    current_period_end new
    = calculate_subscription_period_end "annual" (jan15 + days 31).
Proof.
  apply (C4_reconcile_existing_row (jan15 + days 31) 42 7 "annual" "active"
           None (Some "cus_2"%string) None None
           [sample_row active (jan15 + days 30)]
           (sample_row active (jan15 + days 30)) active);
    reflexivity.
Defined.

(** ** Derived columns *)

(** The derived columns of a row agree with the formatter and the
    accuracy check on the row's own period and plan, as of [now]. *)
Definition derived_fields_consistent (now : timestamptz) (r : subscriptions)
  : Prop :=
  billing_period_text r
  = Some (generate_billing_period_text now (current_period_start r)
            (current_period_end r) (plan_type r))
  /\ billing_period_accurate r
     = Some (validate_billing_period_accuracy (current_period_start r)
               (current_period_end r) (plan_type r)).

Lemma trigger_consistent (now : timestamptz) (NEW : subscriptions) :
  derived_fields_consistent now (update_billing_period_text now NEW).
Proof. split; reflexivity. Qed.

Lemma updated_rows_written (now : timestamptz) (p_user_id : uuid)
    (SET : subscriptions -> subscriptions) (t : table) (r' : subscriptions) :
  (forall r, user_id (SET r) = user_id r) ->
  In r' (updated_rows now p_user_id SET t) -> user_id r' = p_user_id ->
  exists r, In r t /\ user_id r = p_user_id
            /\ r' = update_billing_period_text now (SET r).
Proof.
  intros Hu Hin Hr'. unfold updated_rows in Hin. apply in_map_iff in Hin.
  destruct Hin as (r & Hr & Hin). exists r.
  destruct (N.eqb_spec (user_id r) p_user_id) as [E|E].
  - auto.
  - subst r'. contradiction.
Qed.

Lemma updated_rows_consistent (now : timestamptz) (p_user_id : uuid)
    (SET : subscriptions -> subscriptions) (t : table) (r' : subscriptions) :
  (forall r, user_id (SET r) = user_id r) ->
  In r' (updated_rows now p_user_id SET t) -> user_id r' = p_user_id ->
  derived_fields_consistent now r'.
Proof.
  intros Hu Hin Hr'.
  destruct (updated_rows_written _ _ _ _ _ Hu Hin Hr') as (r & _ & _ & ->).
  apply trigger_consistent.
Qed.

Lemma lifecycle_success (now : timestamptz) (p_user_id : uuid)
    (t t' : table) :
  (forall reason,
     cancel_subscription_safe now p_user_id reason t = (inr tt, t') ->
     t' = updated_rows now p_user_id (set_status cancelled now) t)
  /\ (forall pm,
        reactivate_subscription now p_user_id pm t = (inr tt, t') ->
        t' = updated_rows now p_user_id (set_status active now) t).
Proof.
  unfold cancel_subscription_safe, reactivate_subscription, bind,
    SELECT_INTO_WHERE_user_id, UPDATE_subscriptions, ret, RAISE_EXCEPTION.
  split; intros ? H; destruct (find _ t) as [r|]; try discriminate.
  - destruct (negb _); [discriminate|].
    injection H as <-. reflexivity.
  - destruct (negb _); [discriminate|].
    destruct (_ <=? _); [discriminate|].
    injection H as <-. reflexivity.
Qed.

Lemma reconcile_success (now : timestamptz) (generated_id p_user_id : uuid)
    (plan : subscription_plan_type) (st : text) (sid cid : option text)
    (ps pe : option timestamptz) (t t' : table) :
  run_call now generated_id (reconcile p_user_id plan st sid cid ps pe) t
  = (inr tt, t') ->
  exists new_status,
    subscription_status_in st = Some new_status /\
    ((exists old, current_subscription p_user_id t = Some old) /\
     t' = updated_rows now p_user_id
            (webhook_SET now plan sid cid ps pe new_status) t
     \/
     current_subscription p_user_id t = None /\
     t' = t ++ [webhook_NEW now generated_id p_user_id plan sid cid ps pe
                  new_status]).
Proof.
  intros H. cbn [run_call] in H. unfold bind at 1 in H.
  destruct (subscription_status_in st) as [new_status|] eqn:Hcast.
  - exists new_status. split; [reflexivity|].
    destruct (current_subscription p_user_id t) as [old|] eqn:Hcur.
    + destruct (webhook_update now generated_id p_user_id plan st sid cid
                  ps pe t old new_status Hcur Hcast) as [json Hcall].
      unfold the_call in Hcall. rewrite Hcall in H.
      injection H as <-. left. eauto.
    + destruct (webhook_insert now generated_id p_user_id plan st sid cid
                  ps pe t new_status Hcur Hcast) as [json Hcall].
      unfold the_call in Hcall. rewrite Hcall in H.
      injection H as <-. right. auto.
  - destruct (webhook_invalid_status now generated_id p_user_id plan st
                sid cid ps pe t Hcast) as [e Hcall].
    unfold the_call in Hcall. rewrite Hcall in H. discriminate.
Qed.

(** C6. After a successful reconcile, cancel or reactivate, every row of
    the user (the rows the call inserted or updated) carries the billing
    text the formatter gives and the accuracy flag the tolerance check
    gives for the row's stored period and plan; the table write and the
    recomputation are one step. *)
Theorem C6_derived_fields_recomputed
    (now : timestamptz) (generated_id : uuid) (c : call) (t t' : table) :
  run_call now generated_id c t = (inr tt, t') ->
  forall r', In r' t' -> user_id r' = call_user c ->
             derived_fields_consistent now r'.
Proof.
  intros Hrun r' Hin Hu. destruct c as [u plan st sid cid ps pe|u reason|u pm];
    cbn [call_user] in Hu.
  - destruct (reconcile_success _ _ _ _ _ _ _ _ _ _ _ Hrun)
      as (new_status & _ & [[_ ->]|[Hnone ->]]).
    + eapply updated_rows_consistent; [|exact Hin|exact Hu]. reflexivity.
    + apply in_app_or in Hin. destruct Hin as [Hold|[<-|[]]].
      * exfalso. unfold current_subscription in Hnone.
        pose proof (find_none _ _ Hnone r' Hold) as Hne. cbn beta in Hne.
        apply N.eqb_neq in Hne. contradiction.
      * apply trigger_consistent.
  - cbn [run_call] in Hrun.
    rewrite (proj1 (lifecycle_success now u t t') reason Hrun) in Hin.
    eapply updated_rows_consistent; [|exact Hin|exact Hu]. reflexivity.
  - cbn [run_call] in Hrun.
    rewrite (proj2 (lifecycle_success now u t t') pm Hrun) in Hin.
    eapply updated_rows_consistent; [|exact Hin|exact Hu]. reflexivity.
Qed.

Lemma C6_derived_fields_recomputed_witness :
  derived_fields_consistent (jan15 + days 40)
    (update_billing_period_text (jan15 + days 40)
       (set_status cancelled (jan15 + days 40)
          (sample_row active (jan15 + days 30)))).
Proof.
  apply (C6_derived_fields_recomputed (jan15 + days 40) 42 (cancel 7 None)
           [sample_row active (jan15 + days 30)]
           [update_billing_period_text (jan15 + days 40)
              (set_status cancelled (jan15 + days 40)
                 (sample_row active (jan15 + days 30)))]).
  - reflexivity.
  - left. reflexivity.
  - reflexivity.
Defined.

Example ex_cancel_refreshes_text :
  map billing_period_text
    (snd (run_call (jan15 + days 40) 42 (cancel 7 None)
            [sample_row active (jan15 + days 30)]))
  = [Some "Expired: Jan 15, 2024 – Feb 14, 2024 (1 month)"%string].
Proof. vm_compute. reflexivity. Qed.

(** ** Repeated reconcile calls *)

Definition with_updated_at (u : timestamptz) (r : subscriptions)
  : subscriptions :=
  mkSubscription (id r) (user_id r) (plan_type r) (status r)
    (stripe_subscription_id r) (stripe_customer_id r)
    (current_period_start r) (current_period_end r)
    (billing_period_text r) (billing_period_accurate r) (created_at r) u.

(** Two rows that agree in every column but [updated_at]. *)
Definition same_apart_from_updated_at (r1 r2 : subscriptions) : Prop :=
  with_updated_at 0 r1 = with_updated_at 0 r2.

Lemma same_apart_from_updated_at_refl (t : table) :
  Forall2 same_apart_from_updated_at t t.
Proof. induction t; constructor; [reflexivity|assumption]. Qed.

(** The table after the call at [now1] and then the same call again at
    [now2] has the rows of the table after the first call alone, apart
    from [updated_at]. *)
Definition twice_as_once (now1 now2 : timestamptz) (id1 id2 : uuid)
    (c : call) (t : table) : Prop :=
  let t1 := snd (run_call now1 id1 c t) in
  let t2 := snd (run_call now2 id2 c t1) in
  Forall2 same_apart_from_updated_at t1 t2.

(** With no period start given, the second call stamps its own clock. *)
Lemma C3_null_start_not_idempotent :
  ~ twice_as_once jan15 (jan15 + days 1) 42 43
      (reconcile 7 "monthly" "active" None None None None) [].
Proof.
  unfold twice_as_once. intros H. vm_compute in H.
  inversion H as [|r1 r2 l1 l2 Hrow _]. discriminate Hrow.
Qed.

(** The billing text depends on the clock only through the expiry test. *)
Lemma generate_billing_period_text_clock (now1 now2 s e : timestamptz)
    (plan : subscription_plan_type) :
  (e <=? now1) = (e <=? now2) ->
  generate_billing_period_text now1 s e plan
  = generate_billing_period_text now2 s e plan.
Proof.
  intros H. unfold generate_billing_period_text. rewrite H. reflexivity.
Qed.

Lemma COALESCE_idem {A : Type} (a b : option A) :
  COALESCE a (COALESCE a b) = COALESCE a b.
Proof. destruct a; reflexivity. Qed.

Lemma COALESCE_self {A : Type} (a : option A) : COALESCE a a = a.
Proof. destruct a; reflexivity. Qed.

Lemma updated_rows_other_users (now : timestamptz) (p_user_id : uuid)
    (SET : subscriptions -> subscriptions) (t : table) :
  current_subscription p_user_id t = None ->
  updated_rows now p_user_id SET t = t.
Proof.
  unfold current_subscription, updated_rows.
  induction t as [|x rest IH]; [reflexivity|].
  cbn [find map]. destruct (user_id x =? p_user_id)%N; [discriminate|].
  intros H. rewrite (IH H). reflexivity.
Qed.

Lemma updated_rows_app (now : timestamptz) (p_user_id : uuid)
    (SET : subscriptions -> subscriptions) (t1 t2 : table) :
  updated_rows now p_user_id SET (t1 ++ t2)
  = updated_rows now p_user_id SET t1 ++ updated_rows now p_user_id SET t2.
Proof. unfold updated_rows. apply map_app. Qed.

Lemma current_subscription_app_new (p_user_id : uuid) (t : table)
    (r : subscriptions) :
  current_subscription p_user_id t = None -> user_id r = p_user_id ->
  current_subscription p_user_id (t ++ [r]) = Some r.
Proof.
  unfold current_subscription. intros Hnone Hu.
  induction t as [|x rest IH]; cbn [app find].
  - apply N.eqb_eq in Hu. rewrite Hu. reflexivity.
  - cbn [find] in Hnone. destruct (user_id x =? p_user_id)%N;
      [discriminate|auto].
Qed.

Section Idempotence.

Variables (now1 now2 : timestamptz) (id1 id2 : uuid).
Variables (p_user_id : uuid) (p_plan_type : subscription_plan_type)
          (p_status : text) (sid cid : option text)
          (p_start : timestamptz) (p_period_end : option timestamptz).

Let period_end : timestamptz :=
  effective_period_end now1 p_plan_type (Some p_start) p_period_end.

Hypothesis same_side : (period_end <=? now1) = (period_end <=? now2).

Variable new_status : subscription_status.

Let SET1 := webhook_SET now1 p_plan_type sid cid (Some p_start) p_period_end
              new_status.
Let SET2 := webhook_SET now2 p_plan_type sid cid (Some p_start) p_period_end
              new_status.

(** A row written by the first call is written again with the same
    values by the second. *)
Lemma rewrite_of_updated (r : subscriptions) :
  same_apart_from_updated_at
    (update_billing_period_text now1 (SET1 r))
    (update_billing_period_text now2
       (SET2 (update_billing_period_text now1 (SET1 r)))).
Proof.
  unfold same_apart_from_updated_at, with_updated_at, SET1, SET2, webhook_SET,
    update_billing_period_text.
  cbn [id user_id plan_type status stripe_subscription_id stripe_customer_id
       current_period_start current_period_end billing_period_text
       billing_period_accurate created_at updated_at].
  rewrite !COALESCE_idem.
  change (effective_period_start now2 (Some p_start))
    with (effective_period_start now1 (Some p_start)).
  change (effective_period_end now2 p_plan_type (Some p_start) p_period_end)
    with period_end.
  change (effective_period_end now1 p_plan_type (Some p_start) p_period_end)
    with period_end.
  rewrite (generate_billing_period_text_clock now1 now2 _ _ _ same_side).
  reflexivity.
Qed.

Lemma rewrite_of_inserted :
  same_apart_from_updated_at
    (webhook_NEW now1 id1 p_user_id p_plan_type sid cid (Some p_start)
       p_period_end new_status)
    (update_billing_period_text now2
       (SET2 (webhook_NEW now1 id1 p_user_id p_plan_type sid cid
                (Some p_start) p_period_end new_status))).
Proof.
  unfold same_apart_from_updated_at, with_updated_at, SET2, webhook_SET,
    webhook_NEW, update_billing_period_text.
  cbn [id user_id plan_type status stripe_subscription_id stripe_customer_id
       current_period_start current_period_end billing_period_text
       billing_period_accurate created_at updated_at].
  rewrite !COALESCE_self.
  change (effective_period_start now2 (Some p_start))
    with (effective_period_start now1 (Some p_start)).
  change (effective_period_end now2 p_plan_type (Some p_start) p_period_end)
    with period_end.
  change (effective_period_end now1 p_plan_type (Some p_start) p_period_end)
    with period_end.
  rewrite (generate_billing_period_text_clock now1 now2 _ _ _ same_side).
  reflexivity.
Qed.

Lemma rewrite_of_updated_rows (t : table) :
  Forall2 same_apart_from_updated_at
    (updated_rows now1 p_user_id SET1 t)
    (updated_rows now2 p_user_id SET2 (updated_rows now1 p_user_id SET1 t)).
Proof.
  unfold updated_rows. induction t as [|x rest IH]; cbn [map]; constructor;
    [|exact IH].
  destruct (N.eqb_spec (user_id x) p_user_id) as [E|E].
  - cbn [update_billing_period_text user_id SET1 webhook_SET].
    apply N.eqb_eq in E. rewrite E. apply rewrite_of_updated.
  - apply N.eqb_neq in E. rewrite E. reflexivity.
Qed.

End Idempotence.

Lemma run_reconcile_table (now : timestamptz) (generated_id u : uuid)
    (plan : subscription_plan_type) (st : text) (sid cid : option text)
    (ps pe : option timestamptz) (t : table) :
  snd (run_call now generated_id (reconcile u plan st sid cid ps pe) t)
  = snd (handle_subscription_webhook now generated_id u plan st sid cid
           ps pe t).
Proof.
  cbn [run_call]. unfold bind at 1.
  destruct (handle_subscription_webhook _ _ _ _ _ _ _ _ _ t) as [[e|j] t'];
    reflexivity.
Qed.

(** C3 (amended). Calling the reconciler twice in succession with the
    same arguments leaves the rows the first call left, apart from
    [updated_at], when the period start is given (not null) and the stored
    period end is on the same side of both call times; the period end may
    be null. *)
Theorem C3_reconcile_twice_as_once
    (now1 now2 : timestamptz) (id1 id2 p_user_id : uuid)
    (p_plan_type : subscription_plan_type) (p_status : text)
    (sid cid : option text) (p_start : timestamptz)
    (p_period_end : option timestamptz) (t : table) :
  let period_end :=
    match p_period_end with
    | Some e => e
    | None => calculate_subscription_period_end p_plan_type p_start
    end in
  (period_end <=? now1) = (period_end <=? now2) ->
  twice_as_once now1 now2 id1 id2
    (reconcile p_user_id p_plan_type p_status sid cid (Some p_start)
       p_period_end) t.
Proof.
  intros period_end Hside. unfold twice_as_once. cbv zeta.
  rewrite !run_reconcile_table.
  destruct (subscription_status_in p_status) as [new_status|] eqn:Hcast.
  - destruct (current_subscription p_user_id t) as [old|] eqn:Hcur.
    + destruct (webhook_update now1 id1 p_user_id p_plan_type p_status
                  sid cid (Some p_start) p_period_end t old new_status
                  Hcur Hcast) as [json1 Hcall1].
      unfold the_call in Hcall1. rewrite Hcall1. cbn [snd].
      set (t1 := updated_rows now1 p_user_id _ t).
      assert (Hcur1 : exists old1, current_subscription p_user_id t1
                                   = Some old1).
      { unfold t1. rewrite updated_rows_current, Hcur by reflexivity.
        eexists. reflexivity. }
      destruct Hcur1 as [old1 Hcur1].
      destruct (webhook_update now2 id2 p_user_id p_plan_type p_status
                  sid cid (Some p_start) p_period_end t1 old1 new_status
                  Hcur1 Hcast) as [json2 Hcall2].
      unfold the_call in Hcall2. rewrite Hcall2. cbn [snd].
      apply rewrite_of_updated_rows. exact Hside.
    + destruct (webhook_insert now1 id1 p_user_id p_plan_type p_status
                  sid cid (Some p_start) p_period_end t new_status
                  Hcur Hcast) as [json1 Hcall1].
      unfold the_call in Hcall1. rewrite Hcall1. cbn [snd].
      set (r0 := webhook_NEW now1 id1 p_user_id p_plan_type sid cid
                   (Some p_start) p_period_end new_status).
      assert (Hcur1 : current_subscription p_user_id (t ++ [r0]) = Some r0)
        by (apply current_subscription_app_new; [exact Hcur|reflexivity]).
      destruct (webhook_update now2 id2 p_user_id p_plan_type p_status
                  sid cid (Some p_start) p_period_end (t ++ [r0]) r0
                  new_status Hcur1 Hcast) as [json2 Hcall2].
      unfold the_call in Hcall2. rewrite Hcall2. cbn [snd].
      rewrite updated_rows_app, (updated_rows_other_users _ _ _ _ Hcur).
      apply Forall2_app; [apply same_apart_from_updated_at_refl|].
      constructor; [|constructor].
      cbn [updated_rows map]. unfold r0 at 2.
      cbn [webhook_NEW update_billing_period_text user_id].
      rewrite N.eqb_refl. apply rewrite_of_inserted. exact Hside.
  - destruct (webhook_invalid_status now1 id1 p_user_id p_plan_type p_status
                sid cid (Some p_start) p_period_end t Hcast) as [e1 Hcall1].
    unfold the_call in Hcall1. rewrite Hcall1. cbn [snd].
    destruct (webhook_invalid_status now2 id2 p_user_id p_plan_type p_status
                sid cid (Some p_start) p_period_end t Hcast) as [e2 Hcall2].
    unfold the_call in Hcall2. rewrite Hcall2. cbn [snd].
    apply same_apart_from_updated_at_refl.
Qed.

Lemma C3_reconcile_twice_as_once_witness :
  twice_as_once jan15 (jan15 + days 1) 42 43
    (reconcile 7 "monthly" "active" None (Some "cus_9"%string)
       (Some jan15) None) [].
Proof.
  apply (C3_reconcile_twice_as_once jan15 (jan15 + days 1) 42 43 7
           "monthly" "active" None (Some "cus_9"%string) jan15 None []).
  vm_compute. reflexivity.
Defined.

(** With the period start given, a second call can still change the text
    when the period ends between the two calls. *)
Example ex_expiry_between_calls :
  ~ twice_as_once jan15 (jan15 + days 31) 42 43
      (reconcile 7 "trial" "active" None None (Some jan15) None) [].
Proof.
  unfold twice_as_once. intros H. vm_compute in H.
  inversion H as [|r1 r2 l1 l2 Hrow _]. discriminate Hrow.
Qed.

(** ** Period bounds over sequences of calls *)

Definition period_ordered (r : subscriptions) : Prop :=
  current_period_start r < current_period_end r.

Definition period_invariant (t : table) : Prop := Forall period_ordered t.

(** A call as it reaches the database: its transaction time, the id the
    table would generate for a new row, and the call. *)
Record invocation := mkInvocation {
  at_time : timestamptz;
  fresh_id : uuid;
  invoked : call
}.

(** A call is one transaction: a raised exception rolls the table back. *)
Definition transaction (m : Tx unit) (t : table) : table :=
  match m t with
  | (inr _, t') => t'
  | (inl _, _) => t
  end.

Definition run_calls (trace : list invocation) (t : table) : table :=
  fold_left
    (fun acc i =>
       transaction (run_call (at_time i) (fresh_id i) (invoked i)) acc)
    trace t.

(** The bounds a reconcile call supplies are in order: a given period end
    is later than the given start, or than now when no start is given. *)
Definition bounds_in_order (now : timestamptz) (c : call) : Prop :=
  match c with
  | reconcile _ _ _ _ _ ps (Some e) => COALESCE_to ps now < e
  | _ => True
  end.

(** The period bounds in order after any calls, as the specification
    words it. *)
Definition always_ordered (trace : list invocation) (t : table) : Prop :=
  period_invariant t -> period_invariant (run_calls trace t).

(** Provider-reported bounds are stored as they come. *)
Lemma C9_reported_bounds_unchecked :
  ~ always_ordered
      [mkInvocation jan15 42
         (reconcile 7 "monthly" "past_due" (Some "sub_1"%string)
            (Some "cus_1"%string) (Some (jan15 + days 1)) (Some jan15))]
      [].
Proof.
  unfold always_ordered. intros H. specialize (H (Forall_nil _)).
  remember (run_calls _ []) as t' eqn:E. vm_compute in E. subst t'.
  inversion H as [|r l Hrow _]. vm_compute in Hrow. discriminate Hrow.
Qed.

Lemma effective_bounds_ordered (now : timestamptz) (u : uuid)
    (plan : subscription_plan_type) (st : text) (sid cid : option text)
    (ps pe : option timestamptz) :
  bounds_in_order now (reconcile u plan st sid cid ps pe) ->
  effective_period_start now ps < effective_period_end now plan ps pe.
Proof.
  unfold bounds_in_order, effective_period_end, effective_period_start.
  destruct pe as [e|]; [tauto|]. intros _.
  pose proof (calculate_subscription_period_end_later plan
                (COALESCE_to ps now)) as H.
  unfold days, USECS_PER_DAY in H. lia.
Qed.

Lemma updated_rows_invariant (P : subscriptions -> Prop)
    (now : timestamptz) (u : uuid) (SET : subscriptions -> subscriptions)
    (t : table) :
  (forall r, P r -> P (update_billing_period_text now (SET r))) ->
  Forall P t -> Forall P (updated_rows now u SET t).
Proof.
  intros HP Ht. unfold updated_rows. apply Forall_map.
  apply (Forall_impl _ (P := P)); [|exact Ht].
  intros r Hr. destruct (user_id r =? u)%N; auto.
Qed.

Lemma run_call_keeps_order (now : timestamptz) (generated_id : uuid)
    (c : call) (t t' : table) :
  bounds_in_order now c ->
  run_call now generated_id c t = (inr tt, t') ->
  period_invariant t -> period_invariant t'.
Proof.
  intros Hb Hrun Ht. destruct c as [u plan st sid cid ps pe|u reason|u pm].
  - pose proof (effective_bounds_ordered _ _ _ _ _ _ _ _ Hb) as Hord.
    destruct (reconcile_success _ _ _ _ _ _ _ _ _ _ _ Hrun)
      as (new_status & _ & [[_ ->]|[_ ->]]).
    + apply updated_rows_invariant; [|exact Ht]. intros r _. exact Hord.
    + apply Forall_app. split; [exact Ht|].
      constructor; [exact Hord|constructor].
  - cbn [run_call] in Hrun.
    rewrite (proj1 (lifecycle_success now u t t') reason Hrun).
    apply updated_rows_invariant; [|exact Ht]. intros r Hr. exact Hr.
  - cbn [run_call] in Hrun.
    rewrite (proj2 (lifecycle_success now u t t') pm Hrun).
    apply updated_rows_invariant; [|exact Ht]. intros r Hr. exact Hr.
Qed.

Lemma transaction_keeps_order (i : invocation) (t : table) :
  bounds_in_order (at_time i) (invoked i) ->
  period_invariant t ->
  period_invariant
    (transaction (run_call (at_time i) (fresh_id i) (invoked i)) t).
Proof.
  intros Hb Ht. unfold transaction.
  destruct (run_call (at_time i) (fresh_id i) (invoked i) t)
    as [[e|[]] t'] eqn:Hrun; [exact Ht|].
  exact (run_call_keeps_order _ _ _ _ _ Hb Hrun Ht).
Qed.

(** C9 (amended). Starting from a table whose rows have their period end
    after their period start, the rows still have it after any sequence of
    reconcile, cancel and reactivate calls in which every reconcile call
    that gives a period end gives one later than its period start (the
    given start, or now). Cancel and reactivate never change the bounds,
    and a calculated period end is always later than the start. *)
Theorem C9_period_order_preserved (trace : list invocation) (t : table) :
  Forall (fun i => bounds_in_order (at_time i) (invoked i)) trace ->
  period_invariant t ->
  period_invariant (run_calls trace t).
Proof.
  unfold run_calls. revert t.
  induction trace as [|i rest IH]; intros t Hb Ht; [exact Ht|].
  cbn [fold_left]. inversion Hb as [|? ? Hi Hrest]; subst.
  apply IH; [exact Hrest|]. apply transaction_keeps_order; assumption.
Qed.

Lemma C9_period_order_preserved_witness :
  period_invariant
    (run_calls
       [mkInvocation jan15 42
          (reconcile 7 "monthly" "active" None None None None);
        mkInvocation (jan15 + days 1) 43 (cancel 7 None);
        mkInvocation (jan15 + days 2) 44 (reactivate 7 "pm_1");
        mkInvocation (jan15 + days 31) 45
          (reconcile 7 "monthly" "active" (Some "sub_1"%string) None
             (Some (jan15 + days 31)) (Some (jan15 + days 62)))]
       []).
Proof.
  apply C9_period_order_preserved.
  - repeat constructor.
  - constructor.
Defined.

(** ** One row per user

    The writers never add a second row for a user, so on a table they
    have built the row a writer reads and the row the resolver reads are
    the same row. *)

Definition one_row_per_user (t : table) : Prop := NoDup (map user_id t).

Lemma no_row_of_user (u : uuid) (t : table) :
  ~ In u (map user_id t) ->
  filter (fun s => (user_id s =? u)%N) t = []
  /\ current_subscription u t = None.
Proof.
  unfold current_subscription. induction t as [|x rest IH]; intros Hnot.
  - split; reflexivity.
  - cbn [map In] in Hnot. cbn [filter find].
    destruct (N.eqb_spec (user_id x) u) as [E|E]; [tauto|].
    apply IH. tauto.
Qed.

Lemma current_is_latest (u : uuid) (t : table) :
  one_row_per_user t ->
  current_subscription u t = latest_subscription u t.
Proof.
  unfold one_row_per_user, current_subscription, latest_subscription.
  induction t as [|x rest IH]; intros Hnd; [reflexivity|].
  cbn [map] in Hnd. inversion Hnd as [|? ? Hnot Hrest]; subst.
  cbn [find filter].
  destruct (N.eqb_spec (user_id x) u) as [E|E].
  - subst u. destruct (no_row_of_user _ _ Hnot) as [-> _]. reflexivity.
  - apply IH. exact Hrest.
Qed.

Lemma updated_rows_users (now : timestamptz) (u : uuid)
    (SET : subscriptions -> subscriptions) (t : table) :
  (forall r, user_id (SET r) = user_id r) ->
  map user_id (updated_rows now u SET t) = map user_id t.
Proof.
  intros Hu. unfold updated_rows. rewrite map_map. apply map_ext.
  intros r. destruct (user_id r =? u)%N; [|reflexivity].
  cbn [update_billing_period_text user_id]. apply Hu.
Qed.

Lemma run_call_one_row_per_user (now : timestamptz) (generated_id : uuid)
    (c : call) (t : table) :
  one_row_per_user t ->
  one_row_per_user (transaction (run_call now generated_id c) t).
Proof.
  intros Hone. unfold transaction.
  destruct (run_call now generated_id c t) as [[e|[]] t'] eqn:Hrun;
    [exact Hone|].
  unfold one_row_per_user in *.
  destruct c as [u plan st sid cid ps pe|u reason|u pm].
  - destruct (reconcile_success _ _ _ _ _ _ _ _ _ _ _ Hrun)
      as (new_status & _ & [[_ ->]|[Hnone ->]]).
    + rewrite updated_rows_users by reflexivity. exact Hone.
    + rewrite map_app. cbn [map webhook_NEW update_billing_period_text user_id].
      apply NoDup_app.
      * exact Hone.
      * constructor; [intros []|constructor].
      * intros a Hin [<-|[]]. apply in_map_iff in Hin.
        destruct Hin as (r & Hr & Hin).
        unfold current_subscription in Hnone.
        pose proof (find_none _ _ Hnone r Hin) as Hne. cbn beta in Hne.
        apply N.eqb_neq in Hne. contradiction.
  - cbn [run_call] in Hrun.
    rewrite (proj1 (lifecycle_success now u t t') reason Hrun).
    rewrite updated_rows_users by reflexivity. exact Hone.
  - cbn [run_call] in Hrun.
    rewrite (proj2 (lifecycle_success now u t t') pm Hrun).
    rewrite updated_rows_users by reflexivity. exact Hone.
Qed.

Theorem run_calls_one_row_per_user (trace : list invocation) :
  one_row_per_user (run_calls trace []).
Proof.
  unfold run_calls.
  assert (H : one_row_per_user []) by constructor.
  revert H. generalize (@nil subscriptions).
  induction trace as [|i rest IH]; intros t Ht; [exact Ht|].
  cbn [fold_left]. apply IH. apply run_call_one_row_per_user. exact Ht.
Qed.

(** ** Data correction

    Rows whose bounds are out of order are flagged inaccurate by the
    trigger, and [fix_existing_billing_periods] recomputes the period end
    of every flagged row. *)

Definition flagged_inaccurate (r : subscriptions) : bool :=
  match billing_period_accurate r with
  | Some false | None => true
  | Some true => false
  end.

(** One pass of the loop body on one row of the table. *)
Definition fix_row (now : timestamptz) (sub_record r : subscriptions)
  : subscriptions :=
  if (id r =? id sub_record)%N then
    update_billing_period_text now
      (mkSubscription (id r) (user_id r) (plan_type r) (status r)
         (stripe_subscription_id r) (stripe_customer_id r)
         (current_period_start r)
         (calculate_subscription_period_end (plan_type sub_record)
            (current_period_start sub_record))
         (billing_period_text r) (billing_period_accurate r)
         (created_at r) now)
  else r.

Definition fix_rows (now : timestamptz) (selected : list subscriptions)
    (r : subscriptions) : subscriptions :=
  fold_left (fun x sub_record => fix_row now sub_record x) selected r.

Lemma FOR_LOOP_fix (now : timestamptz) (selected : list subscriptions) :
  forall (f : subscriptions -> subscriptions) (t : table),
    FOR_LOOP selected (fun sub_record =>
      UPDATE_subscriptions now
        (fun r =>
           mkSubscription (id r) (user_id r) (plan_type r) (status r)
             (stripe_subscription_id r) (stripe_customer_id r)
             (current_period_start r)
             (calculate_subscription_period_end (plan_type sub_record)
                (current_period_start sub_record))
             (billing_period_text r) (billing_period_accurate r)
             (created_at r) now)
        (fun r => (id r =? id sub_record)%N) ;;
      ret tt) (map f t)
    = (inr tt, map (fun r => fix_rows now selected (f r)) t).
Proof.
  induction selected as [|s rest IH]; intros f t.
  - reflexivity.
  - cbn [FOR_LOOP]. unfold bind at 1. unfold bind at 1.
    unfold UPDATE_subscriptions at 1. unfold ret at 1.
    cbv beta iota. rewrite map_map.
    exact (IH (fun r => fix_row now s (f r)) t).
Qed.

Lemma fix_existing_billing_periods_table (now : timestamptz) (t : table) :
  fix_existing_billing_periods now t
  = (inr tt, map (fix_rows now (filter flagged_inaccurate t)) t).
Proof.
  unfold fix_existing_billing_periods, bind, SELECT_inaccurate.
  fold flagged_inaccurate.
  pose proof (FOR_LOOP_fix now (filter flagged_inaccurate t) (fun r => r) t)
    as H.
  rewrite map_id in H. exact H.
Qed.

Lemma fix_row_id (now : timestamptz) (s r : subscriptions) :
  id (fix_row now s r) = id r.
Proof. unfold fix_row. destruct (id r =? id s)%N; reflexivity. Qed.

Lemma fix_rows_untouched (now : timestamptz) (selected : list subscriptions)
    (r : subscriptions) :
  (forall s, In s selected -> id s <> id r) ->
  fix_rows now selected r = r.
Proof.
  unfold fix_rows. revert r.
  induction selected as [|s rest IH]; intros r H; [reflexivity|].
  cbn [fold_left]. unfold fix_row at 2.
  destruct (N.eqb_spec (id r) (id s)) as [E|_].
  - exfalso. apply (H s); [left; reflexivity|auto].
  - apply IH. intros s' Hs'. apply H. right. exact Hs'.
Qed.

Lemma fix_rows_once (now : timestamptz) (selected : list subscriptions)
    (s r : subscriptions) :
  NoDup (map id selected) -> In s selected -> id s = id r ->
  fix_rows now selected r = fix_row now s r.
Proof.
  unfold fix_rows. revert r.
  induction selected as [|s' rest IH]; intros r Hnd Hin Hid; [destruct Hin|].
  cbn [map] in Hnd. inversion Hnd as [|? ? Hnot Hrest]; subst.
  cbn [fold_left].
  destruct Hin as [->|Hin].
  - apply fix_rows_untouched. intros s2 Hs2 E. apply Hnot.
    rewrite fix_row_id in E. rewrite Hid, <- E. apply in_map. exact Hs2.
  - assert (Hne : id r <> id s').
    { intros E. apply Hnot. rewrite <- E, <- Hid. apply in_map. exact Hin. }
    unfold fix_row at 2. apply N.eqb_neq in Hne. rewrite Hne.
    apply IH; assumption.
Qed.

Lemma NoDup_ids_filter (p : subscriptions -> bool) (t : table) :
  NoDup (map id t) -> NoDup (map id (filter p t)).
Proof.
  induction t as [|x rest IH]; intros Hnd; [constructor|].
  cbn [map] in Hnd. inversion Hnd as [|? ? Hnot Hrest]; subst.
  cbn [filter]. destruct (p x); [|auto].
  cbn [map]. constructor; [|auto].
  intros Hin. apply Hnot. apply in_map_iff in Hin.
  destruct Hin as (r & Hr & Hin). apply filter_In in Hin.
  rewrite <- Hr. apply in_map. tauto.
Qed.

Lemma same_id_same_row (t : table) (r s : subscriptions) :
  NoDup (map id t) -> In r t -> In s t -> id s = id r -> s = r.
Proof.
  induction t as [|x rest IH]; intros Hnd Hr Hs Hid; [destruct Hr|].
  cbn [map] in Hnd. inversion Hnd as [|? ? Hnot Hrest]; subst.
  destruct Hr as [->|Hr], Hs as [->|Hs]; auto.
  - exfalso. apply Hnot. rewrite <- Hid. apply in_map. exact Hs.
  - exfalso. apply Hnot. rewrite Hid. apply in_map. exact Hr.
Qed.

Lemma Forall2_map_In {A : Type} (R : A -> A -> Prop) (f : A -> A)
    (l : list A) :
  (forall x, In x l -> R x (f x)) -> Forall2 R l (map f l).
Proof.
  induction l as [|x rest IH]; intros H; cbn [map]; constructor.
  - apply H. left. reflexivity.
  - apply IH. intros y Hy. apply H. right. exact Hy.
Qed.

(** What the correction does to a row: a flagged row gets the calculated
    period end for its own plan and start, and is no longer flagged;
    another row is left as it is. *)
Definition corrected (r r' : subscriptions) : Prop :=
  if flagged_inaccurate r then
    id r' = id r /\ user_id r' = user_id r /\ plan_type r' = plan_type r /\
    status r' = status r /\
    current_period_start r' = current_period_start r /\
    current_period_end r'
    = calculate_subscription_period_end (plan_type r) (current_period_start r)
    /\ billing_period_accurate r' = Some true
  else r' = r.

Lemma accurate_when_calculated (plan : subscription_plan_type)
    (start : timestamptz) :
  validate_billing_period_accuracy start
    (calculate_subscription_period_end plan start) plan = true.
Proof.
  unfold validate_billing_period_accuracy. cbv zeta.
  rewrite Z.sub_diag. reflexivity.
Qed.

Theorem fix_existing_billing_periods_corrects (now : timestamptz) (t : table) :
  NoDup (map id t) ->
  exists t',
    fix_existing_billing_periods now t = (inr tt, t')
    /\ Forall2 corrected t t'.
Proof.
  intros Hnd. rewrite fix_existing_billing_periods_table.
  eexists. split; [reflexivity|].
  apply Forall2_map_In. intros r Hr. unfold corrected.
  destruct (flagged_inaccurate r) eqn:Hflag.
  - rewrite (fix_rows_once now _ r r).
    + unfold fix_row. rewrite N.eqb_refl.
      cbn [update_billing_period_text id user_id plan_type status
           current_period_start current_period_end billing_period_accurate].
      rewrite accurate_when_calculated. repeat split.
    + apply NoDup_ids_filter. exact Hnd.
    + apply filter_In. auto.
    + reflexivity.
  - apply fix_rows_untouched. intros s Hs Hid.
    apply filter_In in Hs. destruct Hs as [Hs Hsflag].
    rewrite (same_id_same_row t r s Hnd Hr Hs Hid) in Hsflag. congruence.
Qed.

(** A row whose period end is not after its start fails the accuracy
    check. *)
Lemma out_of_order_inaccurate (plan : subscription_plan_type)
    (start e : timestamptz) :
  e <= start -> validate_billing_period_accuracy start e plan = false.
Proof.
  intros Hle. unfold validate_billing_period_accuracy. cbv zeta.
  pose proof (calculate_subscription_period_end_later plan start) as Hlater.
  set (expected_end := calculate_subscription_period_end plan start) in *.
  unfold EXTRACT_DAY, timestamp_mi. cbn [day].
  apply Z.leb_gt. unfold days, USECS_PER_DAY in *.
  Z.to_euclidean_division_equations. lia.
Qed.

(** Rows whose accuracy flag is null or was set by the trigger all have
    their bounds in order after the correction. *)
Theorem fix_existing_billing_periods_restores_order
    (now : timestamptz) (t : table) :
  NoDup (map id t) ->
  (forall r, In r t ->
     billing_period_accurate r = None \/
     billing_period_accurate r
     = Some (validate_billing_period_accuracy (current_period_start r)
               (current_period_end r) (plan_type r))) ->
  period_invariant (snd (fix_existing_billing_periods now t)).
Proof.
  intros Hnd Hflags.
  destruct (fix_existing_billing_periods_corrects now t Hnd)
    as (t' & -> & Hcorr). cbn [snd].
  unfold period_invariant.
  induction Hcorr as [|r r' l l' Hrow _ IH]; constructor.
  - unfold corrected in Hrow. unfold period_ordered.
    destruct (flagged_inaccurate r) eqn:Hflag.
    + destruct Hrow as (_ & _ & _ & _ & -> & -> & _).
      pose proof (calculate_subscription_period_end_later (plan_type r)
                    (current_period_start r)) as H.
      unfold days, USECS_PER_DAY in H. lia.
    + subst r'. unfold flagged_inaccurate in Hflag.
      destruct (Hflags r (or_introl eq_refl)) as [E|E];
        rewrite E in Hflag; [discriminate|].
      destruct (Z_lt_le_dec (current_period_start r) (current_period_end r))
        as [Hlt|Hle]; [exact Hlt|].
      rewrite (out_of_order_inaccurate _ _ _ Hle) in Hflag. discriminate.
  - apply IH.
    + cbn [map] in Hnd. inversion Hnd. assumption.
    + intros x Hx. apply Hflags. right. exact Hx.
Qed.

End BillingProperties.

(** ** Period lengths and the accuracy window *)

Module PeriodLengths.

Import CalendarFacts BillingProperties.

(** A month addition moves the instant by a whole number of days. *)
Lemma month_start_of (y m : Z) :
  1 <= m <= 12 -> month_start (12 * y + (m - 1)) = civil_to_days y m 1.
Proof.
  intros Hm. unfold month_start.
  replace ((12 * y + (m - 1)) / 12) with y by zdiv.
  replace ((12 * y + (m - 1)) mod 12 + 1) with m by zdiv. reflexivity.
Qed.

Lemma month_length_of (y m i : Z) :
  month_length (12 * y + (m - 1) + i)
  = day_tab (isleap (y + (m - 1 + i) / 12)) ((m - 1 + i) mod 12 + 1).
Proof.
  unfold month_length.
  replace (12 * y + (m - 1) + i) with (m - 1 + i + y * 12) by lia.
  rewrite Z.div_add, Z.mod_add by lia.
  replace ((m - 1 + i) / 12 + y) with (y + (m - 1 + i) / 12) by lia.
  reflexivity.
Qed.

(** Days moved by [pl_months]: the months passed over, less the days the
    day of the month is cut back by in a shorter target month. *)
Lemma pl_months_days (t : timestamptz) (n : Z) :
  exists k d,
    1 <= d <= month_length k /\
    pl_months t n
    = t + days (month_start (k + n) - month_start k
                + Z.min d (month_length (k + n)) - d).
Proof.
  unfold pl_months.
  destruct (days_to_civil (t / USECS_PER_DAY)) as [[y m] d] eqn:E.
  destruct (days_to_civil_spec _ _ _ _ E) as (Hm & Hd & Hdate).
  exists (12 * y + (m - 1)), d. cbv zeta.
  assert (Hk : (12 * y + (m - 1)) / 12 = y
               /\ (12 * y + (m - 1)) mod 12 + 1 = m) by zdiv.
  assert (Hk2 : (12 * y + (m - 1) + n) / 12 = y + (m + n - 1) / 12
                /\ (12 * y + (m - 1) + n) mod 12 + 1 = (m + n - 1) mod 12 + 1).
  { replace (12 * y + (m - 1) + n) with (m + n - 1 + y * 12) by lia.
    rewrite Z.div_add, Z.mod_add by lia.
    split; [apply Z.add_comm|reflexivity]. }
  destruct Hk as [Hky Hkm]. destruct Hk2 as [Hk2y Hk2m].
  unfold month_length, month_start. rewrite Hky, Hkm, Hk2y, Hk2m.
  split; [exact Hd|].
  set (y2 := y + (m + n - 1) / 12). set (m2 := (m + n - 1) mod 12 + 1).
  rewrite (civil_to_days_day y2 m2 (Z.min _ _)).
  rewrite (civil_to_days_day y m d) in Hdate.
  unfold days. set (d2 := Z.min d (day_tab (isleap y2) m2)) in *.
  set (a := civil_to_days y2 m2 1) in *. set (b := civil_to_days y m 1) in *.
  unfold USECS_PER_DAY in *. zdiv.
Qed.

Lemma month_length_bounds (k : Z) : 28 <= month_length k <= 31.
Proof. apply day_tab_bounds. Qed.

Lemma month_start_next (k j : Z) :
  j = k + 1 -> month_start j = month_start k + month_length k.
Proof. intros ->. apply month_start_succ. Qed.

Lemma month_start_plus_6 (k : Z) :
  month_start (k + 6)
  = month_start k + month_length k + month_length (k + 1)
    + month_length (k + 2) + month_length (k + 3) + month_length (k + 4)
    + month_length (k + 5).
Proof.
  rewrite (month_start_next (k + 5) (k + 6)) by lia.
  rewrite (month_start_next (k + 4) (k + 5)) by lia.
  rewrite (month_start_next (k + 3) (k + 4)) by lia.
  rewrite (month_start_next (k + 2) (k + 3)) by lia.
  rewrite (month_start_next (k + 1) (k + 2)) by lia.
  rewrite (month_start_next k (k + 1)) by lia.
  reflexivity.
Qed.

Lemma month_start_plus_12 (k : Z) :
  month_start (k + 12)
  = month_start (k + 6) + month_length (k + 6) + month_length (k + 7)
    + month_length (k + 8) + month_length (k + 9) + month_length (k + 10)
    + month_length (k + 11).
Proof.
  rewrite (month_start_next (k + 11) (k + 12)) by lia.
  rewrite (month_start_next (k + 10) (k + 11)) by lia.
  rewrite (month_start_next (k + 9) (k + 10)) by lia.
  rewrite (month_start_next (k + 8) (k + 9)) by lia.
  rewrite (month_start_next (k + 7) (k + 8)) by lia.
  rewrite (month_start_next (k + 6) (k + 7)) by lia.
  reflexivity.
Qed.

(** Every month index is a month [m] of a year [y]. *)
Lemma month_index (k : Z) :
  exists y m, 1 <= m <= 12 /\ k = 12 * y + (m - 1).
Proof. exists (k / 12), (k mod 12 + 1). zdiv. Qed.

Ltac at_month :=
  rewrite ?month_length_of;
  repeat match goal with
         | |- context [(?a - 1 + ?i) / 12] =>
             let q := eval vm_compute in ((a - 1 + i) / 12) in
             change ((a - 1 + i) / 12) with q
         | |- context [(?a - 1 + ?i) mod 12 + 1] =>
             let r := eval vm_compute in ((a - 1 + i) mod 12 + 1) in
             change ((a - 1 + i) mod 12 + 1) with r
         end;
  rewrite ?Z.add_0_r.

Lemma six_months_days (k : Z) :
  181 <= month_start (k + 6) - month_start k
         - Z.max 0 (month_length k - month_length (k + 6))
  /\ month_start (k + 6) - month_start k <= 184.
Proof.
  rewrite month_start_plus_6.
  replace (month_length k) with (month_length (k + 0)) by (f_equal; lia).
  destruct (month_index k) as (y & m & Hm & ->).
  assert (Hcases : m = 1 \/ m = 2 \/ m = 3 \/ m = 4 \/ m = 5 \/ m = 6 \/
                   m = 7 \/ m = 8 \/ m = 9 \/ m = 10 \/ m = 11 \/ m = 12)
    by lia.
  clear Hm.
  repeat (destruct Hcases as [->|Hcases]); [..|subst m];
    at_month; unfold day_tab;
    cbn [Z.eqb Pos.eqb orb];
    destruct (isleap y); destruct (isleap (y + 1)); lia.
Qed.

Lemma twelve_months_days (k : Z) :
  365 <= month_start (k + 12) - month_start k
         - Z.max 0 (month_length k - month_length (k + 12))
  /\ month_start (k + 12) - month_start k <= 366.
Proof.
  rewrite month_start_plus_12, month_start_plus_6.
  replace (month_length k) with (month_length (k + 0)) by (f_equal; lia).
  destruct (month_index k) as (y & m & Hm & ->).
  assert (Hcases : m = 1 \/ m = 2 \/ m = 3 \/ m = 4 \/ m = 5 \/ m = 6 \/
                   m = 7 \/ m = 8 \/ m = 9 \/ m = 10 \/ m = 11 \/ m = 12)
    by lia.
  clear Hm.
  repeat (destruct Hcases as [->|Hcases]); [..|subst m];
    at_month; unfold day_tab;
    cbn [Z.eqb Pos.eqb orb];
    destruct (isleap y); destruct (isleap (y + 1)); lia.
Qed.

(** Whole days from the start to the calculated end. *)
Definition period_days (plan : subscription_plan_type) (start : timestamptz)
  : Z :=
  (calculate_subscription_period_end plan start - start) / USECS_PER_DAY.

Lemma pl_months_1_days (t : timestamptz) :
  exists D, pl_months t 1 = t + days D /\ 28 <= D <= 31.
Proof.
  destruct (pl_months_days t 1) as (k & d & Hd & ->).
  eexists. split; [reflexivity|].
  rewrite month_start_succ.
  pose proof (month_length_bounds k). pose proof (month_length_bounds (k + 1)).
  lia.
Qed.

Lemma pl_months_6_days (t : timestamptz) :
  exists D, pl_months t 6 = t + days D /\ 181 <= D <= 184.
Proof.
  destruct (pl_months_days t 6) as (k & d & Hd & ->).
  eexists. split; [reflexivity|].
  pose proof (six_months_days k). lia.
Qed.

Lemma pl_months_12_days (t : timestamptz) :
  exists D, pl_months t 12 = t + days D /\ 365 <= D <= 366.
Proof.
  destruct (pl_months_days t 12) as (k & d & Hd & ->).
  eexists. split; [reflexivity|].
  pose proof (twelve_months_days k). lia.
Qed.

Lemma days_div (t D : Z) : (t + days D - t) / USECS_PER_DAY = D.
Proof.
  unfold days. replace (t + D * USECS_PER_DAY - t) with (D * USECS_PER_DAY)
    by lia.
  apply Z.div_mul. unfold USECS_PER_DAY. lia.
Qed.

Lemma plan_cases (plan : subscription_plan_type) :
  plan = "monthly"%string \/ plan = "semiannual"%string
  \/ plan = "annual"%string
  \/ (plan <> "monthly"%string /\ plan <> "semiannual"%string
      /\ plan <> "annual"%string).
Proof.
  destruct (String.eqb_spec plan "monthly"); [tauto|].
  destruct (String.eqb_spec plan "semiannual"); [tauto|].
  destruct (String.eqb_spec plan "annual"); tauto.
Qed.

Lemma period_end_other (plan : subscription_plan_type) (start : timestamptz) :
  plan <> "monthly"%string -> plan <> "semiannual"%string ->
  plan <> "annual"%string ->
  calculate_subscription_period_end plan start = start + days 30.
Proof.
  intros Hm Hs Ha. unfold calculate_subscription_period_end.
  apply String.eqb_neq in Hm, Hs, Ha. rewrite Hm, Hs, Ha.
  destruct (plan =? "trial")%string; apply pl_interval_days.
Qed.

Lemma period_days_bounds (plan : subscription_plan_type)
    (start : timestamptz) :
  calculate_subscription_period_end plan start
  = start + days (period_days plan start)
  /\ (plan = "monthly"%string -> 28 <= period_days plan start <= 31)
  /\ (plan = "semiannual"%string -> 181 <= period_days plan start <= 184)
  /\ (plan = "annual"%string -> 365 <= period_days plan start <= 366)
  /\ (plan <> "monthly"%string -> plan <> "semiannual"%string ->
      plan <> "annual"%string -> period_days plan start = 30).
Proof.
  unfold period_days.
  destruct (plan_cases plan) as [->|[->|[->|(Hm & Hs & Ha)]]].
  - rewrite period_end_monthly.
    destruct (pl_months_1_days start) as (D & -> & HD). rewrite days_div.
    repeat split; try discriminate; try lia; congruence.
  - rewrite period_end_semiannual.
    destruct (pl_months_6_days start) as (D & -> & HD). rewrite days_div.
    repeat split; try discriminate; try lia; congruence.
  - rewrite period_end_annual.
    destruct (pl_months_12_days start) as (D & -> & HD). rewrite days_div.
    repeat split; try discriminate; try lia; congruence.
  - rewrite (period_end_other plan start Hm Hs Ha), days_div.
    repeat split; congruence.
Qed.

Lemma period_days_range (plan : subscription_plan_type) (start : timestamptz) :
  28 <= period_days plan start <= 366.
Proof.
  destruct (period_days_bounds plan start) as (_ & H1 & H6 & H12 & H30).
  destruct (plan_cases plan) as [E|[E|[E|(Hm & Hs & Ha)]]].
  - specialize (H1 E). lia.
  - specialize (H6 E). lia.
  - specialize (H12 E). lia.
  - rewrite (H30 Hm Hs Ha). lia.
Qed.

(** The accuracy check as a window around the calculated end. *)
Lemma accuracy_window (start e : timestamptz)
    (plan : subscription_plan_type) :
  validate_billing_period_accuracy start e plan = true <->
  calculate_subscription_period_end plan start - days 2 <= e
  < calculate_subscription_period_end plan start + days 3.
Proof.
  unfold validate_billing_period_accuracy. cbv zeta.
  destruct (period_days_bounds plan start) as (-> & _).
  pose proof (period_days_range plan start) as HD.
  set (D := period_days plan start) in *.
  unfold EXTRACT_DAY, timestamp_mi. cbn [day].
  rewrite Z.leb_le.
  replace (Z.quot (start + days D - start) USECS_PER_DAY) with D.
  2:{ unfold days. replace (start + D * USECS_PER_DAY - start)
        with (D * USECS_PER_DAY) by lia.
      symmetry. apply Z.quot_mul. unfold USECS_PER_DAY. lia. }
  unfold days, USECS_PER_DAY.
  split; intros H; Z.to_euclidean_division_equations; lia.
Qed.

End PeriodLengths.

(** ** Further properties of the stored procedures *)

Module StoredProcedureProperties.

Import CalendarFacts BillingProperties PeriodLengths.

(** X1. The calculated period is a whole number of days long: 28 to 31
    for [monthly], 181 to 184 for [semiannual], 365 or 366 for [annual],
    and 30 for every other plan. *)
Theorem period_length_by_plan (plan : subscription_plan_type)
    (start : timestamptz) :
  calculate_subscription_period_end plan start
  = start + days (period_days plan start)
  /\ (plan = "monthly"%string -> 28 <= period_days plan start <= 31)
  /\ (plan = "semiannual"%string -> 181 <= period_days plan start <= 184)
  /\ (plan = "annual"%string -> 365 <= period_days plan start <= 366)
  /\ (plan <> "monthly"%string -> plan <> "semiannual"%string ->
      plan <> "annual"%string -> period_days plan start = 30).
Proof. exact (period_days_bounds plan start). Qed.

Lemma period_length_by_plan_witness :
  calculate_subscription_period_end "semiannual"
    (make_timestamptz 2023 8 31 12 0 0)
  = make_timestamptz 2023 8 31 12 0 0
    + days (period_days "semiannual" (make_timestamptz 2023 8 31 12 0 0))
  /\ 181 <= period_days "semiannual" (make_timestamptz 2023 8 31 12 0 0)
     <= 184.
Proof.
  pose proof (period_length_by_plan "semiannual"
                (make_timestamptz 2023 8 31 12 0 0)) as (H & _ & H6 & _).
  split; [exact H|exact (H6 eq_refl)].
Defined.

(** X2. The accuracy flag is true exactly when the period end lies from
    two days before the calculated end up to, but not including, three
    days after it. *)
Theorem accuracy_flag_window (start e : timestamptz)
    (plan : subscription_plan_type) :
  validate_billing_period_accuracy start e plan = true <->
  calculate_subscription_period_end plan start - days 2 <= e
  < calculate_subscription_period_end plan start + days 3.
Proof. exact (accuracy_window start e plan). Qed.

Example ex_accuracy_window_edges :
  let expected := calculate_subscription_period_end "monthly" jan15 in
  validate_billing_period_accuracy jan15 (expected - days 2) "monthly" = true
  /\ validate_billing_period_accuracy jan15 (expected - days 2 - 1) "monthly"
     = false
  /\ validate_billing_period_accuracy jan15 (expected + days 3 - 1) "monthly"
     = true
  /\ validate_billing_period_accuracy jan15 (expected + days 3) "monthly"
     = false.
Proof. vm_compute. repeat split. Qed.

(** X3. A reconcile call that leaves the period end to the database
    stores the calculated end for the plan and the effective start, and
    the trigger flags every row it wrote as accurate. *)
Theorem reconcile_default_end_is_accurate
    (now : timestamptz) (generated_id u : uuid)
    (plan : subscription_plan_type) (st : text) (sid cid : option text)
    (ps : option timestamptz) (t t' : table) :
  run_call now generated_id (reconcile u plan st sid cid ps None) t
  = (inr tt, t') ->
  forall r', In r' t' -> user_id r' = u ->
    plan_type r' = plan /\
    current_period_start r' = COALESCE_to ps now /\
    current_period_end r'
    = calculate_subscription_period_end plan (COALESCE_to ps now) /\
    billing_period_accurate r' = Some true.
Proof.
  intros Hrun r' Hin Hu.
  destruct (reconcile_success _ _ _ _ _ _ _ _ _ _ _ Hrun)
    as (new_status & _ & [[_ ->]|[Hnone ->]]).
  - destruct (updated_rows_written now u
                (webhook_SET now plan sid cid ps None new_status) t r'
                (fun _ => eq_refl) Hin Hu) as (r & _ & _ & ->).
    cbn. rewrite accurate_when_calculated. repeat split.
  - apply in_app_or in Hin. destruct Hin as [Hold|[<-|[]]].
    + exfalso. unfold current_subscription in Hnone.
      pose proof (find_none _ _ Hnone r' Hold) as Hne. cbn beta in Hne.
      apply N.eqb_neq in Hne. contradiction.
    + cbn. rewrite accurate_when_calculated. repeat split.
Qed.

Lemma reconcile_default_end_is_accurate_witness :
  plan_type (webhook_NEW jan15 42 7 "annual" None None None None active)
  = "annual"%string /\
  current_period_start
    (webhook_NEW jan15 42 7 "annual" None None None None active) = jan15 /\
  current_period_end
    (webhook_NEW jan15 42 7 "annual" None None None None active)
  = calculate_subscription_period_end "annual" jan15 /\
  billing_period_accurate
    (webhook_NEW jan15 42 7 "annual" None None None None active) = Some true.
Proof.
  apply (reconcile_default_end_is_accurate jan15 42 7 "annual" "active"
           None None None []
           [webhook_NEW jan15 42 7 "annual" None None None None active]).
  - reflexivity.
  - left. reflexivity.
  - reflexivity.
Defined.

(** X4. For the three paid plans the text the trigger stores is the text
    of the access status, with 'Expired: ' in front once the period has
    ended. *)
Theorem stored_text_is_status_text (now s e : timestamptz)
    (plan : subscription_plan_type) :
  plan = "monthly"%string \/ plan = "semiannual"%string
  \/ plan = "annual"%string ->
  generate_billing_period_text now s e plan
  = ((if (e <=? now)%Z then "Expired: " else "")
     ++ get_billing_period_text plan s e)%string.
Proof.
  intros [-> | [-> | ->]];
    unfold generate_billing_period_text, get_billing_period_text, plan_phrase;
    cbn [String.eqb Ascii.eqb Bool.eqb];
    destruct (e <=? now); cbn [append]; reflexivity.
Qed.

Lemma stored_text_is_status_text_witness :
  generate_billing_period_text (jan15 + days 40) jan15 (jan15 + days 31)
    "monthly"
  = ("Expired: "
     ++ get_billing_period_text "monthly" jan15 (jan15 + days 31))%string.
Proof.
  apply (stored_text_is_status_text (jan15 + days 40) jan15 (jan15 + days 31)
           "monthly").
  left. reflexivity.
Defined.

(** X5. With unique row ids, the correction gives every row flagged
    inaccurate (or not yet flagged) the calculated period end for its own
    plan and start, which the trigger then flags accurate, and leaves
    every other row as it is. *)
Theorem fix_corrects_flagged_rows (now : timestamptz) (t : table) :
  NoDup (map id t) ->
  exists t',
    fix_existing_billing_periods now t = (inr tt, t')
    /\ Forall2 corrected t t'.
Proof. exact (fix_existing_billing_periods_corrects now t). Qed.

Definition two_rows : table :=
  [mkSubscription 1 7 "monthly" active None None jan15 (jan15 - days 3)
     None (Some false) jan15 jan15;
   mkSubscription 2 8 "annual" active None None jan15 (jan15 + days 366)
     None (Some true) jan15 jan15].

Lemma fix_corrects_flagged_rows_witness :
  exists t',
    fix_existing_billing_periods (jan15 + days 1) two_rows = (inr tt, t')
    /\ Forall2 corrected two_rows t'.
Proof.
  apply (fix_corrects_flagged_rows (jan15 + days 1) two_rows).
  repeat constructor; cbn; intuition discriminate.
Defined.

Lemma corrected_not_flagged (t t' : table) :
  Forall2 corrected t t' -> filter flagged_inaccurate t' = [].
Proof.
  induction 1 as [|r r' l l' Hrow _ IH]; [reflexivity|].
  cbn [filter]. rewrite IH. unfold corrected in Hrow.
  destruct (flagged_inaccurate r) eqn:Hflag.
  - destruct Hrow as (_ & _ & _ & _ & _ & _ & Hacc).
    unfold flagged_inaccurate. rewrite Hacc. reflexivity.
  - subst r'. rewrite Hflag. reflexivity.
Qed.

(** X6. Running the correction a second time changes nothing. *)
Theorem fix_twice_is_fix_once (now1 now2 : timestamptz) (t : table) :
  NoDup (map id t) ->
  fix_existing_billing_periods now2
    (snd (fix_existing_billing_periods now1 t))
  = (inr tt, snd (fix_existing_billing_periods now1 t)).
Proof.
  intros Hnd.
  destruct (fix_existing_billing_periods_corrects now1 t Hnd)
    as (t' & -> & Hcorr). cbn [snd].
  rewrite fix_existing_billing_periods_table.
  rewrite (corrected_not_flagged _ _ Hcorr).
  unfold fix_rows. cbn [fold_left]. rewrite map_id. reflexivity.
Qed.

Lemma fix_twice_is_fix_once_witness :
  fix_existing_billing_periods (jan15 + days 2)
    (snd (fix_existing_billing_periods (jan15 + days 1) two_rows))
  = (inr tt, snd (fix_existing_billing_periods (jan15 + days 1) two_rows)).
Proof.
  apply (fix_twice_is_fix_once (jan15 + days 1) (jan15 + days 2) two_rows).
  repeat constructor; cbn; intuition discriminate.
Defined.

(** X7. With unique row ids, and every accuracy flag null or as the
    trigger set it, all rows have their period end after their period
    start once the correction has run. *)
Theorem fix_restores_period_order (now : timestamptz) (t : table) :
  NoDup (map id t) ->
  (forall r, In r t ->
     billing_period_accurate r = None \/
     billing_period_accurate r
     = Some (validate_billing_period_accuracy (current_period_start r)
               (current_period_end r) (plan_type r))) ->
  period_invariant (snd (fix_existing_billing_periods now t)).
Proof. exact (fix_existing_billing_periods_restores_order now t). Qed.

Lemma fix_restores_period_order_witness :
  period_invariant
    (snd (fix_existing_billing_periods (jan15 + days 1) two_rows)).
Proof.
  apply (fix_restores_period_order (jan15 + days 1) two_rows).
  - repeat constructor; cbn; intuition discriminate.
  - intros r [<-|[<-|[]]]; right; vm_compute; reflexivity.
Defined.

(** X8. The access status is always one row, with [days_remaining] never
    negative and 0 once the period has ended; access is granted only to
    status [active], or to status [cancelled] while the period has not
    ended; [past_due] and [expired] never have access. *)
Theorem access_status_invariants (now : timestamptz) (u : uuid) (t : table) :
  exists a,
    get_subscription_access_status now u t = [a] /\
    0 <= Access.days_remaining a /\
    (Access.is_expired a = true -> Access.days_remaining a = 0) /\
    (Access.has_access a = true ->
     Access.status a = active \/
     (Access.status a = cancelled /\ Access.is_expired a = false)) /\
    (Access.status a = past_due \/ Access.status a = expired ->
     Access.has_access a = false).
Proof.
  unfold get_subscription_access_status.
  destruct (ORDER_BY_created_at_DESC_LIMIT_1 _) as [r|].
  - eexists. split; [reflexivity|].
    cbn [Access.days_remaining Access.is_expired Access.has_access
         Access.status].
    split; [lia|]. split; [|split].
    + intros Hexp. apply Z.leb_le in Hexp.
      unfold EXTRACT_DAY, timestamp_mi. cbn [day]. unfold USECS_PER_DAY.
      Z.to_euclidean_division_equations. lia.
    + destruct (status r); cbn; intros H; try discriminate; auto.
      right. split; [reflexivity|].
      destruct (current_period_end r <=? now); [discriminate|reflexivity].
    + intros [E|E]; rewrite E; reflexivity.
  - eexists. split; [reflexivity|]. cbn.
    repeat split; try lia; try discriminate; auto.
    intros [E|E]; discriminate.
Qed.

(** Rows of other users do not count for the row a user is shown. *)
Lemma filter_updated_other (now : timestamptz) (u u' : uuid)
    (SET : subscriptions -> subscriptions) (t : table) :
  u <> u' -> (forall r, user_id (SET r) = user_id r) ->
  filter (fun s => (user_id s =? u)%N) (updated_rows now u' SET t)
  = filter (fun s => (user_id s =? u)%N) t.
Proof.
  intros Hne HSET. unfold updated_rows.
  induction t as [|x rest IH]; [reflexivity|].
  cbn [map filter]. rewrite IH.
  destruct (N.eqb_spec (user_id x) u') as [E|E]; [|reflexivity].
  cbn [update_billing_period_text user_id]. rewrite HSET.
  destruct (N.eqb_spec (user_id x) u) as [E2|_]; [congruence|reflexivity].
Qed.

(** X9. A reconcile, cancel or reactivate call for one user never
    changes the access status of another user. *)
Theorem other_users_status_unchanged
    (now now' : timestamptz) (generated_id u : uuid) (c : call) (t : table) :
  call_user c <> u ->
  get_subscription_access_status now u
    (transaction (run_call now' generated_id c) t)
  = get_subscription_access_status now u t.
Proof.
  intros Hne. unfold transaction.
  destruct (run_call now' generated_id c t) as [[e|[]] t'] eqn:Hrun;
    [reflexivity|].
  unfold get_subscription_access_status.
  assert (Hf : filter (fun s => (user_id s =? u)%N) t'
               = filter (fun s => (user_id s =? u)%N) t);
    [|rewrite Hf; reflexivity].
  destruct c as [u' plan st sid cid ps pe|u' reason|u' pm];
    cbn [call_user] in Hne.
  - destruct (reconcile_success _ _ _ _ _ _ _ _ _ _ _ Hrun)
      as (new_status & _ & [[_ ->]|[_ ->]]).
    + apply filter_updated_other; [congruence|reflexivity].
    + rewrite filter_app. cbn [filter webhook_NEW update_billing_period_text
                               user_id].
      destruct (N.eqb_spec u' u); [contradiction|]. apply app_nil_r.
  - cbn [run_call] in Hrun.
    rewrite (proj1 (lifecycle_success now' u' t t') reason Hrun).
    apply filter_updated_other; [congruence|reflexivity].
  - cbn [run_call] in Hrun.
    rewrite (proj2 (lifecycle_success now' u' t t') pm Hrun).
    apply filter_updated_other; [congruence|reflexivity].
Qed.

Lemma other_users_status_unchanged_witness :
  get_subscription_access_status jan15 7
    (transaction (run_call jan15 42 (cancel 8 None))
       [sample_row active (jan15 + days 5);
        mkSubscription 2 8 "annual" active None None jan15
          (jan15 + days 366) None None jan15 jan15])
  = get_subscription_access_status jan15 7
      [sample_row active (jan15 + days 5);
       mkSubscription 2 8 "annual" active None None jan15
         (jan15 + days 366) None None jan15 jan15].
Proof.
  apply (other_users_status_unchanged jan15 jan15 42 7 (cancel 8 None)).
  cbn. discriminate.
Defined.

(** X10. A user without a row is given the synthetic trial: access,
    plan [trial], status [active], 30 days remaining, a period from now
    to 30 days from now, and no ids. *)
Theorem no_row_gets_trial (now : timestamptz) (u : uuid) (t : table) :
  (forall r, In r t -> user_id r <> u) ->
  get_subscription_access_status now u t
  = [Access.mkRow None "trial" active None None now (now + days 30)
       true 30 false false "Free Trial - 30 days" now now].
Proof.
  intros Hnone. unfold get_subscription_access_status.
  assert (Hf : filter (fun s => (user_id s =? u)%N) t = []).
  { induction t as [|x rest IH]; [reflexivity|]. cbn [filter].
    destruct (N.eqb_spec (user_id x) u) as [E|_].
    - exfalso. apply (Hnone x); [left; reflexivity|exact E].
    - apply IH. intros r Hr. apply Hnone. right. exact Hr. }
  rewrite Hf. cbn [ORDER_BY_created_at_DESC_LIMIT_1].
  rewrite pl_interval_days. reflexivity.
Qed.

Lemma no_row_gets_trial_witness :
  get_subscription_access_status jan15 8 [sample_row active (jan15 + days 5)]
  = [Access.mkRow None "trial" active None None jan15 (jan15 + days 30)
       true 30 false false "Free Trial - 30 days" jan15 jan15].
Proof.
  apply (no_row_gets_trial jan15 8 [sample_row active (jan15 + days 5)]).
  intros r [<-|[]]. vm_compute. discriminate.
Defined.

Lemma cancel_success_rows (now : timestamptz) (u : uuid)
    (reason : option text) (t t' : table) :
  cancel_subscription_safe now u reason t = (inr tt, t') ->
  exists r, current_subscription u t = Some r /\ status r = active /\
            t' = updated_rows now u (set_status cancelled now) t.
Proof.
  intros H.
  pose proof (proj1 (lifecycle_success now u t t') reason H) as Ht'.
  unfold cancel_subscription_safe, bind, SELECT_INTO_WHERE_user_id in H.
  fold (current_subscription u t) in H.
  destruct (current_subscription u t) as [r|]; [|discriminate].
  exists r. split; [reflexivity|]. split; [|exact Ht'].
  destruct (status r); cbn in H; try discriminate. reflexivity.
Qed.

Lemma reactivate_success_rows (now : timestamptz) (u : uuid) (pm : text)
    (t t' : table) :
  reactivate_subscription now u pm t = (inr tt, t') ->
  exists r, current_subscription u t = Some r /\ status r = cancelled /\
            now < current_period_end r /\
            t' = updated_rows now u (set_status active now) t.
Proof.
  intros H.
  pose proof (proj2 (lifecycle_success now u t t') pm H) as Ht'.
  unfold reactivate_subscription, bind, SELECT_INTO_WHERE_user_id in H.
  fold (current_subscription u t) in H.
  destruct (current_subscription u t) as [r|]; [|discriminate].
  exists r. split; [reflexivity|].
  destruct (status r); cbn in H; try discriminate.
  destruct (Z.leb_spec (current_period_end r) now); [discriminate|].
  repeat split; [lia|exact Ht'].
Qed.

(** X11. After a successful cancel the user's access status, read at any
    time, is cancelled, shows the period end of one of the user's rows as
    it was before, and grants access exactly until that period end. *)
Theorem cancel_keeps_access_until_period_end
    (now0 now : timestamptz) (u : uuid) (reason : option text)
    (t t' : table) :
  cancel_subscription_safe now0 u reason t = (inr tt, t') ->
  exists a r,
    get_subscription_access_status now u t' = [a] /\
    In r t /\ user_id r = u /\
    Access.current_period_end a = current_period_end r /\
    Access.status a = cancelled /\ Access.is_cancelled a = true /\
    Access.has_access a = (now <? current_period_end r).
Proof.
  intros Hcancel.
  destruct (cancel_success_rows _ _ _ _ _ Hcancel) as (r0 & Hcur & _ & ->).
  destruct (current_subscription_some _ _ _ Hcur) as [Hin0 Hu0].
  set (t' := updated_rows now0 u (set_status cancelled now0) t).
  assert (Hrow : exists x, In x t' /\ user_id x = u).
  { exists (update_billing_period_text now0 (set_status cancelled now0 r0)).
    split; [|exact Hu0]. unfold t', updated_rows. apply in_map_iff.
    exists r0. split; [|exact Hin0].
    apply N.eqb_eq in Hu0. rewrite Hu0. reflexivity. }
  destruct (latest_subscription_found _ _ Hrow) as [r' Hlatest].
  destruct (latest_subscription_spec _ _ _ Hlatest) as (Hin' & Hu' & _).
  destruct (updated_rows_written now0 u (set_status cancelled now0) t r'
              (fun _ => eq_refl) Hin' Hu') as (r & Hin & Hu & Hr').
  unfold latest_subscription in Hlatest.
  unfold get_subscription_access_status. rewrite Hlatest.
  eexists _, r. split; [reflexivity|]. subst r'.
  cbn. repeat split; auto.
  rewrite Z.ltb_antisym. reflexivity.
Qed.

Lemma cancel_keeps_access_until_period_end_witness :
  exists a r,
    get_subscription_access_status (jan15 + days 4) 7
      (updated_rows jan15 7 (set_status cancelled jan15)
         [sample_row active (jan15 + days 5)]) = [a] /\
    In r [sample_row active (jan15 + days 5)] /\ user_id r = 7%N /\
    Access.current_period_end a = current_period_end r /\
    Access.status a = cancelled /\ Access.is_cancelled a = true /\
    Access.has_access a = (jan15 + days 4 <? current_period_end r).
Proof.
  apply (cancel_keeps_access_until_period_end jan15 (jan15 + days 4) 7 None
           [sample_row active (jan15 + days 5)]).
  reflexivity.
Defined.

(** X12. A second cancel after a successful one raises 'Subscription is
    not active', and a second reactivate after a successful one raises
    'Subscription is not cancelled'; neither writes. *)
Theorem lifecycle_call_not_repeatable
    (now1 now2 : timestamptz) (u : uuid) (reason1 reason2 : option text)
    (pm1 pm2 : text) (t t' : table) :
  (cancel_subscription_safe now1 u reason1 t = (inr tt, t') ->
   cancel_subscription_safe now2 u reason2 t'
   = (inl "Subscription is not active"%string, t'))
  /\
  (reactivate_subscription now1 u pm1 t = (inr tt, t') ->
   reactivate_subscription now2 u pm2 t'
   = (inl "Subscription is not cancelled"%string, t')).
Proof.
  split; intros H.
  - destruct (cancel_success_rows _ _ _ _ _ H) as (r & Hcur & _ & ->).
    unfold cancel_subscription_safe at 1, bind, SELECT_INTO_WHERE_user_id.
    fold (current_subscription u
            (updated_rows now1 u (set_status cancelled now1) t)).
    rewrite updated_rows_current, Hcur by reflexivity. reflexivity.
  - destruct (reactivate_success_rows _ _ _ _ _ H) as (r & Hcur & _ & _ & ->).
    unfold reactivate_subscription at 1, bind, SELECT_INTO_WHERE_user_id.
    fold (current_subscription u
            (updated_rows now1 u (set_status active now1) t)).
    rewrite updated_rows_current, Hcur by reflexivity. reflexivity.
Qed.

Lemma lifecycle_call_not_repeatable_witness :
  cancel_subscription_safe (jan15 + days 1) 7 None
    (updated_rows jan15 7 (set_status cancelled jan15)
       [sample_row active (jan15 + days 5)])
  = (inl "Subscription is not active"%string,
     updated_rows jan15 7 (set_status cancelled jan15)
       [sample_row active (jan15 + days 5)]).
Proof.
  apply (proj1 (lifecycle_call_not_repeatable jan15 (jan15 + days 1) 7
                  None None "pm_1" "pm_1"
                  [sample_row active (jan15 + days 5)]
                  (updated_rows jan15 7 (set_status cancelled jan15)
                     [sample_row active (jan15 + days 5)]))).
  reflexivity.
Defined.



Lemma latest_of_new_row (u : uuid) (t : table) (r : subscriptions) :
  current_subscription u t = None -> user_id r = u ->
  latest_subscription u (t ++ [r]) = Some r.
Proof.
  intros Hnone Hu. unfold latest_subscription. rewrite filter_app.
  assert (Hf : filter (fun s => (user_id s =? u)%N) t = []).
  { unfold current_subscription in Hnone.
    induction t as [|x rest IH]; [reflexivity|]. cbn [filter find] in *.
    destruct (user_id x =? u)%N; [discriminate|auto]. }
  rewrite Hf. cbn [app filter]. apply N.eqb_eq in Hu. rewrite Hu. reflexivity.
Qed.

(** X14. The first reconcile call for a user adds one row at the end of
    the table and changes no other row; the row has the generated id,
    the arguments as given, the effective period bounds and both
    timestamps set to now, and it is the row that later lookups by the
    writers and by the access status find. *)
Theorem first_reconcile_inserts
    (now : timestamptz) (generated_id u : uuid)
    (plan : subscription_plan_type) (label : text) (st : subscription_status)
    (sid cid : option text) (ps pe : option timestamptz) (t : table) :
  (forall r, In r t -> user_id r <> u) ->
  subscription_status_in label = Some st ->
  exists json r,
    handle_subscription_webhook now generated_id u plan label sid cid ps pe t
    = (inr json, t ++ [r]) /\
    current_subscription u (t ++ [r]) = Some r /\
    latest_subscription u (t ++ [r]) = Some r /\
    id r = generated_id /\ user_id r = u /\ plan_type r = plan /\
    status r = st /\
    stripe_subscription_id r = sid /\ stripe_customer_id r = cid /\
    current_period_start r = COALESCE_to ps now /\
    current_period_end r
    = match pe with
      | Some e => e
      | None => calculate_subscription_period_end plan (COALESCE_to ps now)
      end /\
    created_at r = now /\ updated_at r = now.
Proof.
  intros Hnone Hcast.
  pose proof (current_subscription_none _ _ Hnone) as Hcur.
  destruct (webhook_insert now generated_id u plan label sid cid ps pe t st
              Hcur Hcast) as [json Hcall].
  unfold the_call in Hcall. rewrite Hcall.
  eexists _, _. split; [reflexivity|].
  split; [apply current_subscription_app_new; [exact Hcur|reflexivity]|].
  split; [apply latest_of_new_row; [exact Hcur|reflexivity]|].
  cbn. repeat split.
Qed.

Lemma first_reconcile_inserts_witness :
  exists json r,
    handle_subscription_webhook jan15 42 7 "monthly" "active"
      (Some "sub_9"%string) None None None [] = (inr json, [] ++ [r]) /\
    current_subscription 7 ([] ++ [r]) = Some r /\
    latest_subscription 7 ([] ++ [r]) = Some r /\
    id r = 42%N /\ user_id r = 7%N /\ plan_type r = "monthly"%string /\
    status r = active /\
    stripe_subscription_id r = Some "sub_9"%string /\
    stripe_customer_id r = None /\
    current_period_start r = jan15 /\
    current_period_end r
    = calculate_subscription_period_end "monthly" jan15 /\
    created_at r = jan15 /\ updated_at r = jan15.
Proof.
  apply (first_reconcile_inserts jan15 42 7 "monthly" "active" active
           (Some "sub_9"%string) None None None []).
  - intros r [].
  - reflexivity.
Defined.

Lemma subscription_status_in_labels (label : text) :
  (exists st, subscription_status_in label = Some st) <->
  In label ["active"; "expired"; "cancelled"; "past_due"]%string.
Proof.
  unfold subscription_status_in. cbn [In].
  destruct (String.eqb_spec label "active");
    [split; [auto|eauto]|].
  destruct (String.eqb_spec label "expired");
    [split; [auto|eauto]|].
  destruct (String.eqb_spec label "cancelled");
    [split; [auto|eauto]|].
  destruct (String.eqb_spec label "past_due");
    [split; [auto 6|eauto]|].
  split; [intros [st H]; discriminate|].
  intros [H|[H|[H|[H|[]]]]]; congruence.
Qed.

(** X15. The handler succeeds exactly for the four labels of the status
    enum; for any other status text it raises and writes nothing. *)
Theorem reconcile_accepts_enum_labels_only
    (now : timestamptz) (generated_id u : uuid)
    (plan : subscription_plan_type) (label : text)
    (sid cid : option text) (ps pe : option timestamptz) (t : table) :
  (In label ["active"; "expired"; "cancelled"; "past_due"]%string ->
   exists json t',
     handle_subscription_webhook now generated_id u plan label sid cid ps pe t
     = (inr json, t'))
  /\
  (~ In label ["active"; "expired"; "cancelled"; "past_due"]%string ->
   exists e,
     handle_subscription_webhook now generated_id u plan label sid cid ps pe t
     = (inl e, t)).
Proof.
  split; intros H.
  - apply subscription_status_in_labels in H. destruct H as [st Hcast].
    destruct (current_subscription u t) as [old|] eqn:Hcur.
    + destruct (webhook_update now generated_id u plan label sid cid ps pe
                  t old st Hcur Hcast) as [json Hcall]. eauto.
    + destruct (webhook_insert now generated_id u plan label sid cid ps pe
                  t st Hcur Hcast) as [json Hcall]. eauto.
  - apply (webhook_invalid_status now generated_id u plan label sid cid ps pe).
    destruct (subscription_status_in label) as [st|] eqn:E; [|reflexivity].
    exfalso. apply H. apply subscription_status_in_labels. eauto.
Qed.

Lemma reconcile_accepts_enum_labels_only_witness :
  exists e,
    handle_subscription_webhook jan15 42 7 "monthly" "canceled"
      None None None None [sample_row active (jan15 + days 5)]
    = (inl e, [sample_row active (jan15 + days 5)]).
Proof.
  apply (proj2 (reconcile_accepts_enum_labels_only jan15 42 7 "monthly"
                  "canceled" None None None None
                  [sample_row active (jan15 + days 5)])).
  cbn [In]. intros [H|[H|[H|[H|[]]]]]; discriminate.
Defined.

(** X16. Whatever sequence of reconcile, cancel and reactivate calls is
    run on an empty table, no user ever has two rows, so the row the
    writers read for a user is the row the access status reads. *)
Theorem writers_keep_one_row_per_user (trace : list invocation) (u : uuid) :
  one_row_per_user (run_calls trace [])
  /\ current_subscription u (run_calls trace [])
     = latest_subscription u (run_calls trace []).
Proof.
  pose proof (run_calls_one_row_per_user trace) as H.
  split; [exact H|]. apply current_is_latest. exact H.
Qed.







End StoredProcedureProperties.

(** ** The webhook endpoint *)

Module WebhookProperties.

Import CalendarFacts BillingProperties.

Import StripeWebhook.

Section Endpoint.

Variable Date_now : Z.
Variable retrieve : string -> option Subscription.t.
Variable rpc_error : rpc_params -> bool.

Lemma payment_event_calls (user_id plan_type : js_string) (paid : bool)
    (sid cid : js_string) :
  (List.length (snd (payment_event Date_now rpc_error user_id plan_type paid
                       sid cid)) <= 1)%nat.
Proof.
  unfold payment_event.
  destruct user_id as [u|], plan_type as [p|]; cbn; try lia.
  destruct (negb (u =? "")%string && negb (p =? "")%string && paid);
    [|cbn; lia].
  destruct (rpc_error _); cbn; lia.
Qed.

Lemma invoice_event_calls (invoice : Invoice.t)
    (status_of : Subscription.t -> string) :
  (List.length (snd (invoice_event retrieve invoice status_of)) <= 1)%nat.
Proof.
  unfold invoice_event.
  destruct (Invoice.subscription invoice) as [i|]; [|cbn; lia].
  destruct (negb (i =? "")%string); [|cbn; lia].
  destruct (retrieve i) as [s|]; [|cbn; lia].
  destruct (Subscription.metadata_user_id s) as [u|]; [|cbn; lia].
  destruct (negb (u =? "")%string); [|cbn; lia].
  destruct (subscription_call s u _); cbn; lia.
Qed.

Lemma subscription_event_calls (s : Subscription.t) (status : string) :
  (List.length (snd (subscription_event s status)) <= 1)%nat.
Proof.
  unfold subscription_event.
  destruct (Subscription.metadata_user_id s) as [u|]; [|cbn; lia].
  destruct (negb (u =? "")%string); [|cbn; lia].
  destruct (subscription_call s u status); cbn; lia.
Qed.

Lemma process_event_calls (e : event) :
  (List.length (snd (process_event Date_now retrieve rpc_error e)) <= 1)%nat.
Proof.
  destruct e; cbn [process_event];
    auto using payment_event_calls, invoice_event_calls,
      subscription_event_calls.
Qed.

(** X19. The endpoint makes at most one database call per request, and
    none unless the request is not a preflight, both clients were
    constructed, the signature header and the configured secret are
    non-empty, and the provider's verification returned an event. *)
Theorem calls_need_a_verified_event (req : request) :
  (List.length (snd (serve Date_now retrieve rpc_error req)) <= 1)%nat
  /\ (snd (serve Date_now retrieve rpc_error req) <> [] ->
      method req <> "OPTIONS"%string /\
      clients_constructed req = true /\
      truthy (signature req) = true /\
      truthy (webhookSecret req) = true /\
      exists e, constructEventAsync req = Some e).
Proof.
  unfold serve.
  destruct (String.eqb_spec (method req) "OPTIONS");
    [cbn; split; [lia|congruence]|].
  destruct (clients_constructed req); [|cbn; split; [lia|congruence]].
  destruct (truthy (signature req)); [|cbn; split; [lia|congruence]].
  destruct (truthy (webhookSecret req)); [|cbn; split; [lia|congruence]].
  cbn [negb].
  destruct (constructEventAsync req) as [e|]; [|cbn; split; [lia|congruence]].
  pose proof (process_event_calls e) as Hlen.
  destruct (process_event Date_now retrieve rpc_error e) as [[|] calls];
    cbn [snd] in *;
    (split; [exact Hlen|]); intros _; repeat split; eauto.
Qed.

(** The statuses the handler sends. *)
Definition sent_status (label : string) : Prop :=
  label = "active"%string \/ label = "past_due"%string
  \/ label = "cancelled"%string.

Lemma subscription_call_fields (s : Subscription.t) (u status : string)
    (p : rpc_params) :
  subscription_call s u status = Some p ->
  p_user_id p = u /\ p_status p = status /\
  p_plan_type p = or_default (Subscription.metadata_plan_type s) "monthly" /\
  p_stripe_subscription_id p = Some (Subscription.id s) /\
  p_stripe_customer_id p = Subscription.customer s /\
  p_period_start p = Some (Subscription.current_period_start s * 1000) /\
  p_period_end p = Some (Subscription.current_period_end s * 1000) /\
  Z.abs (Subscription.current_period_start s * 1000) <= 8640000000000000 /\
  Z.abs (Subscription.current_period_end s * 1000) <= 8640000000000000.
Proof.
  unfold subscription_call, new_Date_toISOString.
  destruct (Z.leb_spec (Z.abs (Subscription.current_period_start s * 1000))
              8640000000000000); [|discriminate].
  destruct (Z.leb_spec (Z.abs (Subscription.current_period_end s * 1000))
              8640000000000000); [|discriminate].
  intros E. injection E as <-. cbn. repeat split; assumption.
Qed.

Lemma dbStatus_sent (s : Subscription.t) : sent_status (dbStatus s).
Proof.
  unfold dbStatus, sent_status.
  destruct (Subscription.status s =? "past_due")%string; [auto|].
  destruct (Subscription.cancel_at_period_end s
            || (Subscription.status s =? "canceled")%string); auto.
Qed.

Lemma payment_event_status (user_id plan_type : js_string) (paid : bool)
    (sid cid : js_string) (p : rpc_params) :
  In p (snd (payment_event Date_now rpc_error user_id plan_type paid sid cid))
  -> p_status p = "active"%string /\ p_user_id p <> ""%string
     /\ p_period_start p = Some Date_now /\ p_period_end p = None.
Proof.
  unfold payment_event.
  destruct user_id as [u|], plan_type as [pl|]; cbn; try tauto.
  destruct (String.eqb_spec u ""); cbn; [tauto|].
  destruct (negb (pl =? "")%string && paid); cbn; [|tauto].
  destruct (rpc_error _); cbn; intros [<-|[]]; cbn; auto.
Qed.

Lemma invoice_event_status (invoice : Invoice.t)
    (status_of : Subscription.t -> string) (p : rpc_params) :
  (forall s, sent_status (status_of s)) ->
  In p (snd (invoice_event retrieve invoice status_of)) ->
  sent_status (p_status p) /\ p_user_id p <> ""%string.
Proof.
  intros Hst. unfold invoice_event.
  destruct (Invoice.subscription invoice) as [i|]; [|cbn; tauto].
  destruct (negb (i =? "")%string); [|cbn; tauto].
  destruct (retrieve i) as [s|]; [|cbn; tauto].
  destruct (Subscription.metadata_user_id s) as [u|]; [|cbn; tauto].
  destruct (String.eqb_spec u ""); cbn [negb]; [cbn; tauto|].
  destruct (subscription_call s u _) as [q|] eqn:E; cbn; [|tauto].
  intros [<-|[]].
  destruct (subscription_call_fields _ _ _ _ E) as (-> & -> & _). auto.
Qed.

Lemma subscription_event_status (s : Subscription.t) (status : string)
    (p : rpc_params) :
  sent_status status ->
  In p (snd (subscription_event s status)) ->
  sent_status (p_status p) /\ p_user_id p <> ""%string.
Proof.
  intros Hst. unfold subscription_event.
  destruct (Subscription.metadata_user_id s) as [u|]; [|cbn; tauto].
  destruct (String.eqb_spec u ""); cbn [negb]; [cbn; tauto|].
  destruct (subscription_call s u status) as [q|] eqn:E; cbn; [|tauto].
  intros [<-|[]].
  destruct (subscription_call_fields _ _ _ _ E) as (-> & -> & _). auto.
Qed.

Lemma process_event_status (e : event) (p : rpc_params) :
  In p (snd (process_event Date_now retrieve rpc_error e)) ->
  sent_status (p_status p) /\ p_user_id p <> ""%string.
Proof.
  destruct e; cbn [process_event]; intros Hin.
  - destruct (payment_event_status _ _ _ _ _ _ Hin) as (-> & H & _).
    unfold sent_status. auto.
  - destruct (payment_event_status _ _ _ _ _ _ Hin) as (-> & H & _).
    unfold sent_status. auto.
  - eapply invoice_event_status; [|exact Hin].
    intros s. unfold sent_status. cbv beta.
    destruct (Subscription.status s =? "active")%string; auto.
  - eapply invoice_event_status; [|exact Hin].
    intros s. unfold sent_status. auto.
  - eapply subscription_event_status; [|exact Hin].
    apply dbStatus_sent.
  - eapply subscription_event_status; [|exact Hin].
    unfold sent_status. auto.
  - destruct Hin.
Qed.

Lemma serve_calls (req : request) (p : rpc_params) :
  In p (snd (serve Date_now retrieve rpc_error req)) ->
  exists e, constructEventAsync req = Some e
            /\ In p (snd (process_event Date_now retrieve rpc_error e)).
Proof.
  unfold serve.
  destruct (method req =? "OPTIONS")%string; [intros []|].
  destruct (negb (clients_constructed req)); [intros []|].
  destruct (negb (truthy (signature req))); [intros []|].
  destruct (negb (truthy (webhookSecret req))); [intros []|].
  destruct (constructEventAsync req) as [e|]; [|intros []].
  intros Hin. exists e. split; [reflexivity|].
  destruct (process_event Date_now retrieve rpc_error e) as [[|] calls];
    exact Hin.
Qed.

(** X20. Every call the endpoint makes names a user and passes one of
    the statuses 'active', 'past_due' and 'cancelled', which the cast of
    the database handler accepts; it never passes 'expired'. *)
Theorem sent_statuses_are_enum_labels (req : request) (p : rpc_params) :
  In p (snd (serve Date_now retrieve rpc_error req)) ->
  p_user_id p <> ""%string /\
  exists st,
    subscription_status_in (p_status p) = Some st /\
    (st = active \/ st = past_due \/ st = cancelled).
Proof.
  intros Hin. destruct (serve_calls req p Hin) as (e & _ & Hp).
  destruct (process_event_status e p Hp) as [[E|[E|E]] Hu];
    (split; [exact Hu|]); rewrite E; eexists; (split; [reflexivity|]); auto.
Qed.

Lemma payment_event_failed (user_id plan_type : js_string) (paid : bool)
    (sid cid : js_string) (p : rpc_params) :
  In p (snd (payment_event Date_now rpc_error user_id plan_type paid sid cid))
  -> fst (payment_event Date_now rpc_error user_id plan_type paid sid cid)
     = if rpc_error p then thrown else finished.
Proof.
  unfold payment_event.
  destruct user_id as [u|], plan_type as [pl|]; cbn; try tauto.
  destruct (negb (u =? "")%string && negb (pl =? "")%string && paid);
    cbn; [|tauto].
  destruct (rpc_error _) eqn:E; cbn; intros [<-|[]]; rewrite E; reflexivity.
Qed.

Lemma invoice_event_finished (invoice : Invoice.t)
    (status_of : Subscription.t -> string) :
  fst (invoice_event retrieve invoice status_of) = finished.
Proof.
  unfold invoice_event.
  destruct (Invoice.subscription invoice) as [i|]; [|reflexivity].
  destruct (negb (i =? "")%string); [|reflexivity].
  destruct (retrieve i) as [s|]; [|reflexivity].
  destruct (Subscription.metadata_user_id s) as [u|]; [|reflexivity].
  destruct (negb (u =? "")%string); [|reflexivity].
  destruct (subscription_call s u _); reflexivity.
Qed.

Lemma subscription_event_finished (s : Subscription.t) (status : string)
    (p : rpc_params) :
  In p (snd (subscription_event s status)) ->
  fst (subscription_event s status) = finished.
Proof.
  unfold subscription_event.
  destruct (Subscription.metadata_user_id s) as [u|]; [|reflexivity].
  destruct (negb (u =? "")%string); [|reflexivity].
  destruct (subscription_call s u status); [reflexivity|intros []].
Qed.

(** Whether an error of the database call is thrown by the branch of
    the event: it is for the two payment events only. *)
Definition throws_call_error (e : event) : bool :=
  match e with
  | checkout_session_completed _ | payment_intent_succeeded _ => true
  | _ => false
  end.

(** X21. When the endpoint has made its call, it answers 400 exactly if
    the call returned an error and the event is a completed checkout or
    a succeeded payment intent; an error of the call made for an
    invoice or a subscription event is answered 200. *)
Theorem call_error_answered_for_payments_only (req : request)
    (p : rpc_params) :
  In p (snd (serve Date_now retrieve rpc_error req)) ->
  exists e,
    constructEventAsync req = Some e /\
    fst (serve Date_now retrieve rpc_error req)
    = if rpc_error p && throws_call_error e then 400 else 200.
Proof.
  intros Hin. destruct (serve_calls req p Hin) as (e & He & Hp).
  exists e. split; [exact He|]. revert Hin. unfold serve. rewrite He.
  destruct (method req =? "OPTIONS")%string; [intros []|].
  destruct (negb (clients_constructed req)); [intros []|].
  destruct (negb (truthy (signature req))); [intros []|].
  destruct (negb (truthy (webhookSecret req))); [intros []|].
  intros _.
  assert (Hfst : fst (process_event Date_now retrieve rpc_error e)
                 = if rpc_error p && throws_call_error e
                   then thrown else finished).
  { destruct e; cbn [process_event throws_call_error] in *;
      rewrite ?andb_true_r, ?andb_false_r.
    - apply payment_event_failed. exact Hp.
    - apply payment_event_failed. exact Hp.
    - apply invoice_event_finished.
    - apply invoice_event_finished.
    - apply (subscription_event_finished _ _ p). exact Hp.
    - apply (subscription_event_finished _ _ p). exact Hp.
    - destruct Hp. }
  destruct (process_event Date_now retrieve rpc_error e) as [[|] calls];
    cbn [fst] in *;
    destruct (rpc_error p && throws_call_error e);
    try discriminate; reflexivity.
Qed.

End Endpoint.

Definition sample_subscription : Subscription.t :=
  Subscription.mk "sub_1" (Some "user-7"%string) (Some "annual"%string)
    "canceled" false (Some "cus_1"%string) 1705276800 1736899200.

Definition sample_request (e : event) : request :=
  mkRequest "POST" true (Some "t=1,v1=abc"%string) (Some "whsec_1"%string)
    (Some e).

Lemma calls_need_a_verified_event_witness :
  method (sample_request (customer_subscription_deleted sample_subscription))
  <> "OPTIONS"%string /\
  clients_constructed
    (sample_request (customer_subscription_deleted sample_subscription))
  = true /\
  truthy (signature
            (sample_request (customer_subscription_deleted sample_subscription)))
  = true /\
  truthy (webhookSecret
            (sample_request (customer_subscription_deleted sample_subscription)))
  = true /\
  exists e,
    constructEventAsync
      (sample_request (customer_subscription_deleted sample_subscription))
    = Some e.
Proof.
  apply (proj2 (calls_need_a_verified_event 0 (fun _ => None) (fun _ => true)
                  (sample_request
                     (customer_subscription_deleted sample_subscription)))).
  vm_compute. discriminate.
Defined.

Lemma sent_statuses_are_enum_labels_witness :
  p_user_id
    (mkParams "user-7" "annual" "cancelled" (Some "sub_1"%string)
       (Some "cus_1"%string) (Some 1705276800000) (Some 1736899200000))
  <> ""%string /\
  exists st,
    subscription_status_in
      (p_status
         (mkParams "user-7" "annual" "cancelled" (Some "sub_1"%string)
            (Some "cus_1"%string) (Some 1705276800000) (Some 1736899200000)))
    = Some st /\
    (st = active \/ st = past_due \/ st = cancelled).
Proof.
  apply (sent_statuses_are_enum_labels 0 (fun _ => None) (fun _ => true)
           (sample_request (customer_subscription_deleted sample_subscription))).
  left. reflexivity.
Defined.

Lemma call_error_answered_for_payments_only_witness :
  exists e,
    constructEventAsync
      (sample_request (customer_subscription_deleted sample_subscription))
    = Some e /\
    fst (serve 0 (fun _ => None) (fun _ => true)
           (sample_request (customer_subscription_deleted sample_subscription)))
    = if (fun _ : rpc_params => true)
           (mkParams "user-7" "annual" "cancelled" (Some "sub_1"%string)
              (Some "cus_1"%string) (Some 1705276800000)
              (Some 1736899200000))
         && throws_call_error e
      then 400 else 200.
Proof.
  apply (call_error_answered_for_payments_only 0 (fun _ => None)
           (fun _ => true)
           (sample_request (customer_subscription_deleted sample_subscription))
           (mkParams "user-7" "annual" "cancelled" (Some "sub_1"%string)
              (Some "cus_1"%string) (Some 1705276800000)
              (Some 1736899200000))).
  left. reflexivity.
Defined.

End WebhookProperties.

(** ** From the provider's event to the access status *)

Module EndToEnd.

Import CalendarFacts BillingProperties.

Import StripeWebhook StoredProcedureProperties WebhookProperties.

(** The row a user is shown after a successful reconcile call. *)
Lemma reconciled_row (now : timestamptz) (generated_id u : uuid)
    (plan : subscription_plan_type) (label : text) (sid cid : option text)
    (ps pe : option timestamptz) (t t' : table) :
  run_call now generated_id (reconcile u plan label sid cid ps pe) t
  = (inr tt, t') ->
  exists st r,
    subscription_status_in label = Some st /\
    latest_subscription u t' = Some r /\
    plan_type r = plan /\ status r = st /\
    current_period_start r = effective_period_start now ps /\
    current_period_end r = effective_period_end now plan ps pe.
Proof.
  intros Hrun.
  destruct (reconcile_success _ _ _ _ _ _ _ _ _ _ _ Hrun)
    as (st & Hcast & [[[old Hcur] ->]|[Hnone ->]]).
  - destruct (current_subscription_some _ _ _ Hcur) as [Hin0 Hu0].
    set (SET := webhook_SET now plan sid cid ps pe st).
    assert (Hrow : exists x, In x (updated_rows now u SET t) /\ user_id x = u).
    { exists (update_billing_period_text now (SET old)).
      split; [|exact Hu0]. unfold updated_rows. apply in_map_iff.
      exists old. split; [|exact Hin0].
      apply N.eqb_eq in Hu0. rewrite Hu0. reflexivity. }
    destruct (latest_subscription_found _ _ Hrow) as [r' Hlatest].
    destruct (latest_subscription_spec _ _ _ Hlatest) as (Hin' & Hu' & _).
    destruct (updated_rows_written now u SET t r' (fun _ => eq_refl) Hin' Hu')
      as (r & _ & _ & Hr').
    exists st, r'. split; [exact Hcast|]. split; [exact Hlatest|].
    subst r'. cbn. repeat split.
  - eexists st, _. split; [exact Hcast|].
    split; [apply latest_of_new_row; [exact Hnone|reflexivity]|].
    cbn. repeat split.
Qed.

Section Composition.

Variable uuid_in : string -> option uuid.
Variable subscription_plan_type_in : string -> option subscription_plan_type.

Lemma to_call_reconcile (p : rpc_params) (c : call) :
  to_call uuid_in subscription_plan_type_in p = Some c ->
  exists u plan,
    c = reconcile u plan (p_status p)
          (p_stripe_subscription_id p) (p_stripe_customer_id p)
          (option_map timestamptz_of_js_ms (p_period_start p))
          (option_map timestamptz_of_js_ms (p_period_end p)).
Proof.
  unfold to_call.
  destruct (uuid_in _) as [u|]; [|discriminate].
  destruct (subscription_plan_type_in _) as [plan|]; [|discriminate].
  intros H. injection H as <-. eauto.
Qed.

(** X22. When the provider reports a subscription deleted and the call
    the endpoint makes for it succeeds in the database, the user's access
    status is cancelled from then on, with the provider's period end, and
    the user keeps access exactly until that instant. *)
Theorem deleted_subscription_ends_at_period_end
    (Date_now : Z) (retrieve : string -> option Subscription.t)
    (rpc_error : rpc_params -> bool)
    (s : Subscription.t) (p : rpc_params) (c : call)
    (now now' : timestamptz) (generated_id : uuid) (t t' : table) :
  In p (snd (process_event Date_now retrieve rpc_error
               (customer_subscription_deleted s))) ->
  to_call uuid_in subscription_plan_type_in p = Some c ->
  run_call now generated_id c t = (inr tt, t') ->
  exists a,
    get_subscription_access_status now' (call_user c) t' = [a] /\
    Access.status a = cancelled /\ Access.is_cancelled a = true /\
    Access.current_period_end a
    = timestamptz_of_js_ms (Subscription.current_period_end s * 1000) /\
    Access.has_access a
    = (now' <? timestamptz_of_js_ms
                 (Subscription.current_period_end s * 1000)).
Proof.
  cbn [process_event]. unfold subscription_event. intros Hin Hcall Hrun.
  destruct (Subscription.metadata_user_id s) as [uid|]; [|destruct Hin].
  destruct (negb (uid =? "")%string); [|destruct Hin].
  destruct (subscription_call s uid "cancelled") as [q|] eqn:Hq;
    [|destruct Hin].
  destruct Hin as [<-|[]].
  destruct (subscription_call_fields _ _ _ _ Hq)
    as (_ & Hst & _ & _ & _ & Hps & Hpe & _).
  destruct (to_call_reconcile _ _ Hcall) as (u & plan & ->).
  rewrite Hst, Hps, Hpe in Hrun. cbn [option_map] in Hrun.
  destruct (reconciled_row _ _ _ _ _ _ _ _ _ _ _ Hrun)
    as (st & r & Hcast & Hlatest & _ & Hstatus & _ & Hend).
  cbn in Hcast. injection Hcast as <-.
  cbn [effective_period_end] in Hend.
  unfold latest_subscription in Hlatest.
  cbn [call_user]. unfold get_subscription_access_status. rewrite Hlatest.
  eexists. split; [reflexivity|].
  cbn [Access.status Access.is_cancelled Access.current_period_end
       Access.has_access].
  rewrite Hstatus, Hend. cbn [subscription_status_eqb orb andb].
  repeat split. rewrite Z.ltb_antisym. reflexivity.
Qed.

(** The period bounds the provider reports with an event are in order;
    for an invoice event they are those of the subscription fetched. *)
Definition provider_period_ordered
    (retrieve : string -> option Subscription.t) (e : event) : Prop :=
  let ordered s :=
    Subscription.current_period_start s < Subscription.current_period_end s in
  match e with
  | customer_subscription_updated s | customer_subscription_deleted s =>
      ordered s
  | invoice_payment_succeeded invoice | invoice_payment_failed invoice =>
      forall subscription_id s,
        Invoice.subscription invoice = Some subscription_id ->
        retrieve subscription_id = Some s -> ordered s
  | _ => True
  end.

Lemma subscription_call_ordered (s : Subscription.t) (u status : string)
    (p : rpc_params) (now : timestamptz) (c : call) :
  Subscription.current_period_start s < Subscription.current_period_end s ->
  subscription_call s u status = Some p ->
  to_call uuid_in subscription_plan_type_in p = Some c ->
  bounds_in_order now c.
Proof.
  intros Hord Hq Hcall.
  destruct (subscription_call_fields _ _ _ _ Hq)
    as (_ & _ & _ & _ & _ & Hps & Hpe & _).
  destruct (to_call_reconcile _ _ Hcall) as (u' & plan & ->).
  rewrite Hps, Hpe. cbn. unfold timestamptz_of_js_ms. lia.
Qed.

Lemma calls_bounds_in_order (Date_now : Z)
    (retrieve : string -> option Subscription.t)
    (rpc_error : rpc_params -> bool) (e : event) (p : rpc_params)
    (now : timestamptz) (c : call) :
  provider_period_ordered retrieve e ->
  In p (snd (process_event Date_now retrieve rpc_error e)) ->
  to_call uuid_in subscription_plan_type_in p = Some c ->
  bounds_in_order now c.
Proof.
  intros Hord Hin Hcall.
  assert (Hpay : forall a b paid sid cid,
             In p (snd (payment_event Date_now rpc_error a b paid sid cid)) ->
             bounds_in_order now c).
  { intros a b paid sid cid H.
    apply (payment_event_status Date_now retrieve) in H.
    destruct H as (_ & _ & _ & Hpe).
    destruct (to_call_reconcile _ _ Hcall) as (u' & plan & ->).
    rewrite Hpe. cbn [option_map bounds_in_order]. exact I. }
  assert (Hinv : forall invoice status_of,
             (forall subscription_id s,
                Invoice.subscription invoice = Some subscription_id ->
                retrieve subscription_id = Some s ->
                Subscription.current_period_start s
                < Subscription.current_period_end s) ->
             In p (snd (invoice_event retrieve invoice status_of)) ->
             bounds_in_order now c).
  { intros invoice status_of H. unfold invoice_event.
    destruct (Invoice.subscription invoice) as [i|]; [|intros []].
    destruct (negb (i =? "")%string); [|intros []].
    destruct (retrieve i) as [s|] eqn:Hs; [|intros []].
    destruct (Subscription.metadata_user_id s) as [u|]; [|intros []].
    destruct (negb (u =? "")%string); [|intros []].
    destruct (subscription_call s u _) as [q|] eqn:Hq; [|intros []].
    intros [<-|[]].
    exact (subscription_call_ordered _ _ _ _ _ _ (H i s eq_refl Hs)
             Hq Hcall). }
  assert (Hsub : forall s status,
             Subscription.current_period_start s
             < Subscription.current_period_end s ->
             In p (snd (subscription_event s status)) ->
             bounds_in_order now c).
  { intros s status H. unfold subscription_event.
    destruct (Subscription.metadata_user_id s) as [u|]; [|intros []].
    destruct (negb (u =? "")%string); [|intros []].
    destruct (subscription_call s u status) as [q|] eqn:Hq; [|intros []].
    intros [<-|[]].
    exact (subscription_call_ordered _ _ _ _ _ _ H Hq Hcall). }
  destruct e; cbn [process_event provider_period_ordered] in *; eauto.
  destruct Hin.
Qed.

(** X23. A call the endpoint makes for an event whose period bounds are
    in order, run as one transaction on a table all of whose rows have
    their period end after their start, leaves such a table, whether
    the call succeeds or raises. *)
Theorem endpoint_calls_keep_period_order
    (Date_now : Z) (retrieve : string -> option Subscription.t)
    (rpc_error : rpc_params -> bool) (req : request) (e : event)
    (p : rpc_params) (c : call)
    (now : timestamptz) (generated_id : uuid) (t : table) :
  constructEventAsync req = Some e ->
  provider_period_ordered retrieve e ->
  In p (snd (serve Date_now retrieve rpc_error req)) ->
  to_call uuid_in subscription_plan_type_in p = Some c ->
  period_invariant t ->
  period_invariant (transaction (run_call now generated_id c) t).
Proof.
  intros He Hord Hin Hcall Ht.
  destruct (serve_calls _ _ _ _ _ Hin) as (e' & He' & Hp).
  rewrite He in He'. injection He' as <-.
  pose proof (calls_bounds_in_order _ _ _ _ _ now _ Hord Hp Hcall) as Hb.
  exact (transaction_keeps_order (mkInvocation now generated_id c) t Hb Ht).
Qed.

End Composition.

(** The provider's sample subscription, whose metadata names user 7. *)
Definition sample_uuid_in (s : string) : option uuid :=
  if (s =? "user-7")%string then Some 7%N else None.

Definition sample_params : rpc_params :=
  mkParams "user-7" "annual" "cancelled" (Some "sub_1"%string)
    (Some "cus_1"%string) (Some 1705276800000) (Some 1736899200000).

Definition sample_call : call :=
  reconcile 7 "annual" "cancelled" (Some "sub_1"%string)
    (Some "cus_1"%string) (Some jan15) (Some (jan15 + days 366)).

Lemma deleted_subscription_ends_at_period_end_witness :
  exists a,
    get_subscription_access_status (jan15 + days 400) (call_user sample_call)
      (snd (run_call jan15 42 sample_call [])) = [a] /\
    Access.status a = cancelled /\ Access.is_cancelled a = true /\
    Access.current_period_end a
    = timestamptz_of_js_ms
        (Subscription.current_period_end sample_subscription * 1000) /\
    Access.has_access a
    = (jan15 + days 400
       <? timestamptz_of_js_ms
            (Subscription.current_period_end sample_subscription * 1000)).
Proof.
  apply (deleted_subscription_ends_at_period_end sample_uuid_in
           (fun label => Some label) 0 (fun _ => None) (fun _ => false)
           sample_subscription sample_params sample_call jan15
           (jan15 + days 400) 42 []).
  - left. reflexivity.
  - reflexivity.
  - reflexivity.
Defined.

Lemma endpoint_calls_keep_period_order_witness :
  period_invariant
    (transaction (run_call jan15 42 sample_call)
       [sample_row active (jan15 + days 5)]).
Proof.
  apply (endpoint_calls_keep_period_order sample_uuid_in
           (fun label => Some label) 0 (fun _ => None) (fun _ => false)
           (sample_request (customer_subscription_deleted sample_subscription))
           (customer_subscription_deleted sample_subscription)
           sample_params sample_call jan15 42
           [sample_row active (jan15 + days 5)]).
  - reflexivity.
  - reflexivity.
  - left. reflexivity.
  - reflexivity.
  - constructor; [reflexivity|constructor].
Defined.

End EndToEnd.

(** ** The client *)

Module ClientProperties.

Import CalendarFacts BillingProperties.

Import Client StoredProcedureProperties.

Section Page.

Variable Date_now : Z.
Variable toLocaleDateString : Z -> string.

(** What [loadBillingData] stores when the database answers the call of
    [checkSubscriptionAccess] at transaction time [now]. *)
Definition subscriptionData (now : timestamptz) (u : uuid) (t : table)
  : SubscriptionAccessStatus :=
  checkSubscriptionAccess Date_now toLocaleDateString u
    (rpc_returns (Some (get_subscription_access_status now u t)) None).

(** X24. The service fails open: it reports no access only when the
    database call returned without error at least one row whose first
    says so; when the call throws, returns an error, null or no row, the
    user is given access with the trial features and no subscription. *)
Theorem service_fails_open (u : uuid) (result : rpc_result) :
  (hasAccess (checkSubscriptionAccess Date_now toLocaleDateString u result)
   = false ->
   exists row rest,
     result = rpc_returns (Some (row :: rest)) None
     /\ Access.has_access row = false)
  /\ ((forall row rest, result <> rpc_returns (Some (row :: rest)) None) ->
      let d := checkSubscriptionAccess Date_now toLocaleDateString u result in
      hasAccess d = true /\ subscription d = None
      /\ features d = getTrialFeatures /\ daysRemaining d = 30
      /\ isExpired d = false /\ isCancelled d = false).
Proof.
  split.
  - destruct result as [|[[|row rest]|] [err|]]; cbn; try discriminate.
    intros H. exists row, rest. split; [reflexivity|exact H].
  - intros H. destruct result as [|[[|row rest]|] [err|]]; cbn;
      try (repeat split; reflexivity).
    exfalso. exact (H row rest eq_refl).
Qed.

Lemma subscriptionData_row (now : timestamptz) (u : uuid) (t : table)
    (r : subscriptions) :
  latest_subscription u t = Some r ->
  let d := subscriptionData now u t in
  (exists sub, subscription d = Some sub
               /\ Subscription.id sub = Some (id r)
               /\ Subscription.plan_type sub = plan_type r
               /\ Subscription.status sub = status r) /\
  hasAccess d
  = subscription_status_eqb (status r) active
    || subscription_status_eqb (status r) cancelled
       && negb (current_period_end r <=? now) /\
  isExpired d = (current_period_end r <=? now) /\
  isCancelled d = subscription_status_eqb (status r) cancelled.
Proof.
  unfold latest_subscription. intros H.
  unfold subscriptionData, get_subscription_access_status. rewrite H.
  cbn. split; [eexists; cbn; repeat split|]. repeat split.
Qed.

Lemma subscriptionData_none (now : timestamptz) (u : uuid) (t : table) :
  latest_subscription u t = None ->
  subscriptionData now u t
  = mkStatus true
      (Some (Subscription.mk None u "trial"%string active None None now
               (timestamptz_pl_interval now (INTERVAL_days 30)) now now))
      getTrialFeatures 30 false false "Free Trial - 30 days".
Proof.
  unfold latest_subscription. intros H.
  unfold subscriptionData, get_subscription_access_status. rewrite H.
  reflexivity.
Qed.

Lemma latest_subscription_none (u : uuid) (t : table) :
  (forall r, In r t -> user_id r <> u) -> latest_subscription u t = None.
Proof.
  intros H. unfold latest_subscription.
  assert (Hf : filter (fun s => (user_id s =? u)%N) t = []).
  { induction t as [|x rest IH]; [reflexivity|]. cbn [filter].
    destruct (N.eqb_spec (user_id x) u) as [E|_].
    - exfalso. exact (H x (or_introl eq_refl) E).
    - apply IH. intros r Hr. apply H. right. exact Hr. }
  rewrite Hf. reflexivity.
Qed.

(** X25. For a user without a row the page shows the plan card of a
    free trial marked Active, with a subscription that has no id, the
    trial features and 30 days remaining; it offers Upgrade and neither
    Cancel nor Reactivate. *)
Theorem page_without_row (now : timestamptz) (u : uuid) (t : table) :
  (forall r, In r t -> user_id r <> u) ->
  let d := subscriptionData now u t in
  (exists sub, subscription d = Some sub /\ Subscription.id sub = None
               /\ getPlanDisplayName (Subscription.plan_type sub)
                  = "Free Trial"%string) /\
  hasAccess d = true /\ features d = getTrialFeatures /\
  daysRemaining d = 30 /\
  status_badge d = Some "Active"%string /\
  upgrade_button d = true /\ cancel_button d = false /\
  reactivate_button d = false.
Proof.
  intros H.
  rewrite (subscriptionData_none now u t (latest_subscription_none _ _ H)).
  cbn. split; [eexists; repeat split|]. repeat split.
Qed.

(** X26. With one row per user, the page offers Reactivate exactly when
    [reactivate_subscription], called at the time the page was loaded,
    succeeds. *)
Theorem reactivate_offered_iff_allowed (now : timestamptz) (u : uuid)
    (pm : text) (t : table) :
  one_row_per_user t ->
  reactivate_button (subscriptionData now u t) = true
  <-> exists t', reactivate_subscription now u pm t = (inr tt, t').
Proof.
  intros Hone. pose proof (current_is_latest u t Hone) as Hcur.
  unfold reactivate_subscription, bind, SELECT_INTO_WHERE_user_id.
  fold (current_subscription u t). rewrite Hcur.
  destruct (latest_subscription u t) as [r|] eqn:Hlatest.
  - destruct (subscriptionData_row now u t r Hlatest)
      as ((sub & Hsub & _) & _ & Hexp & Hcan).
    unfold reactivate_button. rewrite Hsub, Hexp, Hcan.
    unfold UPDATE_subscriptions, RAISE_EXCEPTION, ret.
    destruct (status r); cbn;
      destruct (current_period_end r <=? now); cbn;
      split; intros H; try discriminate; try (destruct H; discriminate);
      eauto.
  - rewrite (subscriptionData_none now u t Hlatest). cbn.
    split; [discriminate|intros [t' H]; discriminate].
Qed.

(** The row a user is shown after a status change. *)
Lemma latest_after_set_status (now0 : timestamptz) (u : uuid)
    (st : subscription_status) (t : table) (r0 : subscriptions) :
  current_subscription u t = Some r0 ->
  exists r,
    In r t /\ user_id r = u /\
    latest_subscription u (updated_rows now0 u (set_status st now0) t)
    = Some (update_billing_period_text now0 (set_status st now0 r)).
Proof.
  intros Hcur.
  destruct (current_subscription_some _ _ _ Hcur) as [Hin0 Hu0].
  set (t' := updated_rows now0 u (set_status st now0) t).
  assert (Hrow : exists x, In x t' /\ user_id x = u).
  { exists (update_billing_period_text now0 (set_status st now0 r0)).
    split; [|exact Hu0]. unfold t', updated_rows. apply in_map_iff.
    exists r0. split; [|exact Hin0].
    apply N.eqb_eq in Hu0. rewrite Hu0. reflexivity. }
  destruct (latest_subscription_found _ _ Hrow) as [r' Hlatest].
  destruct (latest_subscription_spec _ _ _ Hlatest) as (Hin' & Hu' & _).
  destruct (updated_rows_written now0 u (set_status st now0) t r'
              (fun _ => eq_refl) Hin' Hu') as (r & Hin & Hu & Hr').
  exists r. subst r'. auto.
Qed.

(** X27. After a successful cancel the page, loaded at any time, never
    offers Cancel and offers Reactivate exactly until the period end of
    the user's row; after a successful reactivate it never offers
    Reactivate, and offers Cancel until the period end unless the plan
    is the trial. *)
Theorem buttons_follow_lifecycle (now0 now : timestamptz) (u : uuid)
    (t t' : table) :
  (forall reason,
     cancel_subscription_safe now0 u reason t = (inr tt, t') ->
     exists r, In r t /\ user_id r = u /\
       cancel_button (subscriptionData now u t') = false /\
       reactivate_button (subscriptionData now u t')
       = (now <? current_period_end r))
  /\ (forall pm,
        reactivate_subscription now0 u pm t = (inr tt, t') ->
        exists r, In r t /\ user_id r = u /\
          reactivate_button (subscriptionData now u t') = false /\
          cancel_button (subscriptionData now u t')
          = (now <? current_period_end r)
            && negb (plan_type r =? "trial")%string).
Proof.
  split.
  - intros reason H.
    destruct (cancel_success_rows _ _ _ _ _ H) as (r0 & Hcur & _ & ->).
    destruct (latest_after_set_status now0 u cancelled t r0 Hcur)
      as (r & Hin & Hu & Hlatest).
    exists r. split; [exact Hin|]. split; [exact Hu|].
    destruct (subscriptionData_row now u _ _ Hlatest)
      as ((sub & Hsub & _) & _ & Hexp & Hcan).
    unfold cancel_button, reactivate_button. rewrite Hsub, Hexp, Hcan.
    cbn. split; [reflexivity|]. rewrite Z.ltb_antisym. reflexivity.
  - intros pm H.
    destruct (reactivate_success_rows _ _ _ _ _ H)
      as (r0 & Hcur & _ & _ & ->).
    destruct (latest_after_set_status now0 u active t r0 Hcur)
      as (r & Hin & Hu & Hlatest).
    exists r. split; [exact Hin|]. split; [exact Hu|].
    destruct (subscriptionData_row now u _ _ Hlatest)
      as ((sub & Hsub & _ & Hplan & _) & _ & Hexp & Hcan).
    unfold cancel_button, reactivate_button.
    rewrite Hsub, Hexp, Hcan, Hplan.
    cbn. split; [reflexivity|]. rewrite Z.ltb_antisym. reflexivity.
Qed.

(** X28. The page marks a user Expired while the service reports access
    exactly when the user's latest row has status [active] and a period
    end that has passed. *)
Theorem expired_badge_with_access (now : timestamptz) (u : uuid) (t : table) :
  status_badge (subscriptionData now u t) = Some "Expired"%string
  /\ hasAccess (subscriptionData now u t) = true
  <-> exists r, latest_subscription u t = Some r /\ status r = active
                /\ current_period_end r <= now.
Proof.
  destruct (latest_subscription u t) as [r|] eqn:Hlatest.
  - destruct (subscriptionData_row now u t r Hlatest)
      as ((sub & Hsub & _ & _ & Hst) & Hacc & Hexp & Hcan).
    unfold status_badge. rewrite Hsub, Hacc, Hexp, Hcan, Hst.
    destruct (Z.leb_spec (current_period_end r) now) as [Hle|Hlt].
    + unfold getStatusText. split.
      * intros [_ H]. exists r. split; [reflexivity|]. split; [|exact Hle].
        destruct (status r); cbn in H; try discriminate. reflexivity.
      * intros (r' & E & Hactive & _). injection E as <-.
        rewrite Hactive. split; reflexivity.
    + split.
      * intros [H _]. exfalso.
        destruct (status r); cbn in H; discriminate.
      * intros (r' & E & _ & Hle). injection E as <-. lia.
  - rewrite (subscriptionData_none now u t Hlatest). cbn.
    split; [intros [H _]; discriminate|intros (r & H & _); discriminate].
Qed.

End Page.

(** A page loaded at 2024-01-15 for user 7. *)
Definition sample_page (t : table) : SubscriptionAccessStatus :=
  subscriptionData 1705276800000 (fun _ => "Jan 15, 2024"%string) jan15 7 t.

Lemma service_fails_open_witness :
  exists row rest,
    rpc_returns
      (Some (get_subscription_access_status jan15 7
               [sample_row past_due (jan15 + days 5)])) None
    = rpc_returns (Some (row :: rest)) None
    /\ Access.has_access row = false.
Proof.
  apply (proj1 (service_fails_open 1705276800000
                  (fun _ => "Jan 15, 2024"%string) 7 _)).
  reflexivity.
Defined.

Lemma page_without_row_witness :
  upgrade_button
    (subscriptionData 1705276800000 (fun _ => "Jan 15, 2024"%string) jan15 9
       [sample_row active (jan15 + days 5)]) = true
  /\ cancel_button
       (subscriptionData 1705276800000 (fun _ => "Jan 15, 2024"%string)
          jan15 9 [sample_row active (jan15 + days 5)]) = false.
Proof.
  assert (H : forall r, In r [sample_row active (jan15 + days 5)] ->
                        user_id r <> 9%N)
    by (intros r [<-|[]]; discriminate).
  pose proof (page_without_row 1705276800000
                (fun _ => "Jan 15, 2024"%string) jan15 9
                [sample_row active (jan15 + days 5)] H) as Hpage.
  cbv zeta in Hpage. destruct Hpage as (_ & _ & _ & _ & _ & Hup & Hcan & _).
  split; [exact Hup|exact Hcan].
Defined.

Lemma reactivate_offered_iff_allowed_witness :
  reactivate_button (sample_page [sample_row cancelled (jan15 + days 5)])
  = true
  <-> exists t',
        reactivate_subscription jan15 7 "pm_1"
          [sample_row cancelled (jan15 + days 5)] = (inr tt, t').
Proof.
  apply (reactivate_offered_iff_allowed 1705276800000
           (fun _ => "Jan 15, 2024"%string) jan15 7 "pm_1"
           [sample_row cancelled (jan15 + days 5)]).
  constructor; [intros []|constructor].
Defined.

Lemma buttons_follow_lifecycle_witness :
  exists r,
    In r [sample_row active (jan15 + days 5)] /\ user_id r = 7%N /\
    cancel_button
      (subscriptionData 1705276800000 (fun _ => "Jan 15, 2024"%string)
         (jan15 + days 1) 7
         (updated_rows jan15 7 (set_status cancelled jan15)
            [sample_row active (jan15 + days 5)])) = false /\
    reactivate_button
      (subscriptionData 1705276800000 (fun _ => "Jan 15, 2024"%string)
         (jan15 + days 1) 7
         (updated_rows jan15 7 (set_status cancelled jan15)
            [sample_row active (jan15 + days 5)]))
    = (jan15 + days 1 <? current_period_end r).
Proof.
  apply (proj1 (buttons_follow_lifecycle 1705276800000
                  (fun _ => "Jan 15, 2024"%string) jan15 (jan15 + days 1) 7
                  [sample_row active (jan15 + days 5)] _) None).
  reflexivity.
Defined.

Lemma expired_badge_with_access_witness :
  status_badge (sample_page [sample_row active (jan15 - days 1)])
  = Some "Expired"%string
  /\ hasAccess (sample_page [sample_row active (jan15 - days 1)]) = true.
Proof.
  apply (proj2 (expired_badge_with_access 1705276800000
                  (fun _ => "Jan 15, 2024"%string) jan15 7
                  [sample_row active (jan15 - days 1)])).
  eexists. split; [reflexivity|]. split; [reflexivity|].
  vm_compute. discriminate.
Defined.

End ClientProperties.
